(** * aufs5-standalone: entry-creation transactions and pseudo-links

    A shallow embedding of [fs/aufs/i_op_add.c], [fs/aufs/plink.c] and the
    accessors of [fs/aufs/dentry.h], with the properties of the design
    document stated and proved over it.

    Conventions.
    - C integers are [Z]; [int] results are [0] or a negated errno.
    - A C pointer is a [Z]: [0] is [NULL], the values [-4095 .. -1] are the
      kernel's [ERR_PTR] encoding, anything else is an address.
    - Functions of the repository whose bodies live in other files are the
      collaborators of a transaction.  Their results come from an [oracle]
      and every call is recorded in the trace of the run. *)

From stdpp Require Import base tactics numbers option list gmap strings pretty.
From Stdlib Require Import ZArith Lia.

Local Open Scope Z_scope.

(** ** errno values and the ERR_PTR encoding (linux/errno.h, linux/err.h) *)
Module Errno.
Definition ENOENT : Z := 2.
Definition EIO : Z := 5.
Definition EAGAIN : Z := 11.
Definition ENOMEM : Z := 12.
Definition EBUSY : Z := 16.
Definition EEXIST : Z := 17.
Definition ENOTDIR : Z := 20.
Definition EISDIR : Z := 21.
Definition ENOSPC : Z := 28.
Definition ENAMETOOLONG : Z := 36.
Definition EOPNOTSUPP : Z := 95.
Definition EWOULDBLOCK : Z := EAGAIN.
Definition MAX_ERRNO : Z := 4095.

(** [IS_ERR(p)]: the pointer lies in the last page of the address space. *)
Definition IS_ERR (p : Z) : bool := (- MAX_ERRNO <=? p) && (p <? 0).

(** C truth value of an integer or a pointer. *)
Definition nz (x : Z) : bool := negb (x =? 0).

End Errno.
Export Errno.

(** ** Mount flags (the opts.h part of the sources) *)
Module Opts.
Definition AuOpt_XINO : Z := 1.
Definition AuOpt_TRUNC_XINO : Z := Z.shiftl 1 1.
Definition AuOpt_UDBA_NONE : Z := Z.shiftl 1 2.
Definition AuOpt_UDBA_REVAL : Z := Z.shiftl 1 3.
(** with CONFIG_AUFS_HNOTIFY; the value is only ever compared with
    [AuOpt_UDBA_NONE] here *)
Definition AuOpt_UDBA_HNOTIFY : Z := Z.shiftl 1 4.
Definition AuOpt_PLINK : Z := Z.shiftl 1 6.
Definition AuOpt_DIO : Z := Z.shiftl 1 14.

Definition AuOpt_Def : Z :=
  Z.lor AuOpt_XINO (Z.lor AuOpt_UDBA_REVAL AuOpt_PLINK).
Definition AuOptMask_UDBA : Z :=
  Z.lor AuOpt_UDBA_NONE (Z.lor AuOpt_UDBA_REVAL AuOpt_UDBA_HNOTIFY).

(** [au_opt_test(flags, name)] is [flags & AuOpt_##name]. *)
Definition au_opt_test (flags name : Z) : Z := Z.land flags name.

(** Modelled from the spec: [au_opt_udba] is only declared in the header;
    it yields the "undirected-branch-access mode" of the mount, the part
    of the mount flags under [AuOptMask_UDBA]. *)
Definition au_opt_udba (mntflags : Z) : Z := Z.land mntflags AuOptMask_UDBA.

(** [au_opt_set(flags, name)]; the [BUILD_BUG_ON] refuses, at compile
    time, a [name] among the UDBA modes. *)
Definition au_opt_set (flags name : Z) : Z := Z.lor flags name.

(** [au_opt_set_udba(flags, name)]: clear the UDBA modes, then set one. *)
Definition au_opt_set_udba (flags name : Z) : Z :=
  Z.lor (Z.land flags (Z.lnot AuOptMask_UDBA)) name.

(** [au_opt_clr(flags, name)] *)
Definition au_opt_clr (flags name : Z) : Z := Z.land flags (Z.lnot name).

(** [au_opts_plink]; the first argument tells whether CONFIG_PROC_FS is
    defined. *)
Definition au_opts_plink (CONFIG_PROC_FS : bool) (mntflags : Z) : Z :=
  if CONFIG_PROC_FS then mntflags
  else Z.land mntflags (Z.lnot AuOpt_PLINK).

End Opts.
Export Opts.

(** ** dentry.h: the per-entry branch index *)
Module Dentry.

Record au_hdentry := { hd_dentry : Z; hd_id : Z }.

(** [di_hdentry] is the array indexed by branch position; [di_tmpfile] is
    the bit written by [aufs_tmpfile]. *)
Record au_dinfo := {
  di_generation : Z;
  di_btop : Z;
  di_bbot : Z;
  di_bwh : Z;
  di_bdiropq : Z;
  di_hdentry : gmap Z au_hdentry;
  di_tmpfile : Z
}.

Definition au_digen (di : au_dinfo) : Z := di_generation di.
Definition au_dbtop (di : au_dinfo) : Z := di_btop di.
Definition au_dbbot (di : au_dinfo) : Z := di_bbot di.
Definition au_dbwh (di : au_dinfo) : Z := di_bwh di.
Definition au_dbdiropq (di : au_dinfo) : Z := di_bdiropq di.

Definition au_set_dbtop (bindex : Z) (di : au_dinfo) : au_dinfo :=
  {| di_generation := di_generation di; di_btop := bindex;
     di_bbot := di_bbot di; di_bwh := di_bwh di;
     di_bdiropq := di_bdiropq di; di_hdentry := di_hdentry di;
     di_tmpfile := di_tmpfile di |}.

Definition au_set_dbbot (bindex : Z) (di : au_dinfo) : au_dinfo :=
  {| di_generation := di_generation di; di_btop := di_btop di;
     di_bbot := bindex; di_bwh := di_bwh di;
     di_bdiropq := di_bdiropq di; di_hdentry := di_hdentry di;
     di_tmpfile := di_tmpfile di |}.

(** dbwh can be outside of btop - bbot range *)
Definition au_set_dbwh (bindex : Z) (di : au_dinfo) : au_dinfo :=
  {| di_generation := di_generation di; di_btop := di_btop di;
     di_bbot := di_bbot di; di_bwh := bindex;
     di_bdiropq := di_bdiropq di; di_hdentry := di_hdentry di;
     di_tmpfile := di_tmpfile di |}.

Definition au_set_dbdiropq (bindex : Z) (di : au_dinfo) : au_dinfo :=
  {| di_generation := di_generation di; di_btop := di_btop di;
     di_bbot := di_bbot di; di_bwh := di_bwh di;
     di_bdiropq := bindex; di_hdentry := di_hdentry di;
     di_tmpfile := di_tmpfile di |}.

Definition set_di_tmpfile (v : Z) (di : au_dinfo) : au_dinfo :=
  {| di_generation := di_generation di; di_btop := di_btop di;
     di_bbot := di_bbot di; di_bwh := di_bwh di;
     di_bdiropq := di_bdiropq di; di_hdentry := di_hdentry di;
     di_tmpfile := v |}.

(** Modelled from the spec: [au_h_dptr] and [au_set_h_dptr] are declared
    in dentry.h and defined in dinfo.c.  "backing[ ]: ordered sequence,
    index = branch position, value = optional native object handle":
    the lookup yields the handle stored at the position, [NULL] when the
    position is unset, and the setter stores or ([NULL]) unsets it. *)
Definition au_h_dptr (di : au_dinfo) (bindex : Z) : Z :=
  from_option hd_dentry 0 (di_hdentry di !! bindex).

Definition au_set_h_dptr (bindex h_dentry : Z) (di : au_dinfo) : au_dinfo :=
  {| di_generation := di_generation di; di_btop := di_btop di;
     di_bbot := di_bbot di; di_bwh := di_bwh di;
     di_bdiropq := di_bdiropq di;
     di_hdentry :=
       if h_dentry =? 0 then delete bindex (di_hdentry di)
       else <[bindex := {| hd_dentry := h_dentry; hd_id := 0 |}]>
              (di_hdentry di);
     di_tmpfile := di_tmpfile di |}.

(** lock subclass for dinfo *)
Inductive au_lsc_di :=
| AuLsc_DI_CHILD | AuLsc_DI_CHILD2 | AuLsc_DI_CHILD3
| AuLsc_DI_PARENT | AuLsc_DI_PARENT2 | AuLsc_DI_PARENT3
| AuLsc_DI_TMP.

Definition lsc_code (c : au_lsc_di) : Z :=
  match c with
  | AuLsc_DI_CHILD => 0 | AuLsc_DI_CHILD2 => 1 | AuLsc_DI_CHILD3 => 2
  | AuLsc_DI_PARENT => 3 | AuLsc_DI_PARENT2 => 4 | AuLsc_DI_PARENT3 => 5
  | AuLsc_DI_TMP => 6
  end.

End Dentry.
Export Dentry.

(** ** i_op_add.c: inode operations (add entry) *)
Module IOpAdd.

(** *** The state a creation transaction works on *)

(** A native inode of a branch; [i_opaque] is the opaque marker kept
    inside a native directory. *)
Record h_inode := { i_nlink : Z; i_mode : Z; i_opaque : bool }.

(** A native ("lower") dentry: negative when it has no inode. *)
Record h_dentry := { h_d_parent : Z; h_d_inode : option h_inode }.

(** The merged-view dentry; [d_inode] is a pointer, [NULL] when negative. *)
Record dentry := { d_name_len : Z; d_unhashed : bool; d_inode : Z }.

(** The parent directory's inode, as far as the transaction changes it. *)
Record dir_inode := { i_version : Z; dir_nlink : Z }.

Record world := {
  w_dentry : dentry;             (* the entry to create *)
  w_dinfo : au_dinfo;            (* au_di(dentry) *)
  w_fsdata : bool;               (* dentry->d_fsdata != NULL *)
  w_parent : au_dinfo;           (* au_di(parent) *)
  w_dir : dir_inode;             (* dir *)
  w_heap : gmap Z h_dentry;      (* the native dentries, by address *)
  w_mntflags : Z                 (* au_mntflags(sb) *)
}.

Definition set_dentry (d : dentry) (w : world) : world :=
  {| w_dentry := d; w_dinfo := w_dinfo w; w_fsdata := w_fsdata w;
     w_parent := w_parent w; w_dir := w_dir w; w_heap := w_heap w;
     w_mntflags := w_mntflags w |}.
Definition set_dinfo (di : au_dinfo) (w : world) : world :=
  {| w_dentry := w_dentry w; w_dinfo := di; w_fsdata := w_fsdata w;
     w_parent := w_parent w; w_dir := w_dir w; w_heap := w_heap w;
     w_mntflags := w_mntflags w |}.
Definition set_fsdata (b : bool) (w : world) : world :=
  {| w_dentry := w_dentry w; w_dinfo := w_dinfo w; w_fsdata := b;
     w_parent := w_parent w; w_dir := w_dir w; w_heap := w_heap w;
     w_mntflags := w_mntflags w |}.
Definition set_dir (d : dir_inode) (w : world) : world :=
  {| w_dentry := w_dentry w; w_dinfo := w_dinfo w; w_fsdata := w_fsdata w;
     w_parent := w_parent w; w_dir := d; w_heap := w_heap w;
     w_mntflags := w_mntflags w |}.
Definition set_heap (h : gmap Z h_dentry) (w : world) : world :=
  {| w_dentry := w_dentry w; w_dinfo := w_dinfo w; w_fsdata := w_fsdata w;
     w_parent := w_parent w; w_dir := w_dir w; w_heap := h;
     w_mntflags := w_mntflags w |}.

(** *** Collaborators *)

(** The functions a transaction calls in other files of the repository
    and in the kernel. *)
Inductive ext :=
| X_kmalloc | X_au_kfree_rcu
| X_aufs_read_lock | X_aufs_read_unlock
| X_si_read_lock | X_si_read_unlock
| X_inode_lock | X_inode_unlock
| X_di_write_lock_parent | X_di_write_unlock
| X_au_di_init | X_au_di_fin
| X_d_find_any_alias | X_au_digen_test
| X_au_wr_dir | X_au_pin | X_au_unpin
| X_au_dtime_store | X_au_dtime_revert
| X_au_wh_lkup | X_au_wh_unlink_dentry | X_au_wh_create
| X_vfsub_create | X_vfsub_symlink | X_vfsub_mknod | X_vfsub_mkdir
| X_vfsub_unlink | X_vfsub_rmdir
| X_vfsub_mnt_want_write | X_vfsub_mnt_drop_write | X_vfs_tmpfile
| X_au_new_inode | X_d_instantiate | X_d_tmpfile | X_set_nlink
| X_au_dir_ts | X_au_cpup_attr_timesizes
| X_au_diropq_create | X_au_diropq_remove
| X_au_update_dbtop | X_d_drop | X_dput
| X_AuIOErr.

Global Instance ext_eq_dec : EqDecision ext.
Proof. solve_decision. Defined.

(** One call of a collaborator: the function, its arguments that matter
    here, and what it returned. *)
Record event := Ev { ev_fn : ext; ev_args : list Z; ev_ret : Z }.

Global Instance event_eq_dec : EqDecision event.
Proof. solve_decision. Defined.

(** What the collaborators answer during one transaction.  A transaction
    calls each of them at most once, so one answer per function covers
    every behaviour.
    - [o_ret]: the value returned ([int] or pointer);
    - [o_di]: what a collaborator that is handed the merged-view dentry
      does to its branch index;
    - [o_h_parent b]: [au_pinned_h_parent] once branch [b] is pinned;
    - [o_tmpfile_op b]: [au_h_iptr(dir, b)->i_op->tmpfile];
    - [o_ibtop]: [au_ibtop(dir)];
    - [o_inode_nlink]: [i_nlink] of the inode [au_new_inode] returns;
    - [o_parent_d_inode]: [d_inode] of the alias [d_find_any_alias]
      finds. *)
Record oracle := {
  o_ret : ext -> Z;
  o_di : ext -> au_dinfo -> au_dinfo;
  o_h_parent : Z -> Z;
  o_tmpfile_op : Z -> Z;
  o_ibtop : Z;
  o_inode_nlink : Z;
  o_parent_d_inode : Z
}.

(** *** The transaction monad: state and trace *)
Definition M (A : Type) : Type := world -> A * world * list event.

Global Instance M_ret : MRet M := fun A a w => (a, w, []).
Global Instance M_bind : MBind M := fun A B k m w =>
  let '(a, w1, l1) := m w in
  let '(b, w2, l2) := k a w1 in
  (b, w2, l1 ++ l2).

Definition get {A} (f : world -> A) : M A := fun w => (f w, w, []).
Definition modify (f : world -> world) : M unit := fun w => (tt, f w, []).
Definition modify_di (f : au_dinfo -> au_dinfo) : M unit :=
  modify (fun w => set_dinfo (f (w_dinfo w)) w).

(** result, final state and trace of a run *)
Definition result {A} (r : A * world * list event) : A := fst (fst r).
Definition final {A} (r : A * world * list event) : world := snd (fst r).
Definition trace {A} (r : A * world * list event) : list event := snd r.

(** *** Native objects *)
Definition S_IFMT : Z := 61440.   (* 0170000 *)
Definition S_IFDIR : Z := 16384.  (* 0040000 *)
Definition S_IFREG : Z := 32768.  (* 0100000 *)
Definition S_IFLNK : Z := 40960.  (* 0120000 *)
Definition S_ISDIR (m : Z) : bool := Z.land m S_IFMT =? S_IFDIR.

Definition h_inode_of (w : world) (h : Z) : option h_inode :=
  w_heap w !! h ≫= h_d_inode.
Definition h_parent_of (w : world) (h : Z) : Z :=
  from_option h_d_parent 0 (w_heap w !! h).
Definition d_is_positive (w : world) (h : Z) : bool :=
  match h_inode_of w h with Some _ => true | None => false end.
Definition d_is_negative (w : world) (h : Z) : bool :=
  negb (d_is_positive w h).
Definition d_really_is_positive (d : dentry) : bool := nz (d_inode d).
Definition d_really_is_negative (d : dentry) : bool :=
  negb (d_really_is_positive d).

Definition heap_set_inode (h : Z) (i : option h_inode) (w : world) : world :=
  set_heap (<[h := {| h_d_parent := h_parent_of w h; h_d_inode := i |}]>
              (w_heap w)) w.
Definition heap_set_opaque (h : Z) (b : bool) (w : world) : world :=
  match h_inode_of w h with
  | Some i => heap_set_inode h
      (Some {| i_nlink := i_nlink i; i_mode := i_mode i; i_opaque := b |}) w
  | None => w
  end.


(** Constants of aufs_type.h and wbr_policy.h, which the sources here use
    but do not define. *)
Class constants := {
  AUFS_MAX_NAMELEN : Z;
  AuWrDir_ADD_ENTRY : Z;
  AuWrDir_ISDIR : Z;
  AuWrDir_TMPFILE : Z
}.

(** *** The transactions, over any behaviour of the collaborators *)
Section Transaction.

Context {K : constants}.
Variable o : oracle.

Record au_wr_dir_args := { force_btgt : Z; flags : Z }.

Definition au_ftest_wrdir (flags name : Z) : Z := Z.land flags name.

(** A call that is handed native objects only. *)
Definition call (x : ext) (args : list Z) : M Z :=
  fun w => (o_ret o x, w, [Ev x args (o_ret o x)]).

(** A call that is handed the merged-view dentry. *)
Definition call_d (x : ext) (args : list Z) : M Z :=
  fun w => (o_ret o x, set_dinfo (o_di o x (w_dinfo w)) w,
            [Ev x args (o_ret o x)]).

(** A call of a [void] function. *)
Definition call_void (x : ext) (args : list Z) : M unit :=
  fun w => (tt, w, [Ev x args 0]).

(** Modelled from the spec: NativeFsOps
    "create/mknod/symlink/mkdir/rmdir/unlink(parentHandle, path, params)
    -> nativeObject | error".  A creation that succeeds makes the native
    dentry positive, a removal that succeeds makes it negative, one that
    fails changes nothing.  The bodies ([vfsub_*]) are in vfsub.c. *)
Definition native_make (x : ext) (h_path : Z) (i : h_inode) : M Z :=
  err ← call x [h_path];
  if nz err then mret err
  else modify (heap_set_inode h_path (Some i));; mret err.

Definition native_remove (x : ext) (h_path : Z) : M Z :=
  err ← call x [h_path];
  if nz err then mret err
  else modify (heap_set_inode h_path None);; mret err.

Definition vfsub_create (h_path mode : Z) (want_excl : bool) : M Z :=
  native_make X_vfsub_create h_path
    {| i_nlink := 1; i_mode := Z.lor S_IFREG (Z.land mode 4095);
       i_opaque := false |}.
Definition vfsub_symlink (h_path : Z) (symname : string) : M Z :=
  native_make X_vfsub_symlink h_path
    {| i_nlink := 1; i_mode := Z.lor S_IFLNK 511; i_opaque := false |}.
Definition vfsub_mknod (h_path mode dev : Z) : M Z :=
  native_make X_vfsub_mknod h_path
    {| i_nlink := 1; i_mode := mode; i_opaque := false |}.
Definition vfsub_mkdir (h_path mode : Z) : M Z :=
  native_make X_vfsub_mkdir h_path
    {| i_nlink := 2; i_mode := Z.lor S_IFDIR (Z.land mode 4095);
       i_opaque := false |}.
Definition vfsub_unlink (h_path : Z) : M Z :=
  native_remove X_vfsub_unlink h_path.
Definition vfsub_rmdir (h_path : Z) : M Z :=
  native_remove X_vfsub_rmdir h_path.

(** Modelled from the spec: the opaque marker of a directory, and
    "opaquePos: branch position at which this directory is opaque, or
    none"; [au_diropq_create] and [au_diropq_remove] are in whout.c.  The
    marker lives in the native directory backing the entry at [bindex]. *)
Definition au_diropq_create (bindex : Z) : M Z :=
  opq_dentry ← call X_au_diropq_create [bindex];
  if IS_ERR opq_dentry then mret opq_dentry
  else
    modify_di (au_set_dbdiropq bindex);;
    modify (fun w => heap_set_opaque (au_h_dptr (w_dinfo w) bindex) true w);;
    mret opq_dentry.

Definition au_diropq_remove (bindex : Z) : M Z :=
  err ← call X_au_diropq_remove [bindex];
  if nz err then mret err
  else
    modify_di (au_set_dbdiropq (-1));;
    modify (fun w => heap_set_opaque (au_h_dptr (w_dinfo w) bindex) false w);;
    mret err.

(** Modelled from the spec: WhiteoutManager "lookup(parentHandle, name) ->
    optional handle; remove(parentHandle, handle) -> ok|error;
    recreate(entry, branchPosition, parentHandle) -> ok|error" (whout.c).
    Removal and re-creation are handed the entry and may update its
    whiteout position. *)
Definition au_wh_lkup (h_parent bindex : Z) : M Z :=
  call X_au_wh_lkup [h_parent; bindex].
Definition au_wh_unlink_dentry (bindex wh_dentry : Z) : M Z :=
  call_d X_au_wh_unlink_dentry [bindex; wh_dentry].
Definition au_wh_create (bwh h_parent : Z) : M Z :=
  call_d X_au_wh_create [bwh; h_parent].

(** Modelled from the spec: BranchSelector "selectWritableBranch(entry,
    hint, isDirectory) -> branchPosition | error", which "may itself
    trigger copy-up of parent directories" and so may update the entry's
    branch index (wbr_policy.c). *)
Definition au_wr_dir (src_dentry : Z) (args : au_wr_dir_args) : M Z :=
  call_d X_au_wr_dir [src_dentry; force_btgt args; flags args].

(** Modelled from the spec: InodeAttacher "attachNew(entry) -> unionInode |
    error"; it reads the entry's branch index and leaves it as it is
    (inode.c). *)
Definition au_new_inode (must_new : Z) : M Z :=
  call X_au_new_inode [must_new].

(** [d_instantiate], [d_tmpfile] and [d_drop] of the kernel's dcache. *)
Definition d_instantiate (inode : Z) : M unit :=
  call_void X_d_instantiate [inode];;
  modify (fun w => set_dentry
    {| d_name_len := d_name_len (w_dentry w);
       d_unhashed := d_unhashed (w_dentry w); d_inode := inode |} w).
Definition d_tmpfile (inode : Z) : M unit :=
  call_void X_d_tmpfile [inode];;
  modify (fun w => set_dentry
    {| d_name_len := d_name_len (w_dentry w);
       d_unhashed := d_unhashed (w_dentry w); d_inode := inode |} w).
Definition d_drop : M unit :=
  call_void X_d_drop [];;
  modify (fun w => set_dentry
    {| d_name_len := d_name_len (w_dentry w);
       d_unhashed := true; d_inode := d_inode (w_dentry w) |} w).

Definition inode_inc_iversion : M unit :=
  modify (fun w => set_dir
    {| i_version := i_version (w_dir w) + 1;
       dir_nlink := dir_nlink (w_dir w) |} w).
Definition inc_nlink : M unit :=
  modify (fun w => set_dir
    {| i_version := i_version (w_dir w);
       dir_nlink := dir_nlink (w_dir w) + 1 |} w).

(** final procedure of adding a new entry, except link(2): lines 44-70 of
    [epilog], entered with [bwh] as the first part left it. *)
Definition epilog_instantiate (bindex wh_dentry bwh : Z) : M Z :=
  inode ← au_new_inode 1;
  if negb (IS_ERR inode) then
    d_instantiate inode;;
    call_void X_au_dir_ts [bindex];;
    inode_inc_iversion;;
    mret 0 (* success *)
  else
    let err := inode (* PTR_ERR *) in
    if negb (nz wh_dentry) then mret err
    else
      (* revert *)
      wh_parent ← get (fun w => h_parent_of w wh_dentry);
      wh ← au_wh_create bwh wh_parent;
      let rerr := wh in
      if IS_ERR wh then
        call_void X_AuIOErr [err; rerr];;
        mret (- EIO)
      else
        call_void X_dput [wh];;
        mret err.

(** remove whiteout, instantiate, copyup the parent dir's times and size
    and update version.  if it failed, re-create the removed whiteout. *)
Definition epilog (bindex wh_dentry : Z) : M Z :=
  let bwh := -1 in
  if nz wh_dentry then
    bwh ← get (fun w => au_dbwh (w_dinfo w));
    err ← au_wh_unlink_dentry bindex wh_dentry;
    if nz err then mret err
    else epilog_instantiate bindex wh_dentry bwh
  else epilog_instantiate bindex wh_dentry bwh.

Definition au_d_may_add (d : dentry) : Z :=
  let err := 0 in
  let err := if d_unhashed d then - ENOENT else err in
  let err := if d_really_is_positive d then - EEXIST else err in
  err.

(** simple tests for the adding inode operations.
    following the checks in vfs, plus the parent-child relationship. *)
Definition au_may_add (w : world) (bindex h_parent isdir : Z) : Z :=
  if AUFS_MAX_NAMELEN <? d_name_len (w_dentry w) then - ENAMETOOLONG
  else
    let h_dentry := au_h_dptr (w_dinfo w) bindex in
    let parent_test :=
      (* expected parent dir is locked *)
      if negb (h_parent =? h_parent_of w h_dentry) then - EIO else 0 in
    if d_really_is_negative (w_dentry w) then
      if d_is_positive w h_dentry then - EEXIST else parent_test
    else
      (* rename(2) case *)
      match h_inode_of w h_dentry with
      | None => - EIO
      | Some h_inode =>
          if negb (nz (i_nlink h_inode)) then - EIO
          else
            let h_mode := i_mode h_inode in
            if negb (nz isdir) then
              if S_ISDIR h_mode then - EISDIR else parent_test
            else if negb (S_ISDIR h_mode) then - ENOTDIR
            else parent_test
      end.

(** lines 170-175 of [lock_hdir_lkup_wh]: verify the cached branch when
    users may access the branches directly; [err] is 0 on entry *)
Definition lock_hdir_may_add (w : world) (udba bcpup h_parent : Z)
    (wr_dir_args : au_wr_dir_args) (err : Z) : Z :=
  if negb (udba =? AuOpt_UDBA_NONE) && (au_dbtop (w_dinfo w) =? bcpup)
  then au_may_add w bcpup h_parent
         (au_ftest_wrdir (flags wr_dir_args) AuWrDir_ISDIR)
  else if AUFS_MAX_NAMELEN <? d_name_len (w_dentry w)
  then - ENAMETOOLONG
  else err.

(** label [out_unpin] of [lock_hdir_lkup_wh] *)
Definition lock_hdir_lkup_wh_out_unpin (wh_dentry : Z) : M Z :=
  (if IS_ERR wh_dentry then call_void X_au_unpin [] else mret tt);;
  mret wh_dentry.

(** initial procedure of adding a new entry.
    prepare writable branch and the parent dir, lock it,
    and lookup whiteout for the new entry. *)
Definition lock_hdir_lkup_wh (dt : bool) (src_dentry : Z)
    (wr_dir_args : au_wr_dir_args) : M Z :=
  err ← au_wr_dir src_dentry wr_dir_args;
  let bcpup := err in
  let wh_dentry := err (* ERR_PTR *) in
  if err <? 0 then mret wh_dentry
  else
    udba ← get (fun w => au_opt_udba (w_mntflags w));
    err ← call X_au_pin [bcpup; udba];
    let wh_dentry := err in
    if nz err then mret wh_dentry
    else
      let h_parent := o_h_parent o bcpup in
      err ← get (fun w => lock_hdir_may_add w udba bcpup h_parent
                            wr_dir_args err);
      let wh_dentry := err in
      if nz err then lock_hdir_lkup_wh_out_unpin wh_dentry
      else
        (if dt then call_void X_au_dtime_store [h_parent; bcpup]
         else mret tt);;
        let wh_dentry := 0 in
        bwh ← get (fun w => au_dbwh (w_dinfo w));
        if negb (bcpup =? bwh) then mret wh_dentry (* success *)
        else
          wh_dentry ← au_wh_lkup h_parent bcpup;
          lock_hdir_lkup_wh_out_unpin wh_dentry.

(** the two dentries a transaction locks *)
Definition PARENT : Z := 1.
Definition DENTRY : Z := 0.

Inductive simple_arg :=
| Mknod (mode dev : Z)
| Symlink (symname : string)
| Creat (mode : Z) (want_excl : bool).

(** labels [out_free], [out_unlock] and [out_parent] of [add_simple] *)
Definition add_simple_out_free (err : Z) : M Z :=
  call_void X_au_kfree_rcu [];;
  mret err.

Definition add_simple_out_unlock (err : Z) : M Z :=
  (if nz err then call_d X_au_update_dbtop [];; d_drop else mret tt);;
  call_void X_aufs_read_unlock [];;
  add_simple_out_free err.

Definition add_simple_out_parent (err : Z) : M Z :=
  call_void X_di_write_unlock [PARENT];;
  add_simple_out_unlock err.

Definition add_simple (arg : simple_arg) : M Z :=
  a ← call X_kmalloc [];
  if negb (nz a) then mret (- ENOMEM)
  else
    err ← call X_aufs_read_lock [];
    if nz err then add_simple_out_free err
    else
      d ← get w_dentry;
      let err := au_d_may_add d in
      if nz err then add_simple_out_unlock err
      else
        call_void X_di_write_lock_parent [];;
        wh_dentry ← lock_hdir_lkup_wh true 0
          {| force_btgt := -1; flags := AuWrDir_ADD_ENTRY |};
        let err := wh_dentry (* PTR_ERR *) in
        if IS_ERR wh_dentry then add_simple_out_parent err
        else
          btop ← get (fun w => au_dbtop (w_dinfo w));
          h_path ← get (fun w => au_h_dptr (w_dinfo w) btop);
          err ← match arg with
                | Creat mode want_excl => vfsub_create h_path mode want_excl
                | Symlink symname => vfsub_symlink h_path symname
                | Mknod mode dev => vfsub_mknod h_path mode dev
                end;
          let created := negb (nz err) in
          err ← (if negb (nz err) then epilog btop wh_dentry else mret err);
          (* revert *)
          positive ← get (fun w => d_is_positive w h_path);
          err ← (if created && nz err && positive then
                   (* no delegation since it is just created *)
                   rerr ← vfsub_unlink h_path;
                   err ← (if nz rerr then
                            call_void X_AuIOErr [err; rerr];;
                            mret (- EIO)
                          else mret err);
                   call_void X_au_dtime_revert [];;
                   mret err
                 else mret err);
          call_void X_au_unpin [];;
          call_void X_dput [wh_dentry];;
          add_simple_out_parent err.

Definition aufs_mknod (mode dev : Z) : M Z := add_simple (Mknod mode dev).
Definition aufs_symlink (symname : string) : M Z :=
  add_simple (Symlink symname).
Definition aufs_create (mode : Z) (want_excl : bool) : M Z :=
  add_simple (Creat mode want_excl).

(** Modelled from the spec: the kernel's [vfs_tmpfile] "creates the native
    temp object", an unlinked positive dentry under [h_parent], or fails
    and changes nothing. *)
Definition vfs_tmpfile (h_parent mode : Z) : M Z :=
  h_dentry ← call X_vfs_tmpfile [h_parent; mode];
  if IS_ERR h_dentry then mret h_dentry
  else
    modify (fun w => set_heap
      (<[h_dentry := {| h_d_parent := h_parent;
                        h_d_inode := Some {| i_nlink := 0; i_mode := mode;
                                             i_opaque := false |} |}]>
         (w_heap w)) w);;
    mret h_dentry.

(** Modelled from the spec: "BranchIndex ... created when an entry is first
    looked up or instantiated ... destroyed with the owning merged-view
    entry"; [au_di_init] and [au_di_fin] are in dinfo.c. *)
Definition au_di_init : M Z :=
  err ← call_d X_au_di_init [];
  if nz err then mret err else modify (set_fsdata true);; mret err.
Definition au_di_fin : M unit := call_void X_au_di_fin [].

(** labels [out], [out_si], [out_parent] and [out_mnt] of [aufs_tmpfile] *)
Definition aufs_tmpfile_out (dir err : Z) : M Z :=
  call_void X_inode_unlock [dir];;
  mret err.

Definition aufs_tmpfile_out_si (dir err : Z) : M Z :=
  call_void X_si_read_unlock [];;
  aufs_tmpfile_out dir err.

Definition aufs_tmpfile_out_parent (dir err : Z) : M Z :=
  call_void X_di_write_unlock [PARENT];;
  call_void X_dput [PARENT];;
  call_void X_di_write_unlock [DENTRY];;
  (if nz err then au_di_fin;; modify (set_fsdata false) else mret tt);;
  aufs_tmpfile_out_si dir err.

Definition aufs_tmpfile_out_mnt (dir bindex err : Z) : M Z :=
  call_void X_vfsub_mnt_drop_write [bindex];;
  aufs_tmpfile_out_parent dir err.

Definition aufs_tmpfile (dir mode : Z) : M Z :=
  (* copy-up may happen *)
  call_void X_inode_lock [dir];;
  err ← call X_si_read_lock [];
  if nz err then aufs_tmpfile_out dir err
  else
    err ← au_di_init;
    if nz err then aufs_tmpfile_out_si dir err
    else
      let err := - EBUSY in
      parent ← call X_d_find_any_alias [dir];
      call_void X_di_write_lock_parent [];;
      if negb (o_parent_d_inode o =? dir) then aufs_tmpfile_out_parent dir err
      else
        err ← call X_au_digen_test [PARENT];
        if nz err then aufs_tmpfile_out_parent dir err
        else
          bindex ← get (fun w => au_dbtop (w_parent w));
          modify_di (au_set_dbtop bindex);;
          modify_di (au_set_dbbot bindex);;
          err ← au_wr_dir 0 {| force_btgt := -1; flags := AuWrDir_TMPFILE |};
          let bindex := err in
          if err <? 0 then aufs_tmpfile_out_parent dir err
          else
            let err := - EOPNOTSUPP in
            if negb (nz (o_tmpfile_op o bindex))
            then aufs_tmpfile_out_parent dir err
            else
              err ← call X_vfsub_mnt_want_write [bindex];
              if nz err then aufs_tmpfile_out_parent dir err
              else
                h_parent ← get (fun w => au_h_dptr (w_parent w) bindex);
                h_dentry ← vfs_tmpfile h_parent mode;
                if IS_ERR h_dentry
                then aufs_tmpfile_out_mnt dir bindex h_dentry
                else
                  modify_di (au_set_dbtop bindex);;
                  modify_di (au_set_dbbot bindex);;
                  modify_di (au_set_h_dptr bindex h_dentry);;
                  inode ← au_new_inode 1;
                  err ← (if IS_ERR inode then
                           modify_di (au_set_h_dptr bindex 0);;
                           modify_di (au_set_dbtop (-1));;
                           modify_di (au_set_dbbot (-1));;
                           mret inode (* PTR_ERR *)
                         else
                           (if negb (nz (o_inode_nlink o))
                            then call_void X_set_nlink [inode; 1]
                            else mret tt);;
                           d_tmpfile inode;;
                           modify_di (set_di_tmpfile 1);;
                           (* update without i_mutex *)
                           btop ← get (fun w => au_dbtop (w_dinfo w));
                           (if o_ibtop o =? btop
                            then call_void X_au_cpup_attr_timesizes [dir]
                            else mret tt);;
                           mret err);
                  call_void X_dput [h_dentry];;
                  aufs_tmpfile_out_mnt dir bindex err.

(** labels of [aufs_mkdir], innermost last *)
Definition aufs_mkdir_out_free (err : Z) : M Z :=
  call_void X_au_kfree_rcu [];;
  mret err.

Definition aufs_mkdir_out_unlock (err : Z) : M Z :=
  (if nz err then call_d X_au_update_dbtop [];; d_drop else mret tt);;
  call_void X_aufs_read_unlock [];;
  aufs_mkdir_out_free err.

Definition aufs_mkdir_out_parent (err : Z) : M Z :=
  call_void X_di_write_unlock [PARENT];;
  aufs_mkdir_out_unlock err.

Definition aufs_mkdir_out_unpin (wh_dentry err : Z) : M Z :=
  call_void X_au_unpin [];;
  call_void X_dput [wh_dentry];;
  aufs_mkdir_out_parent err.

Definition aufs_mkdir_out_dir (h_path wh_dentry err : Z) : M Z :=
  rerr ← vfsub_rmdir h_path;
  err ← (if nz rerr then
           call_void X_AuIOErr [err; rerr];;
           mret (- EIO)
         else mret err);
  call_void X_au_dtime_revert [];;
  aufs_mkdir_out_unpin wh_dentry err.

(** lines 518-535 of [aufs_mkdir]: the epilogue and the revert of the
    opaque marker *)
Definition aufs_mkdir_epilog (bindex h_path wh_dentry : Z) (diropq : bool)
    : M Z :=
  err ← epilog bindex wh_dentry;
  if negb (nz err) then
    inc_nlink;;
    aufs_mkdir_out_unpin wh_dentry err (* success *)
  else
    (* revert *)
    err ← (if diropq then
             call_void X_inode_lock [h_path];;
             rerr ← au_diropq_remove bindex;
             call_void X_inode_unlock [h_path];;
             if nz rerr then
               call_void X_AuIOErr [err; rerr];;
               mret (- EIO)
             else mret err
           else mret err);
    aufs_mkdir_out_dir h_path wh_dentry err.

Definition aufs_mkdir (mode : Z) : M Z :=
  a ← call X_kmalloc [];
  if negb (nz a) then mret (- ENOMEM)
  else
    err ← call X_aufs_read_lock [];
    if nz err then aufs_mkdir_out_free err
    else
      d ← get w_dentry;
      let err := au_d_may_add d in
      if nz err then aufs_mkdir_out_unlock err
      else
        call_void X_di_write_lock_parent [];;
        wh_dentry ← lock_hdir_lkup_wh true 0
          {| force_btgt := -1;
             flags := Z.lor AuWrDir_ADD_ENTRY AuWrDir_ISDIR |};
        let err := wh_dentry (* PTR_ERR *) in
        if IS_ERR wh_dentry then aufs_mkdir_out_parent err
        else
          bindex ← get (fun w => au_dbtop (w_dinfo w));
          h_path ← get (fun w => au_h_dptr (w_dinfo w) bindex);
          err ← vfsub_mkdir h_path mode;
          if nz err then aufs_mkdir_out_unpin wh_dentry err
          else
            (* make the dir opaque *)
            if nz wh_dentry then
              call_void X_inode_lock [h_path];;
              opq_dentry ← au_diropq_create bindex;
              call_void X_inode_unlock [h_path];;
              let err := opq_dentry (* PTR_ERR *) in
              if IS_ERR opq_dentry
              then aufs_mkdir_out_dir h_path wh_dentry err
              else
                call_void X_dput [opq_dentry];;
                aufs_mkdir_epilog bindex h_path wh_dentry true
            else aufs_mkdir_epilog bindex h_path wh_dentry false.

End Transaction.

(** *** Vocabulary of the properties *)

(** the calls of one collaborator in a trace *)
Definition calls (x : ext) (tr : list event) : list event :=
  filter (fun e => ev_fn e = x) tr.

(** the steps that unwind a directory creation *)
Definition is_unwind (x : ext) : bool :=
  match x with
  | X_au_diropq_remove | X_vfsub_rmdir | X_au_dtime_revert => true
  | _ => false
  end.
Definition unwind (tr : list event) : list event :=
  filter (fun e => is_unwind (ev_fn e) = true) tr.

(** the trace shows that the opaque marker was set *)
Definition opaque_set (tr : list event) : bool :=
  existsb (fun e => negb (IS_ERR (ev_ret e))) (calls X_au_diropq_create tr).

(** whiteouts come into a trace through these calls only *)
Definition is_whiteout_call (x : ext) : bool :=
  match x with
  | X_au_wh_lkup | X_au_wh_unlink_dentry | X_au_wh_create => true
  | _ => false
  end.

(** the collaborators keep to the errno convention where the callers
    rely on it: a negative result of [au_wr_dir] and a non-zero result of
    [au_pin] are negated errno values *)
Definition errno_ok (o : oracle) : Prop :=
  (o_ret o X_au_wr_dir < 0 -> IS_ERR (o_ret o X_au_wr_dir) = true) /\
  (o_ret o X_au_pin <> 0 -> IS_ERR (o_ret o X_au_pin) = true).

(** the collaborators [lock_hdir_lkup_wh] calls *)
Definition setup_call (x : ext) : bool :=
  match x with
  | X_au_wr_dir | X_au_pin | X_au_dtime_store | X_au_wh_lkup | X_au_unpin =>
      true
  | _ => false
  end.

(** the state in which a transaction that was rejected leaves the entry:
    dropped from the dcache, its top branch brought up to date *)
Definition dropped (o : oracle) (w : world) : world :=
  set_dentry {| d_name_len := d_name_len (w_dentry w); d_unhashed := true;
                d_inode := d_inode (w_dentry w) |}
    (set_dinfo (o_di o X_au_update_dbtop (w_dinfo w)) w).

(** [aufs_tmpfile] gets as far as the selection of branch [b] *)
Definition tmpfile_resolves (o : oracle) (dir b : Z) : Prop :=
  o_ret o X_si_read_lock = 0 /\ o_ret o X_au_di_init = 0 /\
  o_parent_d_inode o = dir /\ o_ret o X_au_digen_test = 0 /\
  o_ret o X_au_wr_dir = b /\ 0 <= b.

(** *** Sample inputs *)

(** the values of aufs_type.h and wbr_policy.h in aufs5 *)
Definition K5 : constants :=
  {| AUFS_MAX_NAMELEN := 242; AuWrDir_ADD_ENTRY := 1;
     AuWrDir_ISDIR := Z.shiftl 1 1; AuWrDir_TMPFILE := Z.shiftl 1 2 |}.

(** the branch index of a name that is whited out in branch 2, with a
    negative native dentry at address 100 prepared there *)
Definition di_wh : au_dinfo :=
  {| di_generation := 1; di_btop := 2; di_bbot := 2; di_bwh := 2;
     di_bdiropq := -1;
     di_hdentry := {[ 2 := {| hd_dentry := 100; hd_id := 0 |} ]};
     di_tmpfile := 0 |}.

(** the same name without a whiteout *)
Definition di_plain : au_dinfo := au_set_dbwh (-1) di_wh.

(** the branch index of the parent directory, backed in branch 2 by the
    native dentry at address 50 *)
Definition di_parent : au_dinfo :=
  {| di_generation := 1; di_btop := 2; di_bbot := 2; di_bwh := -1;
     di_bdiropq := -1;
     di_hdentry := {[ 2 := {| hd_dentry := 50; hd_id := 0 |} ]};
     di_tmpfile := 0 |}.

Definition sample_heap : gmap Z h_dentry :=
  {[ 100 := {| h_d_parent := 50; h_d_inode := None |};
     200 := {| h_d_parent := 50;
               h_d_inode := Some {| i_nlink := 1; i_mode := S_IFREG;
                                    i_opaque := false |} |} ]}.

(** a hashed, negative entry "foo" whose name is whited out in branch 2 *)
Definition w_wh : world :=
  {| w_dentry := {| d_name_len := 3; d_unhashed := false; d_inode := 0 |};
     w_dinfo := di_wh; w_fsdata := true; w_parent := di_parent;
     w_dir := {| i_version := 0; dir_nlink := 2 |};
     w_heap := sample_heap; w_mntflags := AuOpt_Def |}.

(** the same entry without a whiteout *)
Definition w_plain : world := set_dinfo di_plain w_wh.

(** the same entry, already positive *)
Definition w_positive : world :=
  set_dentry {| d_name_len := 3; d_unhashed := false; d_inode := 4096 |} w_wh.

(** the same entry, positive and unhashed *)
Definition w_orphan : world :=
  set_dentry {| d_name_len := 3; d_unhashed := true; d_inode := 4096 |} w_wh.

(** an entry for [aufs_tmpfile]: no branch index yet *)
Definition w_tmp : world :=
  {| w_dentry := {| d_name_len := 0; d_unhashed := true; d_inode := 0 |};
     w_dinfo := di_plain; w_fsdata := false; w_parent := di_parent;
     w_dir := {| i_version := 0; dir_nlink := 2 |};
     w_heap := sample_heap; w_mntflags := AuOpt_Def |}.

(** collaborators that answer [f], select branch 2 and touch no branch
    index *)
Definition oracle_of (f : ext -> Z) : oracle :=
  {| o_ret := f; o_di := fun _ di => di; o_h_parent := fun _ => 50;
     o_tmpfile_op := fun _ => 1; o_ibtop := 2; o_inode_nlink := 0;
     o_parent_d_inode := 7 |}.

(** every collaborator succeeds; the whiteout found is at address 200, the
    new inode at 4096, the temporary file at 300 *)
Definition answers_ok (x : ext) : Z :=
  match x with
  | X_kmalloc => 1024 | X_au_wr_dir => 2 | X_au_wh_lkup => 200
  | X_au_new_inode => 4096 | X_au_wh_create => 201
  | X_au_diropq_create => 202 | X_vfs_tmpfile => 300
  | X_d_find_any_alias => 8
  | _ => 0
  end.
Definition o_ok : oracle := oracle_of answers_ok.

(** the inode cannot be allocated, the whiteout is restored, but the
    native object just created cannot be unlinked *)
Definition o_unlink_fails : oracle :=
  oracle_of (fun x => match x with
                      | X_au_new_inode => - ENOMEM
                      | X_vfsub_unlink => - EBUSY
                      | X_vfsub_rmdir => - EBUSY
                      | _ => answers_ok x
                      end).

(** the inode cannot be allocated, and the whiteout cannot be restored *)
Definition o_wh_create_fails : oracle :=
  oracle_of (fun x => match x with
                      | X_au_new_inode => - ENOMEM
                      | X_au_wh_create => - ENOSPC
                      | _ => answers_ok x
                      end).

(** the inode cannot be allocated, everything is undone *)
Definition o_new_inode_fails : oracle :=
  oracle_of (fun x => match x with
                      | X_au_new_inode => - ENOMEM
                      | _ => answers_ok x
                      end).

(** the opaque marker cannot be made *)
Definition o_diropq_fails : oracle :=
  oracle_of (fun x => match x with
                      | X_au_diropq_create => - ENOSPC
                      | _ => answers_ok x
                      end).

(** the opaque marker cannot be made, nor the directory removed *)
Definition o_diropq_rmdir_fail : oracle :=
  oracle_of (fun x => match x with
                      | X_au_diropq_create => - ENOSPC
                      | X_vfsub_rmdir => - EBUSY
                      | _ => answers_ok x
                      end).

(** the branch selected has no tmpfile operation *)
Definition o_no_tmpfile : oracle :=
  {| o_ret := answers_ok; o_di := fun _ di => di; o_h_parent := fun _ => 50;
     o_tmpfile_op := fun _ => 0; o_ibtop := 2; o_inode_nlink := 0;
     o_parent_d_inode := 7 |}.

(** *** More vocabulary and sample inputs *)

(** the calls of a collaborator that returned 0 *)
Definition succeeded (x : ext) (tr : list event) : list event :=
  filter (fun e => ev_ret e = 0) (calls x tr).

(** the allocations that returned memory *)
Definition allocated (tr : list event) : list event :=
  filter (fun e => ev_ret e <> 0) (calls X_kmalloc tr).

(** the native creations a trace holds *)
Definition is_native_make (x : ext) : bool :=
  match x with
  | X_vfsub_create | X_vfsub_symlink | X_vfsub_mknod | X_vfsub_mkdir
  | X_vfs_tmpfile => true
  | _ => false
  end.
Definition native_makes (tr : list event) : list event :=
  filter (fun e => is_native_make (ev_fn e) = true) tr.

(** the entry "foo" with a name of 300 characters *)
Definition w_long : world :=
  set_dentry {| d_name_len := 300; d_unhashed := false; d_inode := 0 |} w_plain.

(** the whiteout is found but cannot be removed *)
Definition o_wh_unlink_fails : oracle :=
  oracle_of (fun x => match x with
                      | X_au_wh_unlink_dentry => - EBUSY
                      | _ => answers_ok x
                      end).

(** the alias of the directory belongs to another inode *)
Definition o_other_parent : oracle :=
  {| o_ret := answers_ok; o_di := fun _ di => di; o_h_parent := fun _ => 50;
     o_tmpfile_op := fun _ => 1; o_ibtop := 2; o_inode_nlink := 0;
     o_parent_d_inode := 9 |}.

(** what is taken in a run is given back in it: the memory, the read lock
    of the superblock, the lock of the parent and the pin of the branch *)
Definition balanced (tr : list event) : Prop :=
  length (calls X_au_kfree_rcu tr) = length (allocated tr) /\
  length (calls X_aufs_read_unlock tr) =
    length (succeeded X_aufs_read_lock tr) /\
  length (calls X_di_write_unlock tr) =
    length (calls X_di_write_lock_parent tr) /\
  length (calls X_au_unpin tr) = length (succeeded X_au_pin tr).

(** the steps that undo or give up a creation *)
Definition is_revert (x : ext) : bool :=
  match x with
  | X_vfsub_unlink | X_vfsub_rmdir | X_au_wh_create | X_au_diropq_remove
  | X_au_dtime_revert | X_au_update_dbtop | X_d_drop | X_AuIOErr => true
  | _ => false
  end.
Definition reverts (tr : list event) : list event :=
  filter (fun e => is_revert (ev_fn e) = true) tr.

(** the native creation an argument of [add_simple] asks for *)
Definition make_of (arg : simple_arg) : ext :=
  match arg with
  | Creat _ _ => X_vfsub_create
  | Symlink _ => X_vfsub_symlink
  | Mknod _ _ => X_vfsub_mknod
  end.

(** the parent's inode after an entry was added to it *)
Definition dir_touched (d : dir_inode) : dir_inode :=
  {| i_version := i_version d + 1; dir_nlink := dir_nlink d |}.

(** the parent's inode after a directory was added to it *)
Definition dir_linked (d : dir_inode) : dir_inode :=
  {| i_version := i_version d + 1; dir_nlink := dir_nlink d + 1 |}.

(** what [aufs_tmpfile] takes in a run is given back in it *)
Definition tmpfile_balanced (tr : list event) : Prop :=
  length (calls X_inode_lock tr) = 1%nat /\
  length (calls X_inode_unlock tr) = 1%nat /\
  length (calls X_si_read_unlock tr) = length (succeeded X_si_read_lock tr) /\
  length (calls X_vfsub_mnt_drop_write tr) =
    length (succeeded X_vfsub_mnt_want_write tr) /\
  length (calls X_di_write_unlock tr) =
    (2 * length (calls X_di_write_lock_parent tr))%nat.

End IOpAdd.

(** ** plink.c: pseudo-link *)
Module Plink.

(** *** Tasks and their ancestry *)

(** A task with the chain of its [real_parent]s.  The chain ends in the
    task that is its own [real_parent] (init_task).  [pid] is
    [task->pid], [vnr] what [task_pid_vnr] returns for it. *)
Inductive task_struct :=
| InitTask (pid vnr : Z)
| Task (pid vnr : Z) (parent : task_struct).

Definition task_pid (t : task_struct) : Z :=
  match t with InitTask pid _ => pid | Task pid _ _ => pid end.
Definition task_pid_vnr (t : task_struct) : Z :=
  match t with InitTask _ vnr => vnr | Task _ vnr _ => vnr end.
Definition real_parent (t : task_struct) : task_struct :=
  match t with InitTask _ _ => t | Task _ _ p => p end.

(** the ancestors of a task, nearest first; the self-parented task at the
    top is its own ancestor *)
Fixpoint chain (t : task_struct) : list task_struct :=
  match t with
  | InitTask _ _ => [t]
  | Task _ _ p => t :: chain p
  end.
Definition ancestors (t : task_struct) : list task_struct :=
  chain (real_parent t).

(** *** The superblock, the inodes and the link farms *)

(** An aufs inode: its address, its number and the numbers of the native
    inodes behind it ([au_h_iptr(inode, bindex)->i_ino]). *)
Record inode := { i_addr : Z; i_ino : Z; i_hino : Z -> Z }.

(** A native dentry handed to [au_plink_append], by the number of its
    inode. *)
Record h_dentry := { h_d_ino : Z }.

Record world := {
  si_mntflags : Z;
  si_plink_maint_pid : Z;
  si_plink_wq : list Z;               (* tasks asleep on si_plink_wq *)
  si_plink : list (list Z);           (* the hash chains, inode addresses *)
  i_count : gmap Z Z;                 (* reference counts, by address *)
  wbr_plink : gmap Z (gmap string Z)  (* the link farm of each branch:
                                         name to native inode number *)
}.

Definition set_maint_pid (pid : Z) (w : world) : world :=
  {| si_mntflags := si_mntflags w; si_plink_maint_pid := pid;
     si_plink_wq := si_plink_wq w; si_plink := si_plink w;
     i_count := i_count w; wbr_plink := wbr_plink w |}.
Definition set_wq (q : list Z) (w : world) : world :=
  {| si_mntflags := si_mntflags w;
     si_plink_maint_pid := si_plink_maint_pid w;
     si_plink_wq := q; si_plink := si_plink w;
     i_count := i_count w; wbr_plink := wbr_plink w |}.
Definition set_plink (t : list (list Z)) (w : world) : world :=
  {| si_mntflags := si_mntflags w;
     si_plink_maint_pid := si_plink_maint_pid w;
     si_plink_wq := si_plink_wq w; si_plink := t;
     i_count := i_count w; wbr_plink := wbr_plink w |}.
Definition set_i_count (c : gmap Z Z) (w : world) : world :=
  {| si_mntflags := si_mntflags w;
     si_plink_maint_pid := si_plink_maint_pid w;
     si_plink_wq := si_plink_wq w; si_plink := si_plink w;
     i_count := c; wbr_plink := wbr_plink w |}.
Definition set_wbr_plink (d : gmap Z (gmap string Z)) (w : world) : world :=
  {| si_mntflags := si_mntflags w;
     si_plink_maint_pid := si_plink_maint_pid w;
     si_plink_wq := si_plink_wq w; si_plink := si_plink w;
     i_count := i_count w; wbr_plink := d |}.

(** What a run does besides changing the state. *)
Inductive event :=
| E_si_read_unlock | E_si_noflush_read_lock
| E_si_write_lock | E_si_write_unlock
| E_au_nwt_flush
| E_spin_lock | E_spin_unlock
| E_sleep (pid : Z)                    (* wait_event puts the task to sleep *)
| E_wake_up (pid : Z)                  (* wake_up_all reaches the task *)
| E_hlist_bl_lock (i : Z) | E_hlist_bl_unlock (i : Z)
| E_hlist_bl_find (i addr found : Z)   (* hlist_bl_for_each_entry *)
| E_hlist_bl_add_head (i addr : Z)
| E_hlist_bl_del (i addr : Z)
| E_au_igrab (addr : Z) | E_iput (addr : Z)
| E_AuWarn1 (cnt : Z)
| E_pr_warn_delegation (op : string)    (* cannot retry for NFSv4 delegation *)
| E_pr_warn (err : Z)                  (* err %d, damaged pseudo link. *)
| E_au_wkq_wait (wkq_err : Z)
| E_inode_lock (bindex : Z) | E_inode_unlock (bindex : Z)
| E_vfsub_lkup_one (name : string) (r : Z)
| E_vfsub_unlink (name : string) (err : Z)
| E_vfsub_link (name : string) (err : Z).

Global Instance event_eq_dec : EqDecision event.
Proof. solve_decision. Defined.

Definition M (A : Type) : Type := world -> A * world * list event.

Global Instance M_ret : MRet M := fun A a w => (a, w, []).
Global Instance M_bind : MBind M := fun A B k m w =>
  let '(a, w1, l1) := m w in
  let '(b, w2, l2) := k a w1 in
  (b, w2, l1 ++ l2).

Definition get {A} (f : world -> A) : M A := fun w => (f w, w, []).
Definition modify (f : world -> world) : M unit := fun w => (tt, f w, []).
Definition ev (e : event) : M unit := fun w => (tt, w, [e]).
Definition evs (l : list event) : M unit := fun w => (tt, w, l).

Definition result {A} (r : A * world * list event) : A := fst (fst r).
Definition final {A} (r : A * world * list event) : world := snd (fst r).
Definition trace {A} (r : A * world * list event) : list event := snd r.

(** Constants of super.h and aufs_type.h, which plink.c uses but does not
    define. *)
Class constants := {
  AuLock_FLUSH : Z;
  AuLock_NOPLM : Z;
  AuLock_NOPLMW : Z;
  AuPlink_NHASH : Z;
  AUFS_PLINK_WARN : Z
}.

(** What the collaborators of one [au_plink_append] answer:
    - [o_root]: [uid_eq(current_fsuid(), GLOBAL_ROOT_UID)];
    - [o_wkq_err]: what [au_wkq_wait] returns;
    - [o_lkup n]: [0], or the [ERR_PTR] the [n]-th last [vfsub_lkup_one]
      of the retry loop fails with;
    - [o_unlink], [o_link]: what [vfsub_unlink] and [vfsub_link] return. *)
Record oracle := {
  o_root : bool;
  o_wkq_err : Z;
  o_lkup : nat -> Z;
  o_unlink : Z;
  o_link : Z
}.

Section Plink.
Context {K : constants}.

Definition au_ftest_lock (flags name : Z) : Z := Z.land flags name.

(** *** the pseudo-link maintenance mode *)

(** What a call that may block comes to: it returns, or the task is left
    asleep in [wait_event]. *)
Inductive outcome := Ret (err : Z) | Sleep.

(** lines 51-65 of [au_plink_maint]: walk up the [real_parent]s;
    [parent] has just been dereferenced and differs from [prev]. *)
Fixpoint au_plink_maint_walk (pid : Z) (parent : task_struct) : bool :=
  let ppid := task_pid_vnr parent in
  if pid =? ppid then true
  else
    match parent with
    | InitTask _ _ => false (* parent->real_parent == prev: break *)
    | Task _ _ p => au_plink_maint_walk pid p
    end.

(** lines 71-79 of [au_plink_maint], from the test of the [while] on.
    [wait_event] with a false condition leaves the task asleep on
    [si_plink_wq]. *)
Definition au_plink_maint_wait (current : task_struct) (flags : Z)
    : M outcome :=
  pid ← get si_plink_maint_pid;
  if nz pid then
    ev E_si_read_unlock;;
    (* gave up wake_up_bit() *)
    modify (fun w => set_wq (si_plink_wq w ++ [task_pid current]) w);;
    ev (E_sleep (task_pid current));;
    mret Sleep
  else mret (Ret 0).

(** lines 74-79 of [au_plink_maint], run by a task that [wake_up_all]
    has woken: [wait_event] tests its condition again, then the loop goes
    round. *)
Definition au_plink_maint_woken (current : task_struct) (flags : Z)
    : M outcome :=
  pid ← get si_plink_maint_pid;
  if nz pid then
    modify (fun w => set_wq (si_plink_wq w ++ [task_pid current]) w);;
    ev (E_sleep (task_pid current));;
    mret Sleep
  else
    (if nz (au_ftest_lock flags AuLock_FLUSH) then ev E_au_nwt_flush
     else mret tt);;
    ev E_si_noflush_read_lock;;
    au_plink_maint_wait current flags.

Definition au_plink_maint (current : task_struct) (flags : Z) : M outcome :=
  let err := 0 in
  mntflags ← get si_mntflags;
  if negb (nz (au_opt_test mntflags AuOpt_PLINK)) then mret (Ret err)
  else
    pid ← get si_plink_maint_pid;
    if negb (nz pid) || (pid =? task_pid current) then mret (Ret err)
    else
      (* todo: it highly depends upon /sbin/mount.aufs *)
      if au_plink_maint_walk pid (real_parent current) then mret (Ret err)
      else
        if nz (au_ftest_lock flags AuLock_NOPLMW) then
          (* if there is no i_mutex lock in VFS, we don't need to wait *)
          au_plink_maint_wait current flags
        else if nz (au_ftest_lock flags AuLock_NOPLM) then
          mret (Ret (- EAGAIN))
        else mret (Ret err).

Definition au_plink_maint_leave : M unit :=
  ev E_spin_lock;;
  modify (set_maint_pid 0);;
  ev E_spin_unlock;;
  (* wake_up_all *)
  wq ← get si_plink_wq;
  modify (set_wq []);;
  evs (E_wake_up <$> wq).

Definition au_plink_maint_enter (current : task_struct) : M Z :=
  let err := 0 in
  (* make sure i am the only one in this fs *)
  ev E_si_write_lock;;
  mntflags ← get si_mntflags;
  err ← (if nz (au_opt_test mntflags AuOpt_PLINK) then
           ev E_spin_lock;;
           pid ← get si_plink_maint_pid;
           err ← (if negb (nz pid)
                  then modify (set_maint_pid (task_pid current));; mret err
                  else mret (- EBUSY));
           ev E_spin_unlock;;
           mret err
         else mret err);
  ev E_si_write_unlock;;
  mret err.

(** *** the table of pseudo-linked inodes *)

Variable o : oracle.

(** Modelled from the spec: [au_plink_hash] is in super.h; an entry is
    "inserted into bucket hash(nativeInodeNumber) mod N_HASH". *)
Definition au_plink_hash (ino : Z) : Z := ino `mod` AuPlink_NHASH.

(** [sbinfo->si_plink + i] *)
Definition hbl (i : Z) (w : world) : list Z :=
  default [] (si_plink w !! Z.to_nat i).
Definition set_hbl (i : Z) (l : list Z) (w : world) : world :=
  set_plink (<[Z.to_nat i := l]> (si_plink w)) w.

(** [hlist_bl_for_each_entry] with the test [&icntnr->vfs_inode == inode] *)
Fixpoint hlist_bl_find (l : list Z) (addr : Z) : Z :=
  match l with
  | [] => 0
  | x :: l' => if x =? addr then 1 else hlist_bl_find l' addr
  end.

Definition hlist_bl_add_head (i addr : Z) : M unit :=
  ev (E_hlist_bl_add_head i addr);;
  modify (fun w => set_hbl i (addr :: hbl i w) w).

(** unlink the node of [addr] from its chain *)
Fixpoint hlist_bl_del (l : list Z) (addr : Z) : list Z :=
  match l with
  | [] => []
  | x :: l' => if x =? addr then l' else x :: hlist_bl_del l' addr
  end.

(** Modelled from the spec: [au_hbl_count] and [au_hbl_del] are in hbl.h;
    the "chain length" of a bucket, and "the entry is removed from the
    table", each under the lock of the bucket. *)
Definition au_hbl_count (i : Z) : M Z :=
  ev (E_hlist_bl_lock i);;
  l ← get (hbl i);
  ev (E_hlist_bl_unlock i);;
  mret (Z.of_nat (length l)).

Definition au_hbl_del (i addr : Z) : M unit :=
  ev (E_hlist_bl_lock i);;
  ev (E_hlist_bl_del i addr);;
  modify (fun w => set_hbl i (hlist_bl_del (hbl i w) addr) w);;
  ev (E_hlist_bl_unlock i).

(** Modelled from the spec: "the table holds a strong reference to the
    backing inode for every entry it contains"; [au_igrab] (inode.h) takes
    one, the kernel's [iput] releases one. *)
Definition refs (addr : Z) (w : world) : Z := default 0 (i_count w !! addr).
Definition au_igrab (addr : Z) : M unit :=
  ev (E_au_igrab addr);;
  modify (fun w => set_i_count (<[addr := refs addr w + 1]> (i_count w)) w).
Definition iput (addr : Z) : M unit :=
  ev (E_iput addr);;
  modify (fun w => set_i_count (<[addr := refs addr w - 1]> (i_count w)) w).

(** is the inode pseudo-linked? *)
Definition au_plink_test (inode : inode) : M Z :=
  let i := au_plink_hash (i_ino inode) in
  ev (E_hlist_bl_lock i);;
  l ← get (hbl i);
  let found := hlist_bl_find l (i_addr inode) in
  ev (E_hlist_bl_find i (i_addr inode) found);;
  ev (E_hlist_bl_unlock i);;
  mret found.

(** generate a name for plink.
    the file will be stored under AUFS_WH_PLINKDIR. *)
(* 20 is max digits length of ulong 64 *)
Definition PLINK_NAME_LEN : Z := (20 + 1) * 2.

(** [snprintf(name, len, "%lu.%lu", ...)]: the buffer holds at most
    [len - 1] characters, the result is the length of the whole text. *)
Definition plink_name (len : Z) (inode : inode) (bindex : Z) : string * Z :=
  let h_ino := i_hino inode bindex in
  let s := pretty (i_ino inode) +:+ "." +:+ pretty h_ino in
  (String.substring 0 (Z.to_nat (len - 1)) s, Z.of_nat (String.length s)).

(** [QSTR_INIT(a, 0)] with [len] set afterwards *)
Definition qstr (a : string) (len : Z) : string :=
  String.substring 0 (Z.to_nat len) a.

(** the link farm [wbr->wbr_plink] of the branch at [bindex] *)
Definition farm (bindex : Z) (w : world) : gmap string Z :=
  default ∅ (wbr_plink w !! bindex).
Definition set_farm (bindex : Z) (d : gmap string Z) (w : world) : world :=
  set_wbr_plink (<[bindex := d]> (wbr_plink w)) w.

(** Modelled from the spec: NativeFsOps in the link-farm directory,
    "looking up the deterministic name", "unlinking it", "linking the
    backing object under that name" (vfsub.c).  The lookup yields an
    [ERR_PTR], or a dentry together with the number of its inode if it is
    positive. *)
Definition vfsub_lkup_one (n : nat) (tgt : string) (bindex : Z)
    : M (Z * option Z) :=
  let r := o_lkup o n in
  ev (E_vfsub_lkup_one tgt r);;
  d ← get (farm bindex);
  mret (r, if IS_ERR r then None else d !! tgt).

Definition vfsub_unlink (tgt : string) (bindex : Z) : M Z :=
  let err := o_unlink o in
  ev (E_vfsub_unlink tgt err);;
  (if nz err then mret tt
   else modify (fun w => set_farm bindex (delete tgt (farm bindex w)) w));;
  mret err.

Definition vfsub_link (h_dentry : h_dentry) (tgt : string) (bindex : Z)
    : M Z :=
  let err := o_link o in
  ev (E_vfsub_link tgt err);;
  (if nz err then mret tt
   else modify (fun w =>
          set_farm bindex (<[tgt := h_d_ino h_dentry]> (farm bindex w)) w));;
  mret err.

(** label [again] of [do_whplink]: lines 264-296, at the [n]-th passage.
    [None] when the passages allowed by [fuel] are used up. *)
Fixpoint do_whplink_again (fuel n : nat) (tgt : string) (bindex : Z)
    (h_dentry : h_dentry) : M (option Z) :=
  match fuel with
  | O => mret None
  | S fuel' =>
      r ← vfsub_lkup_one n tgt bindex;
      let h_path := r.1 in
      let err := h_path (* PTR_ERR *) in
      if IS_ERR h_path then mret (Some err)
      else
        let err := 0 in
        (* wh.plink dir is not monitored *)
        (* todo: is it really safe? *)
        match r.2 with
        | Some ino =>
            if negb (ino =? h_d_ino h_dentry) then
              err ← vfsub_unlink tgt bindex;
              (if err =? - EWOULDBLOCK
               then ev (E_pr_warn_delegation "unlink") else mret tt);;
              if negb (nz err)
              then do_whplink_again fuel' (S n) tgt bindex h_dentry
              else mret (Some err)
            else mret (Some err)
        | None =>
            err ← vfsub_link h_dentry tgt bindex;
            (if err =? - EWOULDBLOCK
             then ev (E_pr_warn_delegation "link") else mret tt);;
            mret (Some err)
        end
  end.

(** create a pseudo-link.  A passage is repeated only after it has
    unlinked a name of the link farm, so the names in the farm bound the
    passages; [do_whplink_again_fuel] below shows that the bound is never
    reached. *)
Definition do_whplink (tgt : string) (bindex : Z) (h_dentry : h_dentry)
    : M Z :=
  ev (E_inode_lock bindex);;
  fuel ← get (fun w => S (size (farm bindex w)));
  r ← do_whplink_again fuel 0 tgt bindex h_dentry;
  ev (E_inode_unlock bindex);;
  mret (default (- EIO) r).

(** Modelled from the spec: PrivilegedWorker "accepts a unit of work and
    runs it with elevated privilege on a dedicated execution context,
    returning its result to the blocked caller" ([au_wkq_wait], wkq.c);
    when it fails the work is not run. *)
Definition au_wkq_wait {A} (work : M A) (dflt : A) : M (Z * A) :=
  let wkq_err := o_wkq_err o in
  ev (E_au_wkq_wait wkq_err);;
  if nz wkq_err then mret (wkq_err, dflt)
  else a ← work; mret (wkq_err, a).

Definition whplink (h_dentry : h_dentry) (inode : inode) (bindex : Z)
    : M Z :=
  let '(a, rlen) := plink_name PLINK_NAME_LEN inode bindex in
  let tgtname := qstr a rlen in
  (* always superio. *)
  if negb (o_root o) then
    r ← au_wkq_wait (do_whplink tgtname bindex h_dentry) 0;
    let '(wkq_err, err) := r in
    if nz wkq_err then mret wkq_err else mret err
  else do_whplink tgtname bindex h_dentry.

(** lines 371-400 of [au_plink_append]: with a reference taken, test and
    insert under the lock of the bucket, then make the link. *)
Definition au_plink_append_locked (inode : inode) (bindex : Z)
    (h_dentry : h_dentry) : M unit :=
  let i := au_plink_hash (i_ino inode) in
  au_igrab (i_addr inode);;
  ev (E_hlist_bl_lock i);;
  l ← get (hbl i);
  let found := hlist_bl_find l (i_addr inode) in
  ev (E_hlist_bl_find i (i_addr inode) found);;
  (if negb (nz found) then hlist_bl_add_head i (i_addr inode) else mret tt);;
  ev (E_hlist_bl_unlock i);;
  if negb (nz found) then
    cnt ← au_hbl_count i;
    (if AUFS_PLINK_WARN <? cnt then ev (E_AuWarn1 cnt) else mret tt);;
    err ← whplink h_dentry inode bindex;
    if nz err then
      ev (E_pr_warn err);;
      au_hbl_del i (i_addr inode);;
      iput (i_addr inode)
    else mret tt
  else iput (i_addr inode).

(** create a new pseudo-link for @h_dentry on @bindex.
    the linked inode is held in aufs @inode. *)
Definition au_plink_append (inode : inode) (bindex : Z)
    (h_dentry : h_dentry) : M unit :=
  found ← au_plink_test inode;
  if nz found then mret tt
  else au_plink_append_locked inode bindex h_dentry.

(** *** Vocabulary of the properties *)

(** the PLINK mount option is set *)
Definition plink_enabled (w : world) : Prop :=
  au_opt_test (si_mntflags w) AuOpt_PLINK <> 0.

(** the comparison of lines 47 and 56-60 of [au_plink_maint]: the pid
    recorded in the gate is the pid of the caller, or the pid number that
    [task_pid_vnr] gives for one of its ancestors *)
Definition owner_in_ancestry (pid : Z) (current : task_struct) : Prop :=
  pid = task_pid current \/
  exists a, a ∈ ancestors current /\ task_pid_vnr a = pid.

(** the gate is held, and that comparison finds no match *)
Definition held_by_other (w : world) (current : task_struct) : Prop :=
  si_plink_maint_pid w <> 0 /\
  ~ owner_in_ancestry (si_plink_maint_pid w) current.

(** the task recorded in the gate, which [au_plink_maint_enter] records by
    its [pid], is the caller or one of its ancestors *)
Definition owner_is_kin (pid : Z) (current : task_struct) : Prop :=
  pid = task_pid current \/
  exists a, a ∈ ancestors current /\ task_pid a = pid.

(** the gate is held by a task that is neither the caller nor one of its
    ancestors *)
Definition held_by_stranger (w : world) (current : task_struct) : Prop :=
  si_plink_maint_pid w <> 0 /\
  ~ owner_is_kin (si_plink_maint_pid w) current.

(** no pid namespace stands between the caller and its ancestors:
    [task_pid_vnr] gives each of them the pid it has *)
Definition pids_visible (current : task_struct) : Prop :=
  forall a, a ∈ ancestors current -> task_pid_vnr a = task_pid a.

(** NOPLM without NOPLMW: the caller cannot wait *)
Definition fast_fail (flags : Z) : Prop :=
  au_ftest_lock flags AuLock_NOPLMW = 0 /\
  au_ftest_lock flags AuLock_NOPLM <> 0.

(** one [au_plink_maint_enter] after the other *)
Fixpoint enters (ts : list task_struct) (w : world) : list Z * world :=
  match ts with
  | [] => ([], w)
  | t :: ts' =>
      let r := au_plink_maint_enter t w in
      let rs := enters ts' (final r) in
      (result r :: rs.1, rs.2)
  end.

(** the table has its [AuPlink_NHASH] chains *)
Definition table_wf (w : world) : Prop :=
  0 < AuPlink_NHASH /\ length (si_plink w) = Z.to_nat AuPlink_NHASH.

(** the entries the table holds for an inode *)
Definition entries (inode : inode) (w : world) : nat :=
  length (filter (fun x => x = i_addr inode)
            (hbl (au_plink_hash (i_ino inode)) w)).

(** the state after lines 371-386 of [au_plink_append] have inserted *)
Definition inserted (inode : inode) (w : world) : world :=
  let i := au_plink_hash (i_ino inode) in
  let w0 := set_i_count (<[i_addr inode := refs (i_addr inode) w + 1]>
                           (i_count w)) w in
  set_hbl i (i_addr inode :: hbl i w0) w0.

(** the section of [au_plink_append] that inserts, as the trace shows it *)
Definition locked_insert (inode : inode) : list event :=
  let i := au_plink_hash (i_ino inode) in
  [E_hlist_bl_lock i; E_hlist_bl_find i (i_addr inode) 0;
   E_hlist_bl_add_head i (i_addr inode); E_hlist_bl_unlock i].

End Plink.

(** *** Sample inputs *)

(** the values of super.h and aufs_type.h in aufs5 *)
Definition K5 : constants :=
  {| AuLock_FLUSH := Z.shiftl 1 3; AuLock_NOPLM := Z.shiftl 1 5;
     AuLock_NOPLMW := Z.shiftl 1 6; AuPlink_NHASH := 100;
     AUFS_PLINK_WARN := 50 |}.

Definition sample_table : list (list Z) := replicate 100 [].

(** a mount with the default options, nothing pseudo-linked *)
Definition w_plink : world :=
  {| si_mntflags := AuOpt_Def; si_plink_maint_pid := 0; si_plink_wq := [];
     si_plink := sample_table; i_count := {[ 4096 := 1 ]};
     wbr_plink := {[ 0 := ∅ ]} |}.

(** the same mount with [noplink], a maintainer with pid 5 recorded *)
Definition w_noplink : world :=
  {| si_mntflags := Z.lor AuOpt_XINO AuOpt_UDBA_REVAL;
     si_plink_maint_pid := 5; si_plink_wq := [];
     si_plink := sample_table; i_count := ∅; wbr_plink := ∅ |}.

(** the same mount with [noplink], the gate free *)
Definition w_noplink_free : world := set_maint_pid 0 w_noplink.

(** the maintainer with pid 5 holds the gate, two tasks sleep on it *)
Definition w_plink_held : world :=
  set_wq [11; 12] (set_maint_pid 5 w_plink).

Definition task_init : task_struct := InitTask 0 0.
Definition task_5 : task_struct := Task 5 5 (Task 1 1 task_init).
Definition task_7 : task_struct := Task 7 7 (Task 1 1 task_init).
(** a child of the maintainer *)
Definition task_9 : task_struct := Task 9 9 task_5.

(** a child of the maintainer in a pid namespace of its own, from which
    the maintainer is not visible: [task_pid_vnr] gives 0 for it *)
Definition task_9_ns : task_struct :=
  Task 9 1 (Task 5 0 (Task 1 0 task_init)).

(** a task of another pid namespace, in which its parent, whose pid is
    77, has the pid number 5 *)
Definition task_8_ns : task_struct :=
  Task 8 6 (Task 77 5 (Task 70 1 task_init)).

Definition sample_inode : inode :=
  {| i_addr := 4096; i_ino := 42; i_hino := fun _ => 7 |}.
Definition sample_h_dentry : h_dentry := {| h_d_ino := 7 |}.

(** every collaborator succeeds *)
Definition o_ok : oracle :=
  {| o_root := true; o_wkq_err := 0; o_lkup := fun _ => 1;
     o_unlink := 0; o_link := 0 |}.

(** the link in the link farm fails for want of space *)
Definition o_link_fails : oracle :=
  {| o_root := true; o_wkq_err := 0; o_lkup := fun _ => 1;
     o_unlink := 0; o_link := - ENOSPC |}.

End Plink.

(** ** plink.c: looking a pseudo-link up and freeing the table *)
Module PlinkRest.
Import Plink.
Import Stdlib.Strings.Ascii.

(** What these functions do besides what [Plink.event] names. *)
Inductive event :=
| E_plink (e : Plink.event)
| E_inode_lock_shared (bindex : Z)     (* inode_lock_shared_nested *)
| E_inode_unlock_shared (bindex : Z)
| E_pr_warn_not_flushed.               (* pseudo-link is not flushed *)

Global Instance event_eq_dec : EqDecision event.
Proof. solve_decision. Defined.

Definition M (A : Type) : Type := world -> A * world * list event.

Global Instance M_ret : MRet M := fun A a w => (a, w, []).
Global Instance M_bind : MBind M := fun A B k m w =>
  let '(a, w1, l1) := m w in
  let '(b, w2, l2) := k a w1 in
  (b, w2, l1 ++ l2).

Definition get {A} (f : world -> A) : M A := fun w => (f w, w, []).
Definition modify (f : world -> world) : M unit := fun w => (tt, f w, []).
Definition ev (e : event) : M unit := fun w => (tt, w, [e]).

(** a run of [Plink.M] inside a run of this module *)
Definition lift {A} (m : Plink.M A) : M A := fun w =>
  let '(a, w1, l) := m w in (a, w1, E_plink <$> l).

Definition result {A} (r : A * world * list event) : A := fst (fst r).
Definition final {A} (r : A * world * list event) : world := snd (fst r).
Definition trace {A} (r : A * world * list event) : list event := snd r.

Section PlinkRest.
Context {K : constants}.
Variable o : oracle.

Definition au_do_plink_lkup (tgtname : string) (bindex : Z)
    : M (Z * option Z) :=
  ev (E_inode_lock_shared bindex);;
  h_dentry ← lift (vfsub_lkup_one o 0 tgtname bindex);
  ev (E_inode_unlock_shared bindex);;
  mret h_dentry.

(** [au_wkq_wait] of [Plink], for a unit of work of this module *)
Definition au_wkq_wait {A} (work : M A) (dflt : A) : M (Z * A) :=
  let wkq_err := o_wkq_err o in
  ev (E_plink (E_au_wkq_wait wkq_err));;
  if nz wkq_err then mret (wkq_err, dflt)
  else a ← work; mret (wkq_err, a).

(** lookup the plink-ed @inode under the branch at @bindex.  The result
    is the dentry, with the number of its inode if it is positive. *)
Definition au_plink_lkup (inode : inode) (bindex : Z) : M (Z * option Z) :=
  let '(a, rlen) := plink_name PLINK_NAME_LEN inode bindex in
  let tgtname := qstr a rlen in
  if negb (o_root o) then
    r ← au_wkq_wait (au_do_plink_lkup tgtname bindex) (0, None);
    let '(wkq_err, h_dentry) := r in
    if nz wkq_err then mret (wkq_err (* ERR_PTR *), None)
    else mret h_dentry
  else au_do_plink_lkup tgtname bindex.

Definition hlist_bl_empty (l : list Z) : bool :=
  match l with [] => true | _ => false end.

(** [hlist_bl_for_each_entry_safe] with the body [iput(&icntnr->vfs_inode)] *)
Fixpoint iput_each (l : list Z) : Plink.M unit :=
  match l with
  | [] => mret tt
  | addr :: l' => iput addr;; iput_each l'
  end.

(** the [for] of [au_plink_put] from bucket [i] on, [n] buckets to go *)
Fixpoint au_plink_put_for (n : nat) (i warned verbose : Z) : M unit :=
  match n with
  | O => mret tt
  | S n' =>
      l ← get (hbl i);
      warned ← (if negb (nz warned) && nz verbose && negb (hlist_bl_empty l)
                then ev E_pr_warn_not_flushed;; mret 1
                else mret warned);
      lift (iput_each l);;
      (* INIT_HLIST_BL_HEAD *)
      modify (set_hbl i []);;
      au_plink_put_for n' (i + 1) warned verbose
  end.

(** free all plinks *)
Definition au_plink_put (verbose : Z) : M unit :=
  (* no spin_lock since sbinfo is write-locked *)
  let warned := 0 in
  au_plink_put_for (Z.to_nat AuPlink_NHASH) 0 warned verbose.

Definition au_plink_clean (verbose : Z) : M unit :=
  ev (E_plink E_si_write_lock);; (* replaced later *)
  mntflags ← get si_mntflags;
  (if nz (au_opt_test mntflags AuOpt_PLINK) then au_plink_put verbose
   else mret tt);;
  ev (E_plink E_si_write_unlock).

End PlinkRest.

(** *** Vocabulary of the properties *)

(** how often [addr] is in a list of inode addresses *)
Definition count_of (addr : Z) (l : list Z) : nat :=
  length (filter (fun x => x = addr) l).

(** the entries the whole table holds for the inode at [addr] *)
Definition held (addr : Z) (w : world) : nat :=
  count_of addr (concat (si_plink w)).

(** some chain is not empty *)
Definition dirty (t : list (list Z)) : bool :=
  existsb (fun l => negb (hlist_bl_empty l)) t.

(** the warnings of [au_plink_put] in a trace *)
Definition warnings (tr : list event) : nat :=
  length (filter (fun e => e = E_pr_warn_not_flushed) tr).

(** the references released in a trace *)
Definition iputs (tr : list event) : list Z :=
  omap (fun e => match e with E_plink (E_iput a) => Some a | _ => None end)
       tr.

(** the name [whplink] and [au_plink_lkup] give the link of [inode] in the
    link farm of the branch: what [plink_name] leaves in [tgtname] *)
Definition tgtname_of (inode : inode) (bindex : Z) : string :=
  let '(a, rlen) := plink_name PLINK_NAME_LEN inode bindex in qstr a rlen.

(** an inode number as [%lu] prints it *)
Definition ulong (z : Z) : Prop := 0 <= z < 2 ^ 64.

(** a text without a dot *)
Definition dotless (s : string) : Prop :=
  Forall (fun c => c <> "."%char) (String.list_ascii_of_string s).

(** *** Sample inputs *)

(** the default mount with the inodes at 4096 and 8192 pseudo-linked in
    the buckets 42 and 7 *)
Definition w_two : world :=
  {| si_mntflags := AuOpt_Def; si_plink_maint_pid := 0; si_plink_wq := [];
     si_plink := <[7%nat := [8192]]> (<[42%nat := [4096]]> sample_table);
     i_count := {[ 4096 := 2; 8192 := 1 ]};
     wbr_plink := {[ 0 := {[ "42.7" := 7 ]} ]} |}.

(** a caller that is not root: the lookups and links are delegated *)
Definition o_user : oracle :=
  {| o_root := false; o_wkq_err := 0; o_lkup := fun _ => 1;
     o_unlink := 0; o_link := 0 |}.

(** the delegation itself fails *)
Definition o_wkq_fails : oracle :=
  {| o_root := false; o_wkq_err := - ENOMEM; o_lkup := fun _ => 1;
     o_unlink := 0; o_link := 0 |}.

End PlinkRest.

Module ErrnoFacts.

Lemma nz_false x : nz x = false <-> x = 0.
Proof. unfold nz. destruct (Z.eqb_spec x 0); simpl; split; congruence. Qed.

Lemma nz_true x : nz x = true <-> x <> 0.
Proof. unfold nz. destruct (Z.eqb_spec x 0); simpl; split; congruence. Qed.

Lemma IS_ERR_nz p : IS_ERR p = true -> nz p = true.
Proof.
  unfold IS_ERR, nz. intros H. apply andb_prop in H as [_ H].
  apply Z.ltb_lt in H. destruct (Z.eqb_spec p 0); [lia | reflexivity].
Qed.

Lemma IS_ERR_ne_0 p : IS_ERR p = true -> p <> 0.
Proof. intros H. apply nz_true. by apply IS_ERR_nz. Qed.

End ErrnoFacts.

(** * The maintenance gate *)
Module GateSpec.
Import Plink ErrnoFacts.

Section Gate.
Context {K : constants}.

Ltac run :=
  cbv [au_plink_maint au_plink_maint_wait au_plink_maint_woken
       au_plink_maint_enter au_plink_maint_leave
       mbind M_bind mret M_ret get modify ev evs result final trace].

Lemma walk_ancestry pid t :
  au_plink_maint_walk pid t = true <->
  exists a, a ∈ chain t /\ task_pid_vnr a = pid.
Proof.
  induction t as [p v|p v t IH]; simpl.
  - destruct (Z.eqb_spec pid v) as [->|Hne].
    + split; [|done]. intros _. exists (InitTask p v).
      split; [apply list_elem_of_singleton|]; reflexivity.
    + split; [done|]. intros (a & Ha & Hp).
      apply list_elem_of_singleton in Ha. subst a. simpl in Hp. congruence.
  - destruct (Z.eqb_spec pid v) as [->|Hne].
    + split; [|done]. intros _. exists (Task p v t).
      split; [apply elem_of_cons; by left | reflexivity].
    + rewrite IH. split.
      * intros (a & Ha & Hp). exists a. split; [|done].
        apply elem_of_cons. by right.
      * intros (a & Ha & Hp).
        apply elem_of_cons in Ha as [->|Ha]; [simpl in Hp; congruence|].
        eauto.
Qed.

(** the decision [au_plink_maint] takes before it looks at the flags *)
Lemma owner_in_ancestry_dec pid current :
  (pid =? task_pid current) || au_plink_maint_walk pid (real_parent current)
    = true <-> owner_in_ancestry pid current.
Proof.
  unfold owner_in_ancestry, ancestors. rewrite orb_true_iff, walk_ancestry.
  destruct (Z.eqb_spec pid (task_pid current)); intuition congruence.
Qed.

Lemma maint_disabled current flags w :
  au_opt_test (si_mntflags w) AuOpt_PLINK = 0 ->
  au_plink_maint current flags w = (Ret 0, w, []).
Proof. intros H. run. rewrite H. reflexivity. Qed.

Lemma enter_disabled current w :
  au_opt_test (si_mntflags w) AuOpt_PLINK = 0 ->
  au_plink_maint_enter current w = (0, w, [E_si_write_lock; E_si_write_unlock]).
Proof. intros H. run. rewrite H. reflexivity. Qed.

Lemma enter_free current w :
  plink_enabled w -> si_plink_maint_pid w = 0 ->
  au_plink_maint_enter current w =
    (0, set_maint_pid (task_pid current) w,
     [E_si_write_lock; E_spin_lock; E_spin_unlock; E_si_write_unlock]).
Proof.
  intros H H0. apply nz_true in H. run. rewrite H, H0. reflexivity.
Qed.

Lemma enter_held current w :
  plink_enabled w -> si_plink_maint_pid w <> 0 ->
  au_plink_maint_enter current w =
    (- EBUSY, w,
     [E_si_write_lock; E_spin_lock; E_spin_unlock; E_si_write_unlock]).
Proof.
  intros H H0. apply nz_true in H. apply nz_true in H0. run.
  rewrite H, H0. reflexivity.
Qed.

Lemma enters_held ts w :
  plink_enabled w -> si_plink_maint_pid w <> 0 ->
  enters ts w = ((fun _ => - EBUSY) <$> ts, w).
Proof.
  intros H H0. induction ts as [|t ts IH]; [done|].
  simpl. rewrite (enter_held t w H H0). unfold final, result. simpl.
  rewrite IH. reflexivity.
Qed.

Lemma enters_disabled ts w :
  au_opt_test (si_mntflags w) AuOpt_PLINK = 0 ->
  enters ts w = ((fun _ => 0) <$> ts, w).
Proof.
  intros H. induction ts as [|t ts IH]; [done|].
  simpl. rewrite (enter_disabled t w H). unfold final, result. simpl.
  rewrite IH. reflexivity.
Qed.

Lemma leave_spec w :
  au_plink_maint_leave w =
    (tt, set_wq [] (set_maint_pid 0 w),
     [E_spin_lock; E_spin_unlock] ++ (E_wake_up <$> si_plink_wq w)).
Proof. reflexivity. Qed.

Lemma woken_free current flags w :
  si_plink_maint_pid w = 0 ->
  result (au_plink_maint_woken current flags w) = Ret 0 /\
  final (au_plink_maint_woken current flags w) = w.
Proof.
  intros H. run. rewrite H. simpl.
  destruct (nz (au_ftest_lock flags AuLock_FLUSH)); simpl; rewrite H; done.
Qed.

(** C10.  With the PLINK mount option off, [au_plink_maint] returns 0 at
    once for every caller and every flag word, whoever is recorded in the
    gate, and [au_plink_maint_enter] returns 0 and records no owner: any
    number of callers enter one after the other, all with success, and
    leave the state as it was. *)
Theorem plink_disabled_gate_open (w : world) :
  au_opt_test (si_mntflags w) AuOpt_PLINK = 0 ->
  (forall current flags, au_plink_maint current flags w = (Ret 0, w, [])) /\
  (forall current,
     result (au_plink_maint_enter current w) = 0 /\
     final (au_plink_maint_enter current w) = w) /\
  (forall ts, enters ts w = ((fun _ => 0) <$> ts, w)).
Proof.
  intros H. split; [|split].
  - intros. by apply maint_disabled.
  - intros. by rewrite enter_disabled.
  - intros. by apply enters_disabled.
Qed.

(** C4, as amended.  With the PLINK mount option on, the gate free and
    callers whose pid is not 0: of the callers that enter one after the
    other the first succeeds and is recorded as the owner, every later one
    gets -EBUSY and the owner stays; [au_plink_maint_leave] then clears
    the owner, empties the wait queue, wakes every task that slept on it,
    and each of them finds the gate free. *)
Theorem maint_enter_exclusive (w : world) (t : task_struct)
    (ts : list task_struct) :
  plink_enabled w -> si_plink_maint_pid w = 0 -> task_pid t <> 0 ->
  let rs := enters (t :: ts) w in
  rs.1 = 0 :: ((fun _ => - EBUSY) <$> ts) /\
  si_plink_maint_pid rs.2 = task_pid t /\
  let l := au_plink_maint_leave rs.2 in
  si_plink_maint_pid (final l) = 0 /\
  si_plink_wq (final l) = [] /\
  (forall p, p ∈ si_plink_wq rs.2 -> E_wake_up p ∈ trace l) /\
  (forall sleeper flags,
     result (au_plink_maint_woken sleeper flags (final l)) = Ret 0).
Proof.
  intros He Hf Ht. simpl. rewrite (enter_free t w He Hf).
  unfold final, result. simpl.
  rewrite enters_held; [|done|done]. simpl.
  split; [done|]. split; [done|]. split; [done|]. split; [done|]. split.
  - intros p Hp. apply elem_of_cons. right. apply elem_of_cons. right.
    apply list_elem_of_fmap. eauto.
  - intros. by apply woken_free.
Qed.

Lemma kin_iff pid current :
  pids_visible current ->
  owner_in_ancestry pid current <-> owner_is_kin pid current.
Proof.
  intros Hv. unfold owner_in_ancestry, owner_is_kin.
  split; (intros [H|(a & Ha & Hp)]; [by left|]); right; exists a;
    (split; [exact Ha|]); pose proof (Hv a Ha); congruence.
Qed.

Lemma stranger_iff w current :
  pids_visible current ->
  held_by_other w current <-> held_by_stranger w current.
Proof.
  intros Hv. unfold held_by_other, held_by_stranger.
  by rewrite (kin_iff _ _ Hv).
Qed.

(** what [au_plink_maint] does in terms of its own comparison of pids *)
Lemma au_plink_maint_compares (w : world) (current : task_struct) (flags : Z) :
  (plink_enabled w -> fast_fail flags ->
     (au_plink_maint current flags w = (Ret (- EAGAIN), w, []) <->
      held_by_other w current) /\
     (~ held_by_other w current ->
      au_plink_maint current flags w = (Ret 0, w, []))) /\
  (owner_in_ancestry (si_plink_maint_pid w) current ->
   forall flags', au_plink_maint current flags' w = (Ret 0, w, [])).
Proof.
  split.
  - intros He [Hw Hn]. apply nz_true in He. apply nz_true in Hn.
    apply nz_false in Hw. unfold held_by_other.
    pose proof (owner_in_ancestry_dec (si_plink_maint_pid w) current) as Hd.
    run. rewrite He. simpl.
    destruct (nz (si_plink_maint_pid w)) eqn:Hp; simpl.
    + apply nz_true in Hp.
      destruct (si_plink_maint_pid w =? task_pid current) eqn:Hc; simpl.
      * simpl in Hd. split; [split|]; [discriminate| |done].
        intros [_ Hno]. destruct Hno. by apply Hd.
      * simpl in Hd.
        destruct (au_plink_maint_walk _ _) eqn:Ha.
        -- split; [split|]; [discriminate| |done].
           intros [_ Hno]. destruct Hno. by apply Hd.
        -- rewrite Hw, Hn. simpl. split; [split|]; [| done |].
           ++ intros _. split; [done|]. intros Ho. apply Hd in Ho. done.
           ++ intros Hno. destruct Hno. split; [done|].
              intros Ho. apply Hd in Ho. done.
    + apply nz_false in Hp. split; [split|]; [discriminate| |done].
      intros [Hne _]. done.
  - intros Ho flags'. apply owner_in_ancestry_dec in Ho. run.
    destruct (nz (au_opt_test _ _)); simpl; [|done].
    destruct (nz (si_plink_maint_pid w)); simpl; [|done].
    apply orb_true_iff in Ho as [->| ->]; simpl; [done|].
    by destruct (_ =? _).
Qed.

(** C5, as amended.  With the PLINK mount option on, in fast-fail mode
    (NOPLM without NOPLMW) and for a caller whose ancestors have in its
    pid namespace the pid they have ([task_pid_vnr] gives [pid]),
    [au_plink_maint] returns -EAGAIN, at once and without touching the
    state, exactly when the gate is held by a task that is neither the
    caller nor one of its ancestors, and 0 otherwise; and such a caller
    that is the recorded owner, or has it among its ancestors, gets 0 at
    once whatever the flags and the mount options.  For every caller,
    whatever its pid namespace, the same holds of the comparison the code
    makes: of the recorded pid with the pid of the caller and with the pid
    numbers [task_pid_vnr] gives for its ancestors. *)
Theorem au_plink_maint_check (w : world) (current : task_struct) (flags : Z) :
  (pids_visible current ->
   (plink_enabled w -> fast_fail flags ->
      (au_plink_maint current flags w = (Ret (- EAGAIN), w, []) <->
       held_by_stranger w current) /\
      (~ held_by_stranger w current ->
       au_plink_maint current flags w = (Ret 0, w, []))) /\
   (owner_is_kin (si_plink_maint_pid w) current ->
    forall flags', au_plink_maint current flags' w = (Ret 0, w, []))) /\
  (plink_enabled w -> fast_fail flags ->
     (au_plink_maint current flags w = (Ret (- EAGAIN), w, []) <->
      held_by_other w current) /\
     (~ held_by_other w current ->
      au_plink_maint current flags w = (Ret 0, w, []))) /\
  (owner_in_ancestry (si_plink_maint_pid w) current ->
   forall flags', au_plink_maint current flags' w = (Ret 0, w, [])).
Proof.
  destruct (au_plink_maint_compares w current flags) as [Hfast Hkin].
  split; [|split; assumption].
  intros Hv. split.
  - intros He Hff. destruct (Hfast He Hff) as [Hiff H0].
    rewrite <- (stranger_iff w current Hv). split; assumption.
  - intros Ho. apply Hkin. by apply (kin_iff _ _ Hv).
Qed.

(** ** Further properties of the maintenance mode *)

(** X1.  [au_plink_maint_enter] returns 0 or -EBUSY, and -EBUSY exactly
    when the PLINK option is on and an owner is recorded, be it the
    caller itself.  It never replaces a recorded owner, and the owner is
    the only thing it ever writes: a refused call leaves the state as it
    was, an accepted one records the pid of the caller if the option is
    on.  The write lock of the superblock is taken first and released
    last. *)
Theorem au_plink_maint_enter_cases (current : task_struct) (w : world) :
  let r := au_plink_maint_enter current w in
  (result r = 0 \/ result r = - EBUSY) /\
  (result r = - EBUSY <-> plink_enabled w /\ si_plink_maint_pid w <> 0) /\
  (si_plink_maint_pid w <> 0 -> final r = w) /\
  (result r = 0 -> plink_enabled w ->
   final r = set_maint_pid (task_pid current) w) /\
  final r = set_maint_pid (si_plink_maint_pid (final r)) w /\
  (exists mid, trace r = E_si_write_lock :: mid ++ [E_si_write_unlock]).
Proof.
  cbv zeta. unfold plink_enabled.
  destruct (Z.eq_dec (au_opt_test (si_mntflags w) AuOpt_PLINK) 0) as [Hd|He].
  - rewrite (enter_disabled current w Hd). cbv [result final trace].
    cbn [fst snd]. split; [by left|]. split.
    { split; [discriminate|]. intros [Hne _]. done. }
    split; [done|]. split; [done|]. split; [by destruct w|]. by exists [].
  - destruct (Z.eq_dec (si_plink_maint_pid w) 0) as [Hf|Hh].
    + rewrite (enter_free current w He Hf). cbv [result final trace].
      cbn [fst snd]. split; [by left|]. split.
      { split; [discriminate|]. intros [_ Hne]. done. }
      split; [done|]. split; [done|]. split; [done|].
      by exists [E_spin_lock; E_spin_unlock].
    + rewrite (enter_held current w He Hh). cbv [result final trace].
      cbn [fst snd]. split; [by right|]. split; [done|].
      split; [done|]. split; [discriminate|]. split; [by destruct w|].
      by exists [E_spin_lock; E_spin_unlock].
Qed.

(** X2.  With the PLINK option on, the gate free and nobody asleep on
    it, [au_plink_maint_enter] followed by [au_plink_maint_leave] brings
    the state back to what it was; in between the caller is the owner. *)
Theorem maint_enter_leave (current : task_struct) (w : world) :
  plink_enabled w -> si_plink_maint_pid w = 0 -> si_plink_wq w = [] ->
  let r := au_plink_maint_enter current w in
  let l := au_plink_maint_leave (final r) in
  result r = 0 /\
  si_plink_maint_pid (final r) = task_pid current /\
  final l = w /\
  trace l = [E_spin_lock; E_spin_unlock].
Proof.
  intros He Hf Hq. cbv zeta. rewrite (enter_free current w He Hf).
  cbv [result final]. cbn [fst snd]. rewrite leave_spec.
  cbv [result final trace]. cbn [fst snd set_maint_pid si_plink_wq].
  rewrite Hq. split; [done|]. split; [done|]. split; [|done].
  destruct w; cbn in *. by subst.
Qed.


(** the outcomes of [au_plink_maint] in terms of its own comparison of
    pids *)
Lemma au_plink_maint_results (current : task_struct) (flags : Z)
    (w : world) :
  let r := au_plink_maint current flags w in
  (result r = Ret 0 \/ result r = Ret (- EAGAIN) \/ result r = Sleep) /\
  (result r = Ret (- EAGAIN) ->
   fast_fail flags /\ plink_enabled w /\ held_by_other w current) /\
  (result r = Sleep ->
   au_ftest_lock flags AuLock_NOPLMW <> 0 /\ plink_enabled w /\
   held_by_other w current) /\
  (au_ftest_lock flags AuLock_NOPLMW = 0 ->
   au_ftest_lock flags AuLock_NOPLM = 0 -> r = (Ret 0, w, [])) /\
  (result r <> Sleep -> final r = w /\ trace r = []).
Proof.
  cbv zeta. unfold fast_fail, plink_enabled, held_by_other.
  pose proof (owner_in_ancestry_dec (si_plink_maint_pid w) current) as Hd.
  assert (Hleaf : forall x : outcome * world * list event,
            x = (Ret 0, w, []) ->
            (result x = Ret 0 \/ result x = Ret (- EAGAIN) \/
             result x = Sleep) /\
            (result x = Ret (- EAGAIN) ->
             (au_ftest_lock flags AuLock_NOPLMW = 0 /\
              au_ftest_lock flags AuLock_NOPLM <> 0) /\
             au_opt_test (si_mntflags w) AuOpt_PLINK <> 0 /\
             si_plink_maint_pid w <> 0 /\
             ~ owner_in_ancestry (si_plink_maint_pid w) current) /\
            (result x = Sleep ->
             au_ftest_lock flags AuLock_NOPLMW <> 0 /\
             au_opt_test (si_mntflags w) AuOpt_PLINK <> 0 /\
             si_plink_maint_pid w <> 0 /\
             ~ owner_in_ancestry (si_plink_maint_pid w) current) /\
            (au_ftest_lock flags AuLock_NOPLMW = 0 ->
             au_ftest_lock flags AuLock_NOPLM = 0 -> x = (Ret 0, w, [])) /\
            (result x <> Sleep -> final x = w /\ trace x = [])).
  { intros x ->. cbv [result final trace]. cbn [fst snd].
    split; [by left|]. split; [discriminate|]. split; [discriminate|].
    split; done. }
  run.
  destruct (nz (au_opt_test (si_mntflags w) AuOpt_PLINK)) eqn:He; simpl;
    [|exact (Hleaf (Ret 0, w, []) eq_refl)].
  apply nz_true in He.
  destruct (nz (si_plink_maint_pid w)) eqn:Hp; simpl; [|exact (Hleaf (Ret 0, w, []) eq_refl)].
  destruct (si_plink_maint_pid w =? task_pid current) eqn:Hc; simpl;
    [exact (Hleaf (Ret 0, w, []) eq_refl)|].
  destruct (au_plink_maint_walk _ _) eqn:Ha; simpl; [exact (Hleaf (Ret 0, w, []) eq_refl)|].
  simpl in Hd.
  assert (Hno : ~ owner_in_ancestry (si_plink_maint_pid w) current).
  { intros Ho. apply Hd in Ho. discriminate Ho. }
  assert (Hne : si_plink_maint_pid w <> 0) by (by apply nz_true).
  destruct (nz (au_ftest_lock flags AuLock_NOPLMW)) eqn:Hw; simpl.
  - rewrite Hp. simpl. apply nz_true in Hw.
    split; [by right; right|]. split; [discriminate|]. split; [done|].
    split; [intros Hw0; congruence|]. intros H. by destruct H.
  - apply nz_false in Hw.
    destruct (nz (au_ftest_lock flags AuLock_NOPLM)) eqn:Hn; simpl;
      [|exact (Hleaf (Ret 0, w, []) eq_refl)].
    apply nz_true in Hn.
    split; [by right; left|]. split; [done|]. split; [discriminate|].
    split; [intros _ Hn0; congruence|]. done.
Qed.

(** X4.  [au_plink_maint] returns 0 or -EAGAIN, or leaves the caller
    asleep.  It returns -EAGAIN only to a caller with NOPLM and without
    NOPLMW, it blocks only a caller with NOPLMW, and in both cases only
    when the option is on, an owner is recorded, and its pid is neither
    the pid of the caller nor the pid number [task_pid_vnr] gives for one
    of the caller's ancestors; for a caller whose ancestors have in its
    pid namespace the pid they have, that is only when the gate is held
    by a task outside the ancestry of the caller.  A caller with neither
    flag always gets 0.  Unless the caller is put to sleep the state stays
    as it was and nothing else is done. *)
Theorem au_plink_maint_outcomes (current : task_struct) (flags : Z)
    (w : world) :
  let r := au_plink_maint current flags w in
  (result r = Ret 0 \/ result r = Ret (- EAGAIN) \/ result r = Sleep) /\
  (result r = Ret (- EAGAIN) ->
   fast_fail flags /\ plink_enabled w /\ held_by_other w current) /\
  (result r = Sleep ->
   au_ftest_lock flags AuLock_NOPLMW <> 0 /\ plink_enabled w /\
   held_by_other w current) /\
  (pids_visible current -> result r <> Ret 0 ->
   plink_enabled w /\ held_by_stranger w current) /\
  (au_ftest_lock flags AuLock_NOPLMW = 0 ->
   au_ftest_lock flags AuLock_NOPLM = 0 -> r = (Ret 0, w, [])) /\
  (result r <> Sleep -> final r = w /\ trace r = []).
Proof.
  cbv zeta.
  destruct (au_plink_maint_results current flags w)
    as (Hres & Hagain & Hsleep & Hnone & Hstate).
  split; [exact Hres|]. split; [exact Hagain|]. split; [exact Hsleep|].
  split; [|split; assumption].
  intros Hv Hne. rewrite <- (stranger_iff w current Hv).
  destruct Hres as [H0|[Ha|Hs]]; [done| |].
  - destruct (Hagain Ha) as (_ & He & Hh). by split.
  - destruct (Hsleep Hs) as (_ & He & Hh). by split.
Qed.

End Gate.

(** C10, at a mount with [noplink] in whose gate pid 5 is recorded. *)
Lemma plink_disabled_gate_open_witness :
  au_opt_test (si_mntflags w_noplink) AuOpt_PLINK = 0 /\
  au_plink_maint (K := K5) task_7 (AuLock_NOPLM (constants := K5)) w_noplink
    = (Ret 0, w_noplink, []) /\
  enters [task_5; task_7] w_noplink = ([0; 0], w_noplink).
Proof.
  assert (H : au_opt_test (si_mntflags w_noplink) AuOpt_PLINK = 0)
    by reflexivity.
  split; [exact H|].
  destruct (plink_disabled_gate_open (K := K5) w_noplink H) as (Hm & _ & Hs).
  split; [apply Hm | apply (Hs [task_5; task_7])].
Defined.

(** C4 as stated fails: with [noplink] two distinct owners enter one after
    the other, both succeed, neither gets -EBUSY and none is recorded. *)
Lemma maint_enter_exclusive_cex :
  let r1 := au_plink_maint_enter task_5 w_noplink_free in
  let r2 := au_plink_maint_enter task_7 (final r1) in
  task_pid task_5 <> task_pid task_7 /\
  result r1 = 0 /\ si_plink_maint_pid (final r1) = 0 /\
  result r2 = 0 /\ result r2 <> - EBUSY.
Proof. vm_compute. repeat split; congruence. Qed.

(** C4 as amended, at the default mount: the maintainer enters, tasks 7
    and 9 are refused. *)
Lemma maint_enter_exclusive_witness :
  plink_enabled w_plink /\ si_plink_maint_pid w_plink = 0 /\
  task_pid task_5 <> 0 /\
  (enters [task_5; task_7; task_9] w_plink).1 = [0; - EBUSY; - EBUSY] /\
  si_plink_maint_pid (enters [task_5; task_7; task_9] w_plink).2 = 5.
Proof.
  assert (He : plink_enabled w_plink) by (vm_compute; congruence).
  assert (Hf : si_plink_maint_pid w_plink = 0) by reflexivity.
  assert (Ht : task_pid task_5 <> 0) by (vm_compute; congruence).
  split; [exact He|]. split; [exact Hf|]. split; [exact Ht|].
  destruct (maint_enter_exclusive (K := K5) w_plink task_5 [task_7; task_9]
              He Hf Ht) as (H1 & H2 & _).
  split; [exact H1 | exact H2].
Defined.

(** C5 as stated fails.  With [noplink] the gate records pid 5, the caller
    is task 7 with other ancestors, the mode is fast-fail, and the check
    returns 0, not -EAGAIN.  With the option on and the gate held by the
    task of pid 5: its child in a pid namespace of its own, from which
    [task_pid_vnr] gives 0 for the parent, is refused with -EAGAIN; and
    a task of another namespace whose ancestors have the pids 77, 70 and
    0 passes, since the pid number of its parent there is 5. *)
Lemma au_plink_maint_check_cex :
  si_plink_maint_pid w_noplink = 5 /\
  task_pid task_7 = 7 /\
  task_pid_vnr <$> ancestors task_7 = [1; 0] /\
  au_plink_maint (K := K5) task_7 (AuLock_NOPLM (constants := K5)) w_noplink
    = (Ret 0, w_noplink, []) /\
  result (au_plink_maint (K := K5) task_7 (AuLock_NOPLM (constants := K5))
            w_noplink) <> Ret (- EAGAIN) /\
  au_opt_test (si_mntflags w_plink_held) AuOpt_PLINK <> 0 /\
  si_plink_maint_pid w_plink_held = 5 /\
  task_pid <$> ancestors task_9_ns = [5; 1; 0] /\
  au_plink_maint (K := K5) task_9_ns (AuLock_NOPLM (constants := K5))
    w_plink_held = (Ret (- EAGAIN), w_plink_held, []) /\
  task_pid task_8_ns = 8 /\
  task_pid <$> ancestors task_8_ns = [77; 70; 0] /\
  au_plink_maint (K := K5) task_8_ns (AuLock_NOPLM (constants := K5))
    w_plink_held = (Ret 0, w_plink_held, []).
Proof. vm_compute. repeat split; congruence. Qed.

Lemma task_7_visible : pids_visible task_7.
Proof.
  intros a Ha. vm_compute in Ha.
  repeat (apply elem_of_cons in Ha as [->|Ha]; [reflexivity|]).
  by apply elem_of_nil in Ha.
Qed.

Lemma task_9_visible : pids_visible task_9.
Proof.
  intros a Ha. vm_compute in Ha.
  repeat (apply elem_of_cons in Ha as [->|Ha]; [reflexivity|]).
  by apply elem_of_nil in Ha.
Qed.

Lemma task_7_stranger : held_by_stranger w_plink_held task_7.
Proof.
  split; [vm_compute; congruence|]. intros [Hc|(a & Ha & Hp)].
  - vm_compute in Hc. congruence.
  - vm_compute in Ha.
    repeat (apply elem_of_cons in Ha as [->|Ha];
            [vm_compute in Hp; congruence|]).
    by apply elem_of_nil in Ha.
Qed.

(** C5 as amended, at the default mount held by pid 5: task 7 is refused
    in fast-fail mode, task 9, a child of the maintainer, passes. *)
Lemma au_plink_maint_check_witness :
  pids_visible task_7 /\ pids_visible task_9 /\
  plink_enabled w_plink_held /\
  fast_fail (K := K5) (AuLock_NOPLM (constants := K5)) /\
  held_by_stranger w_plink_held task_7 /\
  au_plink_maint (K := K5) task_7 (AuLock_NOPLM (constants := K5))
    w_plink_held = (Ret (- EAGAIN), w_plink_held, []) /\
  owner_is_kin (si_plink_maint_pid w_plink_held) task_9 /\
  au_plink_maint (K := K5) task_9 (AuLock_NOPLMW (constants := K5))
    w_plink_held = (Ret 0, w_plink_held, []).
Proof.
  assert (He : plink_enabled w_plink_held) by (vm_compute; congruence).
  assert (Hff : fast_fail (K := K5) (AuLock_NOPLM (constants := K5)))
    by (vm_compute; split; congruence).
  assert (Ho : owner_is_kin (si_plink_maint_pid w_plink_held) task_9).
  { right. exists task_5. split; [|reflexivity].
    apply elem_of_cons. by left. }
  split; [exact task_7_visible|]. split; [exact task_9_visible|].
  split; [exact He|]. split; [exact Hff|]. split; [exact task_7_stranger|].
  destruct (au_plink_maint_check (K := K5) w_plink_held task_7
              (AuLock_NOPLM (constants := K5))) as [Hvis _].
  destruct (Hvis task_7_visible) as [Hfast _].
  destruct (Hfast He Hff) as [Hiff _].
  split; [apply Hiff; exact task_7_stranger|].
  destruct (au_plink_maint_check (K := K5) w_plink_held task_9 0)
    as [Hvis9 _].
  destruct (Hvis9 task_9_visible) as [_ Hre].
  split; [exact Ho | apply (Hre Ho)].
Defined.

(** X4, at the default mount held by pid 5: task 7, refused in fast-fail
    mode, is a stranger to the maintainer. *)
Lemma au_plink_maint_outcomes_witness :
  pids_visible task_7 /\
  result (au_plink_maint (K := K5) task_7 (AuLock_NOPLM (constants := K5))
            w_plink_held) = Ret (- EAGAIN) /\
  held_by_stranger w_plink_held task_7.
Proof.
  split; [exact task_7_visible|]. split; [reflexivity|].
  destruct (au_plink_maint_outcomes (K := K5) task_7
              (AuLock_NOPLM (constants := K5)) w_plink_held)
    as (_ & _ & _ & Hs & _).
  destruct (Hs task_7_visible) as [_ Hh]; [discriminate|exact Hh].
Defined.

(** X2, at the default mount: task 5 enters and leaves. *)
Lemma maint_enter_leave_witness :
  plink_enabled w_plink /\ si_plink_maint_pid w_plink = 0 /\
  si_plink_wq w_plink = [] /\
  final (au_plink_maint_leave (final (au_plink_maint_enter task_5 w_plink)))
    = w_plink.
Proof.
  assert (He : plink_enabled w_plink) by (vm_compute; congruence).
  split; [exact He|]. split; [reflexivity|]. split; [reflexivity|].
  destruct (maint_enter_leave task_5 w_plink He eq_refl eq_refl)
    as (_ & _ & H & _).
  exact H.
Defined.


End GateSpec.
(** * The table of pseudo-links *)
Module TableSpec.
Import Plink ErrnoFacts.

Section Table.
Context {K : constants}.

Ltac run :=
  cbv [au_plink_append au_plink_append_locked au_plink_test
       au_hbl_count au_hbl_del hlist_bl_add_head au_igrab iput
       whplink au_wkq_wait do_whplink
       vfsub_lkup_one vfsub_unlink vfsub_link
       mbind M_bind mret M_ret get modify ev evs result final trace];
  simpl.

Lemma farm_set_farm b d w : farm b (set_farm b d w) = d.
Proof. unfold farm, set_farm. simpl. by rewrite lookup_insert_eq. Qed.

Lemma set_hbl_id i w :
  0 <= i < Z.of_nat (length (si_plink w)) ->
  <[Z.to_nat i := hbl i w]> (si_plink w) = si_plink w.
Proof.
  intros H. unfold hbl.
  destruct (si_plink w !! Z.to_nat i) as [l|] eqn:E.
  - simpl. by apply list_insert_id.
  - apply lookup_ge_None in E. lia.
Qed.

Lemma hash_range ino w :
  table_wf w ->
  0 <= au_plink_hash ino < Z.of_nat (length (si_plink w)).
Proof.
  intros [Hpos Hlen]. rewrite Hlen, Z2Nat.id by lia.
  unfold au_plink_hash. apply Z.mod_pos_bound. lia.
Qed.

Lemma hlist_bl_del_head l a : hlist_bl_del (a :: l) a = l.
Proof. simpl. by rewrite Z.eqb_refl. Qed.

Lemma hlist_bl_find_head l a : hlist_bl_find (a :: l) a = 1.
Proof. simpl. by rewrite Z.eqb_refl. Qed.

Lemma hlist_bl_find_absent l a :
  hlist_bl_find l a = 0 -> filter (fun x => x = a) l = [].
Proof.
  induction l as [|x l IH]; [done|]. simpl.
  destruct (Z.eqb_spec x a) as [->|Hne]; [discriminate|].
  intros H. rewrite filter_cons_False by done. by apply IH.
Qed.

(** the passages of [do_whplink] never use up their fuel: a second
    passage meets the name it has just unlinked no more *)
Lemma do_whplink_again_fuel o fuel n tgt bindex h w :
  (size (farm bindex w) <= fuel)%nat ->
  exists err,
    result (do_whplink_again o (S fuel) n tgt bindex h w) = Some err.
Proof.
  intros Hsz. cbn [do_whplink_again]. run.
  destruct (IS_ERR (o_lkup o n)) eqn:E1; simpl; rewrite ?E1; [eauto|].
  destruct (farm bindex w !! tgt) as [ino|] eqn:E2; simpl.
  - destruct (ino =? h_d_ino h); simpl; [eauto|].
    destruct (nz (o_unlink o)) eqn:E3; simpl.
    + destruct (o_unlink o =? - EWOULDBLOCK); simpl; rewrite ?E3; eauto.
    + destruct fuel as [|fuel].
      { apply Nat.le_0_r, map_size_empty_inv in Hsz. rewrite Hsz in E2.
        by rewrite lookup_empty in E2. }
      destruct (o_unlink o =? - EWOULDBLOCK); simpl; rewrite ?E3; simpl;
        cbn [do_whplink_again]; run;
        (destruct (IS_ERR (o_lkup o (S n))) eqn:E4; simpl; rewrite ?E4;
         [eauto|]);
        rewrite farm_set_farm, lookup_delete_eq; simpl;
        destruct (nz (o_link o)); simpl;
        destruct (o_link o =? - EWOULDBLOCK); simpl; eauto.
  - destruct (nz (o_link o)); simpl;
      destruct (o_link o =? - EWOULDBLOCK); simpl; eauto.
Qed.

(** [do_whplink] works on the link farms only: the table and the
    reference counts pass through it *)
Lemma do_whplink_again_frame o fuel : forall n tgt bindex h t c w,
  do_whplink_again o fuel n tgt bindex h (set_plink t (set_i_count c w)) =
  let r := do_whplink_again o fuel n tgt bindex h w in
  (result r, set_plink t (set_i_count c (final r)), trace r).
Proof.
  induction fuel as [|fuel IH]; intros; [reflexivity|].
  cbn [do_whplink_again].
  cbv [vfsub_lkup_one vfsub_unlink vfsub_link
       mbind M_bind mret M_ret get modify ev evs result final trace].
  change (farm bindex (set_plink t (set_i_count c w))) with (farm bindex w).
  cbn [fst snd].
  destruct (IS_ERR (o_lkup o n)) eqn:E1; [reflexivity|].
  destruct (farm bindex w !! tgt) as [ino|]; cbn [fst snd].
  - destruct (negb (ino =? h_d_ino h)); [|reflexivity].
    destruct (nz (o_unlink o)) eqn:E3; cbn [negb]; rewrite ?E3; cbn [negb].
    + destruct (o_unlink o =? - EWOULDBLOCK); reflexivity.
    + cbn [fst snd negb app].
      change (farm bindex (set_plink t (set_i_count c w)))
        with (farm bindex w).
      change (set_farm bindex (delete tgt (farm bindex w))
                (set_plink t (set_i_count c w)))
        with (set_plink t (set_i_count c
                (set_farm bindex (delete tgt (farm bindex w)) w))).
      destruct (o_unlink o =? - EWOULDBLOCK); cbn [fst snd negb app];
        rewrite IH; cbv [result final trace];
        destruct (do_whplink_again o fuel (S n) tgt bindex h _)
          as [[r w'] l']; reflexivity.
  - destruct (nz (o_link o));
      destruct (o_link o =? - EWOULDBLOCK); reflexivity.
Qed.

Lemma do_whplink_frame o tgt bindex h t c w :
  do_whplink o tgt bindex h (set_plink t (set_i_count c w)) =
  let r := do_whplink o tgt bindex h w in
  (result r, set_plink t (set_i_count c (final r)), trace r).
Proof.
  cbv [do_whplink mbind M_bind mret M_ret get modify ev result final trace].
  change (farm bindex (set_plink t (set_i_count c w))) with (farm bindex w).
  rewrite do_whplink_again_frame. cbv [result final trace].
  destruct (do_whplink_again o _ 0 _ bindex h w) as [[r w'] l'].
  reflexivity.
Qed.

Lemma whplink_frame o h inode bindex t c w :
  whplink o h inode bindex (set_plink t (set_i_count c w)) =
  let r := whplink o h inode bindex w in
  (result r, set_plink t (set_i_count c (final r)), trace r).
Proof.
  unfold whplink. destruct (plink_name _ _ _) as [a rlen].
  cbv [au_wkq_wait mbind M_bind mret M_ret get modify ev].
  destruct (negb (o_root o)).
  - destruct (nz (o_wkq_err o)) eqn:E; cbn [fst snd]; rewrite ?E;
      [reflexivity|].
    rewrite do_whplink_frame. cbv [result final trace].
    destruct (do_whplink o _ bindex h w) as [[r w'] l']. cbn [fst snd app].
    rewrite ?E. reflexivity.
  - apply do_whplink_frame.
Qed.

(** [whplink] leaves the table and the reference counts alone *)
Lemma whplink_table o h inode bindex w :
  si_plink (final (whplink o h inode bindex w)) = si_plink w /\
  i_count (final (whplink o h inode bindex w)) = i_count w.
Proof.
  pose proof (whplink_frame o h inode bindex (si_plink w) (i_count w) w) as H.
  assert (Hw : set_plink (si_plink w) (set_i_count (i_count w) w) = w)
    by (by destruct w).
  rewrite Hw in H. rewrite H. split; reflexivity.
Qed.

Lemma inserted_frame inode w :
  inserted inode w =
  set_plink (<[Z.to_nat (au_plink_hash (i_ino inode)) :=
               i_addr inode :: hbl (au_plink_hash (i_ino inode)) w]>
               (si_plink w))
    (set_i_count (<[i_addr inode := refs (i_addr inode) w + 1]>
                    (i_count w)) w).
Proof. reflexivity. Qed.

Lemma au_plink_append_locked_absent o inode bindex h w :
  hlist_bl_find (hbl (au_plink_hash (i_ino inode)) w) (i_addr inode) = 0 ->
  let i := au_plink_hash (i_ino inode) in
  let addr := i_addr inode in
  let w1 := inserted inode w in
  let r := whplink o h inode bindex w1 in
  let cnt := Z.of_nat (length (hbl i w1)) in
  let pre := [E_au_igrab addr] ++ locked_insert inode ++
             [E_hlist_bl_lock i; E_hlist_bl_unlock i] ++
             (if AUFS_PLINK_WARN <? cnt then [E_AuWarn1 cnt] else []) ++
             trace r in
  au_plink_append_locked o inode bindex h w =
    if nz (result r) then
      (tt,
       set_i_count (<[addr := refs addr (final r) - 1]> (i_count (final r)))
         (set_hbl i (hlist_bl_del (hbl i (final r)) addr) (final r)),
       pre ++ [E_pr_warn (result r); E_hlist_bl_lock i;
               E_hlist_bl_del i addr; E_hlist_bl_unlock i; E_iput addr])
    else (tt, final r, pre).
Proof.
  intros Hf. cbv zeta.
  cbv [au_plink_append_locked au_hbl_count au_hbl_del hlist_bl_add_head
       au_igrab iput mbind M_bind mret M_ret get modify ev evs locked_insert].
  change (hlist_bl_find
            (hbl (au_plink_hash (i_ino inode))
               (set_i_count (<[i_addr inode:=refs (i_addr inode) w + 1]>
                               (i_count w)) w)) (i_addr inode))
    with (hlist_bl_find (hbl (au_plink_hash (i_ino inode)) w) (i_addr inode)).
  rewrite Hf. cbn [nz Z.eqb negb fst snd app].
  fold (inserted inode w).
  set (w1 := inserted inode w).
  destruct (AUFS_PLINK_WARN <? Z.of_nat (length (hbl _ w1)));
    destruct (whplink o h inode bindex w1) as [[e w'] l];
    cbv [result final trace]; cbn [fst snd app];
    destruct (nz e); cbn [fst snd app]; rewrite ?app_nil_r, <- ?app_assoc;
    reflexivity.
Qed.

Lemma au_plink_append_present o inode bindex h w :
  hlist_bl_find (hbl (au_plink_hash (i_ino inode)) w) (i_addr inode) = 1 ->
  let i := au_plink_hash (i_ino inode) in
  au_plink_append o inode bindex h w =
    (tt, w, [E_hlist_bl_lock i; E_hlist_bl_find i (i_addr inode) 1;
             E_hlist_bl_unlock i]).
Proof.
  intros Hf.
  cbv [au_plink_append au_plink_test mbind M_bind mret M_ret get modify ev].
  rewrite Hf. reflexivity.
Qed.

Lemma au_plink_append_absent o inode bindex h w :
  hlist_bl_find (hbl (au_plink_hash (i_ino inode)) w) (i_addr inode) = 0 ->
  let i := au_plink_hash (i_ino inode) in
  let r := au_plink_append_locked o inode bindex h w in
  au_plink_append o inode bindex h w =
    (tt, final r,
     [E_hlist_bl_lock i; E_hlist_bl_find i (i_addr inode) 0;
      E_hlist_bl_unlock i] ++ trace r).
Proof.
  intros Hf.
  cbv [au_plink_append au_plink_test mbind M_bind mret M_ret get modify ev].
  rewrite Hf. cbn [nz Z.eqb negb fst snd app].
  destruct (au_plink_append_locked o inode bindex h w) as [[[] w'] l].
  reflexivity.
Qed.

(** C8.  When the inode is not in the table, so that [au_plink_append]
    inserts it, and [whplink] then fails with [err]: the entry is taken
    out of the table again, which is as it was before the call, the
    reference taken for it is put back, so that every reference count is
    as before, the failure is logged with [pr_warn], and the caller gets
    nothing but [tt] (the function is [void]). *)
Theorem au_plink_append_rollback (o : oracle) (inode : inode) (bindex : Z)
    (h : h_dentry) (w : world) (err : Z) :
  table_wf w ->
  hlist_bl_find (hbl (au_plink_hash (i_ino inode)) w) (i_addr inode) = 0 ->
  result (whplink o h inode bindex w) = err -> err <> 0 ->
  let i := au_plink_hash (i_ino inode) in
  let r := au_plink_append o inode bindex h w in
  E_hlist_bl_add_head i (i_addr inode) ∈ trace r /\
  E_hlist_bl_del i (i_addr inode) ∈ trace r /\
  E_iput (i_addr inode) ∈ trace r /\
  E_pr_warn err ∈ trace r /\
  si_plink (final r) = si_plink w /\
  entries inode (final r) = 0%nat /\
  (forall a, refs a (final r) = refs a w) /\
  result r = tt.
Proof.
  intros Hwf Hf He Hne. cbv zeta.
  pose proof (hash_range (i_ino inode) w Hwf) as Hr.
  rewrite (au_plink_append_absent o inode bindex h w Hf).
  rewrite (au_plink_append_locked_absent o inode bindex h w Hf).
  cbv zeta. rewrite inserted_frame, whplink_frame. cbv zeta.
  destruct (whplink_table o h inode bindex w) as [Ht Hc].
  destruct (whplink o h inode bindex w) as [[e w'] l].
  cbv [result final trace] in *. cbn [fst snd] in *. subst e.
  apply nz_true in Hne. rewrite Hne. cbn [fst snd].
  assert (Hbk : hbl (au_plink_hash (i_ino inode))
            (set_plink
               (<[Z.to_nat (au_plink_hash (i_ino inode)) :=
                  i_addr inode :: hbl (au_plink_hash (i_ino inode)) w]>
                  (si_plink w))
               (set_i_count (<[i_addr inode:=refs (i_addr inode) w + 1]>
                               (i_count w)) w'))
          = i_addr inode :: hbl (au_plink_hash (i_ino inode)) w).
  { unfold hbl at 1. cbn [si_plink set_plink].
    rewrite list_lookup_insert_eq by lia. reflexivity. }
  split; [|split; [|split; [|split; [|split; [|split; [|split]]]]]].
  - cbn [locked_insert app]. rewrite !elem_of_cons. tauto.
  - rewrite !elem_of_app, !elem_of_cons. tauto.
  - rewrite !elem_of_app, !elem_of_cons. tauto.
  - rewrite !elem_of_app, !elem_of_cons. tauto.
  - cbn [si_plink set_i_count set_hbl set_plink]. rewrite Hbk.
    rewrite hlist_bl_del_head, list_insert_insert_eq.
    apply set_hbl_id. exact Hr.
  - unfold entries. unfold hbl at 1.
    cbn [si_plink set_i_count set_hbl set_plink]. rewrite Hbk.
    rewrite hlist_bl_del_head, list_insert_insert_eq.
    rewrite list_lookup_insert_eq by lia. cbn [default from_option id].
    by rewrite (hlist_bl_find_absent _ _ Hf).
  - intros a. unfold refs. cbn [i_count set_i_count set_hbl set_plink].
    destruct (decide (a = i_addr inode)) as [->|Hna].
    + rewrite !lookup_insert_eq. cbn [default from_option id]. unfold refs. lia.
    + rewrite !lookup_insert_ne by congruence. reflexivity.
  - reflexivity.
Qed.


(** ** Further properties of the table and the link farm *)

Lemma hlist_bl_find_cases l a :
  (hlist_bl_find l a = 0 /\ a ∉ l) \/ (hlist_bl_find l a = 1 /\ a ∈ l).
Proof.
  induction l as [|x l IH]; simpl.
  - left. split; [done|]. apply not_elem_of_nil.
  - destruct (Z.eqb_spec x a) as [->|Hne].
    + right. split; [done|]. apply elem_of_cons. by left.
    + destruct IH as [[H1 H2]|[H1 H2]]; [left|right]; (split; [done|]).
      * rewrite elem_of_cons. intros [?|?]; [congruence|done].
      * apply elem_of_cons. by right.
Qed.

Lemma held_insert (t : list (list Z)) (i : nat) (l l' : list Z) (a : Z) :
  t !! i = Some l ->
  (length (filter (fun x => x = a) (concat (<[i := l']> t))) +
   length (filter (fun x => x = a) l) =
   length (filter (fun x => x = a) (concat t)) +
   length (filter (fun x => x = a) l'))%nat.
Proof.
  intros Hl. rewrite insert_take_drop by (by eapply lookup_lt_Some).
  rewrite <- (take_drop_middle t i l Hl) at 3.
  rewrite !concat_app, !concat_cons, !filter_app, !length_app. lia.
Qed.

(** what [do_whplink_again] does to the link farms *)
Lemma do_whplink_again_farm o fuel : forall n tgt bindex h w,
  let r := do_whplink_again o fuel n tgt bindex h w in
  (forall name, name <> tgt ->
     farm bindex (final r) !! name = farm bindex w !! name) /\
  (forall b, b <> bindex -> farm b (final r) = farm b w) /\
  (result r = Some 0 -> farm bindex (final r) !! tgt = Some (h_d_ino h)).
Proof.
  induction fuel as [|fuel IH]; intros n tgt bindex h w; cbv zeta.
  { cbv [do_whplink_again mret M_ret result final]. cbn [fst snd].
    split; [done|]. split; [done|]. discriminate. }
  cbn [do_whplink_again].
  cbv [vfsub_lkup_one vfsub_unlink vfsub_link mbind M_bind mret M_ret
       get modify ev result final trace]. cbn [fst snd].
  destruct (IS_ERR (o_lkup o n)) eqn:Hl; cbn [fst snd].
  { split; [done|]. split; [done|]. intros [= H0].
    apply IS_ERR_ne_0 in Hl. congruence. }
  destruct (farm bindex w !! tgt) as [ino|] eqn:Hd; cbn [fst snd].
  - destruct (ino =? h_d_ino h) eqn:Hi; cbn [negb fst snd].
    + apply Z.eqb_eq in Hi. subst ino. split; [done|]. split; [done|].
      intros _. exact Hd.
    + destruct (nz (o_unlink o)) eqn:Hu; cbn [negb fst snd].
      * destruct (o_unlink o =? - EWOULDBLOCK); cbn [fst snd];
          rewrite ?Hu; cbn [negb fst snd];
          (split; [done|]; split; [done|]; intros [= H0];
           apply nz_true in Hu; congruence).
      * specialize (IH (S n) tgt bindex h
                      (set_farm bindex (delete tgt (farm bindex w)) w)).
        cbv zeta in IH.
        destruct (o_unlink o =? - EWOULDBLOCK); cbn [fst snd];
          rewrite ?Hu; cbn [negb fst snd];
          destruct (do_whplink_again o fuel (S n) tgt bindex h _)
            as [[e w'] l'];
          cbv [result final] in IH; cbn [fst snd] in IH |- *;
          destruct IH as (I1 & I2 & I3);
          (split; [|split; [|exact I3]]);
          [ intros name Hn; rewrite (I1 name Hn), farm_set_farm;
            by rewrite lookup_delete_ne
          | intros b Hb; rewrite (I2 b Hb); unfold farm, set_farm;
            cbn [wbr_plink set_wbr_plink]; by rewrite lookup_insert_ne
          | intros name Hn; rewrite (I1 name Hn), farm_set_farm;
            by rewrite lookup_delete_ne
          | intros b Hb; rewrite (I2 b Hb); unfold farm, set_farm;
            cbn [wbr_plink set_wbr_plink]; by rewrite lookup_insert_ne ].
  - destruct (nz (o_link o)) eqn:Hk; cbn [fst snd].
    + destruct (o_link o =? - EWOULDBLOCK); cbn [fst snd];
        (split; [done|]; split; [done|]; intros [= H0];
         apply nz_true in Hk; congruence).
    + destruct (o_link o =? - EWOULDBLOCK); cbn [fst snd];
        (split; [|split]);
        [ intros name Hn; rewrite farm_set_farm; by rewrite lookup_insert_ne
        | intros b Hb; unfold farm, set_farm;
          cbn [wbr_plink set_wbr_plink]; by rewrite lookup_insert_ne
        | intros _; rewrite farm_set_farm; by rewrite lookup_insert_eq
        | intros name Hn; rewrite farm_set_farm; by rewrite lookup_insert_ne
        | intros b Hb; unfold farm, set_farm;
          cbn [wbr_plink set_wbr_plink]; by rewrite lookup_insert_ne
        | intros _; rewrite farm_set_farm; by rewrite lookup_insert_eq ].
Qed.

Lemma do_whplink_farm o tgt bindex h w :
  let r := do_whplink o tgt bindex h w in
  (forall name, name <> tgt ->
     farm bindex (final r) !! name = farm bindex w !! name) /\
  (forall b, b <> bindex -> farm b (final r) = farm b w) /\
  (result r = 0 -> farm bindex (final r) !! tgt = Some (h_d_ino h)).
Proof.
  cbv zeta.
  pose proof (do_whplink_again_farm o (S (size (farm bindex w))) 0 tgt
                bindex h w) as H. cbv zeta in H.
  unfold do_whplink.
  cbv [mbind M_bind mret M_ret get modify ev result final trace] in *.
  cbn [fst snd] in *.
  destruct (do_whplink_again o (S (size (farm bindex w))) 0 tgt bindex h w)
    as [[e w'] l]. cbn [fst snd] in *.
  destruct H as (H1 & H2 & H3). split; [exact H1|]. split; [exact H2|].
  intros H0. apply H3. destruct e as [e|]; simpl in H0; [congruence|].
  vm_compute in H0. discriminate H0.
Qed.

Lemma whplink_farm o h inode bindex w :
  let r := whplink o h inode bindex w in
  let tgt := PlinkRest.tgtname_of inode bindex in
  (forall name, name <> tgt ->
     farm bindex (final r) !! name = farm bindex w !! name) /\
  (forall b, b <> bindex -> farm b (final r) = farm b w) /\
  (result r = 0 -> farm bindex (final r) !! tgt = Some (h_d_ino h)).
Proof.
  cbv zeta. unfold whplink, PlinkRest.tgtname_of.
  destruct (plink_name PLINK_NAME_LEN inode bindex) as [a rlen].
  pose proof (do_whplink_farm o (qstr a rlen) bindex h w) as H.
  cbv zeta in H.
  destruct (o_root o); cbn [negb]; [exact H|].
  cbv [au_wkq_wait mbind M_bind mret M_ret ev result final trace] in *.
  cbn [fst snd] in *.
  destruct (nz (o_wkq_err o)) eqn:Hw; cbn [fst snd].
  - rewrite Hw. cbn [fst snd]. split; [done|]. split; [done|].
    intros H0. apply nz_true in Hw. congruence.
  - destruct (do_whplink o (qstr a rlen) bindex h w) as [[e w'] l].
    cbn [fst snd] in *. rewrite Hw. cbn [fst snd]. exact H.
Qed.

Ltac not_in :=
  let H := fresh "H" in
  intros H; cbn [app] in H;
  repeat (apply elem_of_cons in H as [H|H]; [discriminate H|]);
  by apply elem_of_nil in H.

(** X7.  When [whplink] returns 0 the name of the inode in the link farm
    of the branch is bound to the native inode of [h_dentry], whatever it
    was bound to before: a name left behind by another native inode is
    unlinked and made again.  Whether it succeeds or fails, [whplink]
    touches no other name of that farm, no farm of another branch, and
    neither the table nor the reference counts.  When the name is bound
    to the native inode already, nothing is unlinked or linked and the
    state stays as it was. *)
Theorem whplink_binds (o : oracle) (h : h_dentry) (inode : inode)
    (bindex : Z) (w : world) :
  let r := whplink o h inode bindex w in
  let tgt := PlinkRest.tgtname_of inode bindex in
  (result r = 0 -> farm bindex (final r) !! tgt = Some (h_d_ino h)) /\
  (forall name, name <> tgt ->
     farm bindex (final r) !! name = farm bindex w !! name) /\
  (forall b, b <> bindex -> farm b (final r) = farm b w) /\
  si_plink (final r) = si_plink w /\ i_count (final r) = i_count w /\
  (farm bindex w !! tgt = Some (h_d_ino h) ->
   final r = w /\
   forall name err,
     (E_vfsub_unlink name err ∉ trace r) /\
     (E_vfsub_link name err ∉ trace r)).
Proof.
  cbv zeta.
  destruct (whplink_farm o h inode bindex w) as (H1 & H2 & H3).
  destruct (whplink_table o h inode bindex w) as (H4 & H5).
  split; [exact H3|]. split; [exact H1|]. split; [exact H2|].
  split; [exact H4|]. split; [exact H5|].
  intros Hb. unfold whplink, PlinkRest.tgtname_of in *.
  destruct (plink_name PLINK_NAME_LEN inode bindex) as [a rlen].
  assert (Hdo : final (do_whplink o (qstr a rlen) bindex h w) = w /\
                forall name err,
                  (E_vfsub_unlink name err
                     ∉ trace (do_whplink o (qstr a rlen) bindex h w)) /\
                  (E_vfsub_link name err
                     ∉ trace (do_whplink o (qstr a rlen) bindex h w))).
  { unfold do_whplink.
    cbv [mbind M_bind mret M_ret get modify ev result final trace].
    cbn [fst snd do_whplink_again].
    cbv [vfsub_lkup_one mbind M_bind mret M_ret get ev]. cbn [fst snd].
    destruct (IS_ERR (o_lkup o 0)); cbn [fst snd].
    - split; [done|]. intros name err.
      split; not_in.
    - rewrite Hb. rewrite Z.eqb_refl. cbn [negb fst snd app].
      split; [done|]. intros name err.
      split; not_in. }
  destruct (o_root o); cbn [negb]; [exact Hdo|].
  cbv [au_wkq_wait mbind M_bind mret M_ret ev result final trace] in *.
  cbn [fst snd] in *.
  destruct (nz (o_wkq_err o)) eqn:Hw; cbn [fst snd].
  - rewrite Hw. cbn [fst snd]. split; [done|]. intros name err.
    split; not_in.
  - destruct (do_whplink o (qstr a rlen) bindex h w) as [[e w'] l].
    cbn [fst snd] in *. rewrite Hw. cbn [fst snd].
    destruct Hdo as [-> Hdo]. split; [done|]. intros name err.
    destruct (Hdo name err) as [Ha Hb'].
    rewrite !app_nil_r. split; (intros H; apply elem_of_cons in H as [H|H];
                                [discriminate H | done]).
Qed.

(** how [au_plink_append] leaves the table and the reference counts: as
    they were, or with the inode at the head of its chain and one
    reference more *)
Lemma au_plink_append_final o inode bindex h w :
  table_wf w ->
  let i := au_plink_hash (i_ino inode) in
  let a := i_addr inode in
  let r := au_plink_append o inode bindex h w in
  (si_plink (final r) = si_plink w /\
   (forall x, refs x (final r) = refs x w) /\
   (a ∈ hbl i w \/ result (whplink o h inode bindex w) <> 0)) \/
  ((a ∉ hbl i w) /\ result (whplink o h inode bindex w) = 0 /\
   si_plink (final r) = <[Z.to_nat i := a :: hbl i w]> (si_plink w) /\
   (forall x,
      refs x (final r) = refs x w + (if decide (x = a) then 1 else 0)) /\
   wbr_plink (final r) = wbr_plink (final (whplink o h inode bindex w))).
Proof.
  intros Hwf. cbv zeta.
  pose proof (hash_range (i_ino inode) w Hwf) as Hr.
  destruct (hlist_bl_find_cases (hbl (au_plink_hash (i_ino inode)) w)
              (i_addr inode)) as [[Hf Hn]|[Hf Hin]].
  2:{ rewrite (au_plink_append_present o inode bindex h w Hf).
      left. cbv [final]. cbn [fst snd]. split; [done|]. split; [done|].
      by left. }
  rewrite (au_plink_append_absent o inode bindex h w Hf).
  rewrite (au_plink_append_locked_absent o inode bindex h w Hf).
  cbv zeta. rewrite inserted_frame, whplink_frame. cbv zeta.
  destruct (whplink_table o h inode bindex w) as [Ht Hc].
  destruct (whplink o h inode bindex w) as [[e w'] l].
  cbv [result final trace] in *. cbn [fst snd] in *.
  assert (Hbk : hbl (au_plink_hash (i_ino inode))
            (set_plink
               (<[Z.to_nat (au_plink_hash (i_ino inode)) :=
                  i_addr inode :: hbl (au_plink_hash (i_ino inode)) w]>
                  (si_plink w))
               (set_i_count (<[i_addr inode:=refs (i_addr inode) w + 1]>
                               (i_count w)) w'))
          = i_addr inode :: hbl (au_plink_hash (i_ino inode)) w).
  { unfold hbl at 1. cbn [si_plink set_plink].
    rewrite list_lookup_insert_eq by lia. reflexivity. }
  destruct (nz e) eqn:He; cbn [fst snd].
  - left. apply nz_true in He. split; [|split; [|by right]].
    + cbn [si_plink set_i_count set_hbl set_plink]. rewrite Hbk.
      rewrite hlist_bl_del_head, list_insert_insert_eq.
      apply set_hbl_id. exact Hr.
    + intros x. unfold refs. cbn [i_count set_i_count set_hbl set_plink].
      destruct (decide (x = i_addr inode)) as [->|Hna].
      * rewrite !lookup_insert_eq. cbn [default from_option id].
        unfold refs. lia.
      * rewrite !lookup_insert_ne by congruence. reflexivity.
  - right. apply nz_false in He. split; [done|]. split; [done|].
    split; [reflexivity|]. split; [|reflexivity]. intros x. unfold refs.
    cbn [i_count set_i_count set_plink].
    destruct (decide (x = i_addr inode)) as [->|Hna].
    + rewrite lookup_insert_eq. cbn [default from_option id]. lia.
    + rewrite lookup_insert_ne by congruence. lia.
Qed.

(** the references not accounted for by an entry are the same before and
    after [au_plink_append] *)
Lemma au_plink_append_held (o : oracle) (inode : inode) (bindex : Z)
    (h : h_dentry) (w : world) (a : Z) :
  table_wf w ->
  let r := au_plink_append o inode bindex h w in
  refs a (final r) - Z.of_nat (PlinkRest.held a (final r)) =
  refs a w - Z.of_nat (PlinkRest.held a w).
Proof.
  intros Hwf. cbv zeta.
  pose proof (hash_range (i_ino inode) w Hwf) as Hr.
  destruct (au_plink_append_final o inode bindex h w Hwf)
    as [(Ht & Hc & _)|(Hn & _ & Ht & Hc & _)]; unfold PlinkRest.held, PlinkRest.count_of.
  - by rewrite Ht, Hc.
  - rewrite Ht, Hc.
    assert (Hl : si_plink w !! Z.to_nat (au_plink_hash (i_ino inode)) =
                 Some (hbl (au_plink_hash (i_ino inode)) w)).
    { unfold hbl.
      destruct (si_plink w !! Z.to_nat (au_plink_hash (i_ino inode)))
        eqn:E; [done|].
      apply lookup_ge_None in E. lia. }
    pose proof (held_insert (si_plink w) _ _
                  (i_addr inode :: hbl (au_plink_hash (i_ino inode)) w)
                  a Hl) as Hh.
    rewrite filter_cons in Hh.
    destruct (decide (a = i_addr inode)) as [->|Hna].
    + rewrite decide_True in Hh by done. simpl in Hh. lia.
    + rewrite decide_False in Hh by congruence. lia.
Qed.

(** X8.  The table holds one reference for every entry: for every inode,
    its reference count less the number of its entries in the table is
    the same before and after [au_plink_append], whatever the
    collaborators answer and whether the call inserts, finds the inode
    there or rolls the insertion back. *)
Theorem au_plink_append_balance (o : oracle) (inode : inode) (bindex : Z)
    (h : h_dentry) (w : world) (a : Z) :
  table_wf w ->
  let r := au_plink_append o inode bindex h w in
  refs a (final r) - Z.of_nat (PlinkRest.held a (final r)) =
  refs a w - Z.of_nat (PlinkRest.held a w).
Proof. apply au_plink_append_held. Qed.

(** X9.  [au_plink_append] keeps the table well formed: it has its
    [AuPlink_NHASH] chains afterwards, no chain other than the one the
    inode number hashes to is changed, and if no chain held an inode
    twice before, none does afterwards. *)
Theorem au_plink_append_wf (o : oracle) (inode : inode) (bindex : Z)
    (h : h_dentry) (w : world) :
  table_wf w ->
  let r := au_plink_append o inode bindex h w in
  table_wf (final r) /\
  (forall j, j <> au_plink_hash (i_ino inode) -> 0 <= j ->
     hbl j (final r) = hbl j w) /\
  (Forall NoDup (si_plink w) -> Forall NoDup (si_plink (final r))).
Proof.
  intros Hwf. cbv zeta.
  pose proof (hash_range (i_ino inode) w Hwf) as Hr.
  destruct Hwf as [Hpos Hlen].
  destruct (au_plink_append_final o inode bindex h w (conj Hpos Hlen))
    as [(Ht & _ & _)|(Hn & _ & Ht & _ & _)]; unfold table_wf, hbl;
    rewrite Ht.
  - done.
  - split; [by rewrite length_insert|]. split.
    + intros j Hj Hj0. rewrite list_lookup_insert_ne; [done|]. lia.
    + intros Hnd. apply Forall_insert; [done|]. apply NoDup_cons.
      split; [exact Hn|]. unfold hbl.
      destruct (si_plink w !! Z.to_nat (au_plink_hash (i_ino inode)))
        as [l|] eqn:E; [|apply NoDup_nil_2].
      simpl. by eapply Forall_lookup_1 in Hnd.
Qed.

End Table.

Lemma sample_table_wf : table_wf (K := K5) w_plink.
Proof. split; [vm_compute; reflexivity | reflexivity]. Qed.

(** C8, at the default mount: the link in the link farm fails for want of
    space. *)
Lemma au_plink_append_rollback_witness :
  let r := au_plink_append (K := K5) o_link_fails sample_inode 0
             sample_h_dentry w_plink in
  table_wf (K := K5) w_plink /\
  hlist_bl_find
    (hbl (au_plink_hash (K := K5) (i_ino sample_inode)) w_plink)
    (i_addr sample_inode) = 0 /\
  result (whplink o_link_fails sample_h_dentry sample_inode 0 w_plink)
    = - ENOSPC /\
  E_pr_warn (- ENOSPC) ∈ trace r /\
  si_plink (final r) = si_plink w_plink /\
  refs (i_addr sample_inode) (final r) = refs (i_addr sample_inode) w_plink.
Proof.
  cbv zeta.
  assert (Hf : hlist_bl_find
                 (hbl (au_plink_hash (K := K5) (i_ino sample_inode)) w_plink)
                 (i_addr sample_inode) = 0) by reflexivity.
  assert (He : result (whplink o_link_fails sample_h_dentry sample_inode 0
                         w_plink) = - ENOSPC) by reflexivity.
  assert (Hne : - ENOSPC <> 0) by (vm_compute; congruence).
  split; [exact sample_table_wf|]. split; [exact Hf|]. split; [exact He|].
  destruct (au_plink_append_rollback (K := K5) o_link_fails sample_inode 0
              sample_h_dentry w_plink (- ENOSPC) sample_table_wf Hf He Hne)
    as (_ & _ & _ & Hw & Ht & _ & Hr & _).
  split; [exact Hw|]. split; [exact Ht | apply Hr].
Defined.



(** X8, at the default mount, for an append that succeeds. *)
Lemma au_plink_append_balance_witness :
  let r := au_plink_append (K := K5) o_ok sample_inode 0 sample_h_dentry
             w_plink in
  table_wf (K := K5) w_plink /\
  refs 4096 (final r) - Z.of_nat (PlinkRest.held 4096 (final r)) = 1.
Proof.
  cbv zeta. split; [exact sample_table_wf|].
  exact (au_plink_append_balance (K := K5) o_ok sample_inode 0
           sample_h_dentry w_plink 4096 sample_table_wf).
Defined.

(** X9, at the default mount. *)
Lemma au_plink_append_wf_witness :
  let r := au_plink_append (K := K5) o_ok sample_inode 0 sample_h_dentry
             w_plink in
  table_wf (K := K5) w_plink /\ table_wf (K := K5) (final r) /\
  hbl 7 (final r) = hbl 7 w_plink.
Proof.
  cbv zeta.
  destruct (au_plink_append_wf (K := K5) o_ok sample_inode 0 sample_h_dentry
              w_plink sample_table_wf) as (Hwf & Hj & _).
  split; [exact sample_table_wf|]. split; [exact Hwf|].
  apply Hj; [vm_compute; congruence | lia].
Defined.

End TableSpec.
(** * Entry-creation transactions *)
Module AddSpec.
Import IOpAdd ErrnoFacts.

Section Add.
Context {K : constants}.

Ltac unfold_tx :=
  cbv [add_simple add_simple_out_parent add_simple_out_unlock
       add_simple_out_free aufs_create aufs_symlink aufs_mknod
       aufs_mkdir aufs_mkdir_epilog aufs_mkdir_out_dir aufs_mkdir_out_unpin
       aufs_mkdir_out_parent aufs_mkdir_out_unlock aufs_mkdir_out_free
       aufs_tmpfile aufs_tmpfile_out_mnt aufs_tmpfile_out_parent
       aufs_tmpfile_out_si aufs_tmpfile_out
       lock_hdir_lkup_wh lock_hdir_lkup_wh_out_unpin
       epilog epilog_instantiate
       vfsub_create vfsub_symlink vfsub_mknod vfsub_mkdir vfsub_unlink
       vfsub_rmdir native_make native_remove vfs_tmpfile
       au_diropq_create au_diropq_remove
       au_wh_lkup au_wh_unlink_dentry au_wh_create au_wr_dir au_new_inode
       au_di_init au_di_fin d_instantiate d_tmpfile d_drop
       inode_inc_iversion inc_nlink
       call call_d call_void get modify modify_di
       mbind M_bind mret M_ret result final trace].

Ltac norm :=
  cbn [fst snd app negb andb orb nz Z.eqb
       w_dentry w_dinfo w_fsdata w_parent w_dir w_heap w_mntflags
       set_dentry set_dinfo set_fsdata set_dir set_heap
       d_name_len d_unhashed d_inode i_version dir_nlink].

Ltac atom c :=
  lazymatch c with
  | negb ?x => atom x
  | ?a && _ => atom a
  | ?a || _ => atom a
  | _ => let E := fresh "E" in destruct c eqn:E
  end.

Ltac branch :=
  match goal with
  | H : ?c = true |- context [?c] => rewrite H
  | H : ?c = false |- context [?c] => rewrite H
  | |- context [if ?c then _ else _] => atom c
  end.

Ltac go := norm; repeat (branch; norm).

Lemma calls_nil x : calls x [] = [].
Proof. reflexivity. Qed.

Lemma calls_cons x e tr :
  calls x (e :: tr) =
  if decide (ev_fn e = x) then e :: calls x tr else calls x tr.
Proof. unfold calls. rewrite filter_cons. reflexivity. Qed.

Ltac eval_calls :=
  repeat (rewrite calls_cons; cbn [ev_fn];
          match goal with
          | |- context [decide (?a = ?b)] =>
              let d := eval vm_compute in (bool_decide (a = b)) in
              match d with
              | true => rewrite (decide_True (P := a = b)) by reflexivity
              | false => rewrite (decide_False (P := a = b)) by discriminate
              end
          end);
  rewrite ?calls_nil.

Lemma au_may_add_errno w bindex h_parent isdir :
  au_may_add w bindex h_parent isdir = 0 \/
  IS_ERR (au_may_add w bindex h_parent isdir) = true.
Proof.
  unfold au_may_add. repeat case_match; (by left) || (by right).
Qed.

Lemma lock_hdir_may_add_errno w udba bcpup h_parent args :
  lock_hdir_may_add w udba bcpup h_parent args 0 = 0 \/
  IS_ERR (lock_hdir_may_add w udba bcpup h_parent args 0) = true.
Proof.
  unfold lock_hdir_may_add. repeat case_match;
    (by left) || (by right) || apply au_may_add_errno.
Qed.

(** C6.  Once [au_wr_dir] has resolved the branch [bcpup], the branch is
    pinned and the checks of the name and the cached branch have passed,
    [lock_hdir_lkup_wh] looks the whiteout up exactly when [bcpup] is the
    whiteout position [au_dbwh] of the entry.  Otherwise, and so whenever
    the whiteout position is a branch strictly below [bcpup], no lookup is
    made, the result is [NULL] and the transaction goes on without a
    whiteout. *)
Theorem lock_hdir_lkup_wh_decides (o : oracle) (dt : bool) (src_dentry : Z)
    (args : au_wr_dir_args) (w : world) :
  let bcpup := o_ret o X_au_wr_dir in
  let w1 := set_dinfo (o_di o X_au_wr_dir (w_dinfo w)) w in
  let h_parent := o_h_parent o bcpup in
  let bwh := au_dbwh (w_dinfo w1) in
  let r := lock_hdir_lkup_wh o dt src_dentry args w in
  0 <= bcpup ->
  o_ret o X_au_pin = 0 ->
  lock_hdir_may_add w1 (au_opt_udba (w_mntflags w)) bcpup h_parent args 0
    = 0 ->
  (calls X_au_wh_lkup (trace r) <> [] <-> bcpup = bwh) /\
  (bcpup = bwh ->
   calls X_au_wh_lkup (trace r) =
     [Ev X_au_wh_lkup [h_parent; bcpup] (o_ret o X_au_wh_lkup)] /\
   result r = o_ret o X_au_wh_lkup) /\
  (bcpup <> bwh ->
   calls X_au_wh_lkup (trace r) = [] /\ result r = 0 /\ final r = w1) /\
  (bcpup < bwh -> calls X_au_wh_lkup (trace r) = [] /\ result r = 0).
Proof.
  cbv zeta. intros Hb Hpin Hok.
  assert (Hlt : (o_ret o X_au_wr_dir <? 0) = false) by (apply Z.ltb_ge; lia).
  apply nz_false in Hok.
  destruct (Z.eqb_spec (o_ret o X_au_wr_dir)
              (au_dbwh (o_di o X_au_wr_dir (w_dinfo w)))) as [Heq|Hne];
    unfold_tx; rewrite ?Hpin; go; eval_calls;
    repeat split; try done; try lia.
Qed.

(** C7, as amended.  When the allocation and [aufs_read_lock] succeed and
    the entry is positive or unhashed, [add_simple] and [aufs_mkdir] return
    -EEXIST for a positive entry and -ENOENT for an unhashed entry that is
    not positive.  They do so before any branch is selected and before any
    native object is made: the collaborators called are the ones listed.
    The native objects, the parent and the inode of the entry stay as they
    were; the entry itself is dropped from the dcache and
    [au_update_dbtop] is applied to its branch index. *)
Theorem add_rejects_early (o : oracle) (w : world) :
  o_ret o X_kmalloc <> 0 ->
  o_ret o X_aufs_read_lock = 0 ->
  d_really_is_positive (w_dentry w) = true \/ d_unhashed (w_dentry w) = true ->
  let err := if d_really_is_positive (w_dentry w) then - EEXIST
             else - ENOENT in
  let tr := [Ev X_kmalloc [] (o_ret o X_kmalloc);
             Ev X_aufs_read_lock [] 0;
             Ev X_au_update_dbtop [] (o_ret o X_au_update_dbtop);
             Ev X_d_drop [] 0;
             Ev X_aufs_read_unlock [] 0;
             Ev X_au_kfree_rcu [] 0] in
  (forall arg, add_simple o arg w = (err, dropped o w, tr)) /\
  (forall mode, aufs_mkdir o mode w = (err, dropped o w, tr)) /\
  w_heap (dropped o w) = w_heap w /\
  w_dir (dropped o w) = w_dir w /\
  w_parent (dropped o w) = w_parent w /\
  d_inode (w_dentry (dropped o w)) = d_inode (w_dentry w) /\
  d_unhashed (w_dentry (dropped o w)) = true.
Proof.
  intros Hk Hl Hd. cbv zeta. apply nz_true in Hk.
  assert (Herr : nz (au_d_may_add (w_dentry w)) = true /\
                 au_d_may_add (w_dentry w) =
                 (if d_really_is_positive (w_dentry w) then - EEXIST
                  else - ENOENT)).
  { unfold au_d_may_add.
    destruct (d_really_is_positive (w_dentry w)); [done|].
    destruct Hd as [Hd|Hd]; [done|]. rewrite Hd. done. }
  destruct Herr as [Hnz Herr].
  split; [|split; [|repeat split]].
  - intros arg. unfold_tx. rewrite Hl. go; rewrite ?Herr; reflexivity.
  - intros mode. unfold_tx. rewrite Hl. go; rewrite ?Herr; reflexivity.
Qed.

Lemma elem_of_calls e tr : e ∈ tr -> e ∈ calls (ev_fn e) tr.
Proof. intros H. unfold calls. apply list_elem_of_filter. done. Qed.

Lemma calls_app x l1 l2 : calls x (l1 ++ l2) = calls x l1 ++ calls x l2.
Proof. unfold calls. apply filter_app. Qed.

Lemma calls_setup_nil x tr :
  Forall (fun e => setup_call (ev_fn e) = true) tr ->
  setup_call x = false -> calls x tr = [].
Proof.
  intros Hall Hx. induction Hall as [|e tr He _ IH]; [done|].
  rewrite calls_cons. destruct (decide (ev_fn e = x)) as [<-|]; [|done].
  congruence.
Qed.

(** what [lock_hdir_lkup_wh] comes to when the collaborators keep to the
    errno convention: it fails with an [ERR_PTR]; or the whiteout
    position is not the branch selected, nothing is looked up and the
    result is [NULL]; or it is, and the result is what the lookup found *)
Lemma lock_hdir_lkup_wh_cases (o : oracle) (dt : bool) (src : Z)
    (args : au_wr_dir_args) (w : world) :
  errno_ok o ->
  let r := lock_hdir_lkup_wh o dt src args w in
  let w1 := set_dinfo (o_di o X_au_wr_dir (w_dinfo w)) w in
  let bcpup := o_ret o X_au_wr_dir in
  final r = w1 /\
  Forall (fun e => setup_call (ev_fn e) = true) (trace r) /\
  (IS_ERR (result r) = true \/
   (IS_ERR (result r) = false /\ result r = 0 /\
    bcpup <> au_dbwh (w_dinfo w1) /\
    calls X_au_wh_lkup (trace r) = []) \/
   (IS_ERR (result r) = false /\ result r = o_ret o X_au_wh_lkup /\
    bcpup = au_dbwh (w_dinfo w1) /\
    calls X_au_wh_lkup (trace r) =
      [Ev X_au_wh_lkup [o_h_parent o bcpup; bcpup] (o_ret o X_au_wh_lkup)])).
Proof.
  intros (Hwr & Hpin). cbv zeta.
  pose proof (lock_hdir_may_add_errno
                (set_dinfo (o_di o X_au_wr_dir (w_dinfo w)) w)
                (au_opt_udba (w_mntflags w)) (o_ret o X_au_wr_dir)
                (o_h_parent o (o_ret o X_au_wr_dir)) args) as Hma.
  unfold_tx; go;
    (split; [reflexivity|]); (split; [repeat constructor|]);
    repeat match goal with
           | H : (_ <? _) = true |- _ => apply Z.ltb_lt in H
           | H : (_ <? _) = false |- _ => apply Z.ltb_ge in H
           | H : (_ =? _) = true |- _ => apply Z.eqb_eq in H
           | H : (_ =? _) = false |- _ => apply Z.eqb_neq in H
           | H : nz _ = true |- _ => apply nz_true in H
           | H : nz _ = false |- _ => apply nz_false in H
           end;
    eval_calls;
    first [ left; solve [ auto | destruct Hma; congruence ]
          | right; left; solve [ auto ]
          | right; right; solve [ auto ] ].
Qed.

Lemma calls_cons_eq x e tr :
  ev_fn e = x -> calls x (e :: tr) = e :: calls x tr.
Proof. intros H. rewrite calls_cons. by rewrite decide_True. Qed.

Lemma calls_cons_ne x e tr :
  ev_fn e <> x -> calls x (e :: tr) = calls x tr.
Proof. intros H. rewrite calls_cons. by rewrite decide_False. Qed.

Lemma ev_wh_create_eq a a' p c :
  a = a' ->
  [Ev X_au_wh_create [a; p] c] = [Ev X_au_wh_create [a'; p] c].
Proof. by intros ->. Qed.

Lemma heap_set_opaque_dinfo h b w :
  w_dinfo (heap_set_opaque h b w) = w_dinfo w.
Proof. unfold heap_set_opaque. by destruct (h_inode_of w h). Qed.

(** the transactions with [lock_hdir_lkup_wh] left folded *)
Ltac unfold_top_in H :=
  cbv [add_simple add_simple_out_parent add_simple_out_unlock
       add_simple_out_free aufs_create aufs_symlink aufs_mknod
       aufs_mkdir aufs_mkdir_epilog aufs_mkdir_out_dir aufs_mkdir_out_unpin
       aufs_mkdir_out_parent aufs_mkdir_out_unlock aufs_mkdir_out_free
       aufs_tmpfile aufs_tmpfile_out_mnt aufs_tmpfile_out_parent
       aufs_tmpfile_out_si aufs_tmpfile_out
       epilog epilog_instantiate
       vfsub_create vfsub_symlink vfsub_mknod vfsub_mkdir vfsub_unlink
       vfsub_rmdir native_make native_remove vfs_tmpfile
       au_diropq_create au_diropq_remove
       au_wh_unlink_dentry au_wh_create au_new_inode au_wr_dir
       au_di_init au_di_fin
       d_instantiate d_tmpfile d_drop inode_inc_iversion inc_nlink
       call call_d call_void get modify modify_di
       mbind M_bind mret M_ret] in H.

Ltac norm_in H :=
  cbn [fst snd app negb andb orb nz Z.eqb
       w_dentry w_dinfo w_fsdata w_parent w_dir w_heap w_mntflags
       set_dentry set_dinfo set_fsdata set_dir set_heap
       d_name_len d_unhashed d_inode i_version dir_nlink] in H.

(** the term a stuck computation waits for *)
Ltac scrut t :=
  lazymatch t with
  | match ?s with _ => _ end =>
      match s with
      | _ => scrut s
      | _ => constr:(s)
      end
  | ?f _ => scrut f
  end.

Ltac strip c :=
  lazymatch c with
  | negb ?x => strip x
  | ?a && _ => strip a
  | ?a || _ => strip a
  | _ => constr:(c)
  end.

Ltac step_in H :=
  lazymatch type of H with
  | _ = ?rhs =>
      let s := scrut rhs in
      let c := strip s in
      first
        [ match goal with E : c = _ |- _ => rewrite E in H end
        | let E := fresh "E" in destruct c eqn:E ]
  end;
  norm_in H.

Ltac run_in H := norm_in H; repeat step_in H.

Ltac calls_in H Hall :=
  repeat first
    [ rewrite calls_app in H
    | rewrite calls_cons_eq in H by reflexivity
    | rewrite calls_cons_ne in H by (cbn; discriminate)
    | rewrite calls_nil in H
    | rewrite (calls_setup_nil _ _ Hall) in H by reflexivity ];
  cbn [app] in H.

Ltac calls_goal Hall :=
  repeat first
    [ rewrite calls_app
    | rewrite calls_cons_eq by reflexivity
    | rewrite calls_cons_ne by (cbn; discriminate)
    | rewrite calls_nil
    | match goal with
      | H : calls ?x ?l = _ |- context [calls ?x ?l] => rewrite H
      end
    | rewrite (calls_setup_nil _ _ Hall) by reflexivity ];
  cbn [app].

Ltac by_hyps :=
  intros;
  repeat match goal with
         | H : ?x = 0, E : nz ?x = true |- _ =>
             rewrite H in E; discriminate E
         end;
  first [ reflexivity | discriminate | congruence
        | left; reflexivity | right; reflexivity ].

Ltac inv_elem H :=
  repeat (apply elem_of_cons in H as [H|H];
          [first [discriminate H | injection H; clear H; intros] | ]);
  try (apply elem_of_nil in H; destruct H).

(** the removal of the native object failed: the leaf returns -EIO *)
Ltac escalated :=
  intros;
  repeat match goal with
         | H : _ \/ _ |- _ => destruct H
         end;
  first [ reflexivity | congruence
        | exfalso;
          repeat match goal with
                 | E : nz _ = false |- _ => apply nz_false in E
                 end;
          congruence
        | (* the native object just made is not negative *)
          match goal with
          | E : d_is_positive _ _ = false |- _ =>
              exfalso; revert E;
              unfold d_is_positive, h_inode_of, heap_set_inode;
              cbn [w_heap set_heap set_dinfo set_dentry set_dir set_fsdata];
              rewrite lookup_insert_eq; discriminate
          end ].

(** a leaf of a run that removed the whiteout and failed *)
Ltac revert_leaf o w Hall Hc :=
  let Hin := fresh "Hin" in
  let Hres := fresh "Hres" in
  let Heq := fresh "Heq" in
  cbv [result trace final]; cbn [fst snd]; intros Hin Hres;
  apply elem_of_calls in Hin; cbn [ev_fn] in Hin; calls_in Hin Hall;
  inv_elem Hin;
  try match goal with
      | H : 0 = ?x, E : nz ?x = true |- _ =>
          rewrite <- H in E; discriminate E
      end;
  try (exfalso; apply Hres; reflexivity);
  (destruct Hc as [Hc | [(Hc & ? & ? & ?) | (Hc & ? & Heq & ?)]];
   [congruence | subst; discriminate | ]);
  (split; [reflexivity|]);
  (split; [eexists; calls_goal Hall; apply ev_wh_create_eq;
           rewrite ?heap_set_opaque_dinfo; symmetry; exact Heq|]);
  (split; [eexists; calls_goal Hall; subst; reflexivity|]);
  (split; [by_hyps|]); (split; [by_hyps|]); (split; [by_hyps|]);
  escalated.



(** C1, as amended.  When the collaborators keep to the errno convention
    and a call of [add_simple] (create, symlink, mknod) or [aufs_mkdir]
    fails after it has removed the whiteout, the failure is that of
    [au_new_inode], and the call asks [au_wh_create] once for a whiteout in
    the branch [bcpup] in which [au_wh_lkup] had found it.  If that fails
    the call returns -EIO whatever the first error was.  If it succeeds the
    call returns the first error when the removal of the native object
    made before ([vfsub_unlink]; for a directory the removal of the opaque
    marker and [vfsub_rmdir]) succeeds as well, and -EIO when that removal
    fails. *)
Theorem whiteout_revert (o : oracle) (w : world) (b wh : Z) :
  errno_ok o ->
  let e := o_ret o X_au_new_inode in
  let c := o_ret o X_au_wh_create in
  let bcpup := o_ret o X_au_wr_dir in
  (forall arg,
     let r := add_simple o arg w in
     Ev X_au_wh_unlink_dentry [b; wh] 0 ∈ trace r -> result r <> 0 ->
     IS_ERR e = true /\
     (exists p, calls X_au_wh_create (trace r) =
                  [Ev X_au_wh_create [bcpup; p] c]) /\
     (exists p, calls X_au_wh_lkup (trace r) =
                  [Ev X_au_wh_lkup [p; bcpup] wh]) /\
     (IS_ERR c = true -> result r = - EIO) /\
     (IS_ERR c = false -> result r = e \/ result r = - EIO) /\
     (IS_ERR c = false -> o_ret o X_vfsub_unlink = 0 -> result r = e) /\
     (IS_ERR c = false -> o_ret o X_vfsub_unlink <> 0 ->
      result r = - EIO)) /\
  (forall mode,
     let r := aufs_mkdir o mode w in
     Ev X_au_wh_unlink_dentry [b; wh] 0 ∈ trace r -> result r <> 0 ->
     IS_ERR e = true /\
     (exists p, calls X_au_wh_create (trace r) =
                  [Ev X_au_wh_create [bcpup; p] c]) /\
     (exists p, calls X_au_wh_lkup (trace r) =
                  [Ev X_au_wh_lkup [p; bcpup] wh]) /\
     (IS_ERR c = true -> result r = - EIO) /\
     (IS_ERR c = false -> result r = e \/ result r = - EIO) /\
     (IS_ERR c = false -> o_ret o X_au_diropq_remove = 0 ->
      o_ret o X_vfsub_rmdir = 0 -> result r = e) /\
     (IS_ERR c = false ->
      o_ret o X_au_diropq_remove <> 0 \/ o_ret o X_vfsub_rmdir <> 0 ->
      result r = - EIO)).
Proof.
  intros Herrno. cbv zeta. split.
  - intros arg.
    pose proof (lock_hdir_lkup_wh_cases o true 0
                  {| force_btgt := -1; flags := AuWrDir_ADD_ENTRY |} w Herrno)
      as Hc. cbv zeta in Hc.
    destruct (lock_hdir_lkup_wh o true 0
                {| force_btgt := -1; flags := AuWrDir_ADD_ENTRY |} w)
      as [[whd w1] l1] eqn:Hl.
    cbv [result final trace] in Hc. cbn [fst snd] in Hc.
    destruct Hc as (-> & Hall & Hc).
    remember (add_simple o arg w) as R eqn:HR.
    destruct arg; unfold_top_in HR; run_in HR; subst R;
      revert_leaf o w Hall Hc.
  - intros mode.
    pose proof (lock_hdir_lkup_wh_cases o true 0
                  {| force_btgt := -1;
                     flags := Z.lor AuWrDir_ADD_ENTRY AuWrDir_ISDIR |}
                  w Herrno)
      as Hc. cbv zeta in Hc.
    destruct (lock_hdir_lkup_wh o true 0
                {| force_btgt := -1;
                   flags := Z.lor AuWrDir_ADD_ENTRY AuWrDir_ISDIR |} w)
      as [[whd w1] l1] eqn:Hl.
    cbv [result final trace] in Hc. cbn [fst snd] in Hc.
    destruct Hc as (-> & Hall & Hc).
    remember (aufs_mkdir o mode w) as R eqn:HR.
    unfold_top_in HR; run_in HR; subst R; revert_leaf o w Hall Hc.
Qed.

Lemma lock_hdir_lkup_wh_frame (o : oracle) (dt : bool) (src : Z)
    (args : au_wr_dir_args) (w : world) :
  let r := lock_hdir_lkup_wh o dt src args w in
  final r = set_dinfo (o_di o X_au_wr_dir (w_dinfo w)) w /\
  Forall (fun e => setup_call (ev_fn e) = true) (trace r).
Proof.
  cbv zeta. unfold_tx; go; (split; [reflexivity | repeat constructor]).
Qed.

Lemma unwind_app l1 l2 : unwind (l1 ++ l2) = unwind l1 ++ unwind l2.
Proof. unfold unwind. apply filter_app. Qed.

Lemma unwind_nil : unwind [] = [].
Proof. reflexivity. Qed.

Lemma unwind_cons_eq e tr :
  is_unwind (ev_fn e) = true -> unwind (e :: tr) = e :: unwind tr.
Proof. intros H. unfold unwind. by rewrite filter_cons_True. Qed.

Lemma unwind_cons_ne e tr :
  is_unwind (ev_fn e) = false -> unwind (e :: tr) = unwind tr.
Proof.
  intros H. unfold unwind. rewrite filter_cons_False; [done|]. congruence.
Qed.

Lemma unwind_setup_nil tr :
  Forall (fun e => setup_call (ev_fn e) = true) tr -> unwind tr = [].
Proof.
  intros Hall. induction Hall as [|e tr He _ IH]; [done|].
  rewrite unwind_cons_ne; [done|]. by destruct (ev_fn e).
Qed.

Ltac unwind_goal Hall :=
  repeat first
    [ rewrite unwind_app
    | rewrite unwind_cons_eq by reflexivity
    | rewrite unwind_cons_ne by reflexivity
    | rewrite unwind_nil
    | rewrite (unwind_setup_nil _ Hall) ];
  cbn [app].

(** leaves that no run reaches *)
Ltac prune :=
  try match goal with
      | H : 0 = ?x, E : nz ?x = true |- _ =>
          rewrite <- H in E; discriminate E
      end;
  try match goal with
      | E : IS_ERR ?x = true, E' : nz ?x = false |- _ =>
          rewrite (IS_ERR_nz _ E) in E'; discriminate E'
      end;
  try match goal with
      | E : nz (- EIO) = false |- _ => vm_compute in E; discriminate E
      end.

Ltac use_path :=
  repeat match goal with
         | E : ?c = true |- context [?c] => rewrite E
         | E : ?c = false |- context [?c] => rewrite E
         end.

Ltac nz_facts :=
  repeat match goal with
         | E : nz _ = false |- _ => apply nz_false in E
         | E : nz _ = true |- _ => apply nz_true in E
         end.

(** what [vfsub_mkdir] makes is a directory, whatever the mode asked for *)
Lemma S_ISDIR_mkdir mode :
  S_ISDIR (Z.lor S_IFDIR (Z.land mode 4095)) = true.
Proof.
  unfold S_ISDIR. apply Z.eqb_eq.
  rewrite Z.land_lor_distr_l, <- Z.land_assoc.
  change (Z.land 4095 S_IFMT) with 0. rewrite Z.land_0_r. reflexivity.
Qed.

(** C2, as amended.  When [vfsub_mkdir] has made the native directory [h]
    and [aufs_mkdir] fails all the same, the steps that undo the creation
    are, in this order: the removal of the opaque marker if the marker was
    set, the [vfsub_rmdir] of [h], the restoring of the parent's times.
    All of them are run whatever the earlier ones come to, and if the
    removal of the marker or the [vfsub_rmdir] fails the call returns
    -EIO.  When it is [au_diropq_create] that failed, no marker was set
    and none is removed: whatever the [vfsub_rmdir] comes to, the native
    dentry [h] is negative afterwards or its directory is not opaque.  If
    the [vfsub_rmdir] succeeds the call returns the error of
    [au_diropq_create] and [h] is negative again: no native directory and
    no marker are left.  If it fails the directory made by [vfsub_mkdir]
    is still there, without a marker. *)
Theorem aufs_mkdir_unwind (o : oracle) (mode : Z) (w : world) (h : Z) :
  let r := aufs_mkdir o mode w in
  let rm := o_ret o X_au_diropq_remove in
  let rd := o_ret o X_vfsub_rmdir in
  Ev X_vfsub_mkdir [h] 0 ∈ trace r -> result r <> 0 ->
  (exists b, unwind (trace r) =
     (if opaque_set (trace r) then [Ev X_au_diropq_remove [b] rm] else []) ++
     [Ev X_vfsub_rmdir [h] rd; Ev X_au_dtime_revert [] 0]) /\
  ((opaque_set (trace r) = true /\ rm <> 0) \/ rd <> 0 ->
   result r = - EIO) /\
  (forall b opq,
     Ev X_au_diropq_create [b] opq ∈ trace r -> IS_ERR opq = true ->
     opaque_set (trace r) = false /\
     calls X_au_diropq_remove (trace r) = [] /\
     (forall i, h_inode_of (final r) h = Some i -> i_opaque i = false) /\
     (rd = 0 -> result r = opq /\ h_inode_of (final r) h = None) /\
     (rd <> 0 ->
      result r = - EIO /\
      exists i, h_inode_of (final r) h = Some i /\ i_opaque i = false /\
                S_ISDIR (i_mode i) = true)).
Proof.
  cbv zeta.
  pose proof (lock_hdir_lkup_wh_frame o true 0
                {| force_btgt := -1;
                   flags := Z.lor AuWrDir_ADD_ENTRY AuWrDir_ISDIR |} w)
    as Hc. cbv zeta in Hc.
  destruct (lock_hdir_lkup_wh o true 0
              {| force_btgt := -1;
                 flags := Z.lor AuWrDir_ADD_ENTRY AuWrDir_ISDIR |} w)
    as [[whd w1] l1] eqn:Hl.
  cbv [result final trace] in Hc. cbn [fst snd] in Hc.
  destruct Hc as (-> & Hall).
  remember (aufs_mkdir o mode w) as R eqn:HR.
  unfold_top_in HR; run_in HR; subst R;
    cbv [result trace final]; cbn [fst snd]; intros Hin Hres;
    apply elem_of_calls in Hin; cbn [ev_fn] in Hin; calls_in Hin Hall;
    inv_elem Hin; prune;
    try (exfalso; apply Hres; reflexivity);
    unfold opaque_set; calls_goal Hall; cbn [existsb ev_ret negb orb];
    use_path; cbn [negb orb];
    (split;
     [first [ exists 0; unwind_goal Hall; subst h; reflexivity
            | eexists; unwind_goal Hall; subst h; reflexivity ] |]);
    (split;
     [intros Hesc;
      first [ reflexivity
            | exfalso; destruct Hesc as [[Ho Hrm]|Hrd]; nz_facts;
              congruence ] |]);
    intros b opq Hin2 Hopq;
    apply elem_of_calls in Hin2; cbn [ev_fn] in Hin2; calls_in Hin2 Hall;
    inv_elem Hin2; try congruence;
    (split; [reflexivity|]); (split; [reflexivity|]);
    subst h;
    match goal with
    | |- context [h_inode_of ?W ?H] =>
        let Hv := fresh "Hv" in
        pose proof (eq_refl (h_inode_of W H)) as Hv;
        unfold h_inode_of at 2 in Hv;
        cbn [w_heap set_dentry set_dinfo set_heap heap_set_inode] in Hv;
        rewrite lookup_insert_eq in Hv;
        cbn [mbind option_bind h_d_inode] in Hv;
        rewrite Hv; clear Hv
    end;
    (split;
     [intros i Hi;
      first [ discriminate Hi | injection Hi as <-; reflexivity ] |]);
    (split;
     [intros Hrd0; nz_facts;
      first [ congruence | split; [subst; reflexivity | reflexivity] ] |]);
    intros Hrd1; nz_facts;
    first [ congruence
          | split; [reflexivity|]; eexists;
            split; [reflexivity|]; split; [reflexivity|];
            apply S_ISDIR_mkdir ].
Qed.

Lemma au_h_dptr_set b h di : au_h_dptr (au_set_h_dptr b h di) b = h.
Proof.
  unfold au_h_dptr, au_set_h_dptr. cbn [di_hdentry].
  destruct (Z.eqb_spec h 0) as [->|Hne].
  - by rewrite lookup_delete_eq.
  - by rewrite lookup_insert_eq.
Qed.

Ltac path_facts :=
  repeat match goal with
         | E : nz _ = false |- _ => apply nz_false in E
         | E : nz _ = true |- _ => apply nz_true in E
         | E : (_ =? _) = true |- _ => apply Z.eqb_eq in E
         | E : (_ =? _) = false |- _ => apply Z.eqb_neq in E
         | E : (_ <? _) = true |- _ => apply Z.ltb_lt in E
         | E : (_ <? _) = false |- _ => apply Z.ltb_ge in E
         end.

(** C9.  [aufs_tmpfile] returns -EOPNOTSUPP, and makes no native object,
    when the directory of the branch [b] that [au_wr_dir] selected has no
    tmpfile operation.  When it returns 0 it has got as far as that, the
    native object made by [vfs_tmpfile] is the backing object of the entry
    at [b], which is the top and the bottom of its branch index, the inode
    was attached with [d_tmpfile] and not with [d_instantiate], the entry
    is hashed no more than before, and the times of the parent are copied
    up exactly when [au_ibtop(dir)] is [b].  When [au_new_inode] fails
    after the native object was attached, the object is detached and
    released, the top and the bottom of the branch index are set to -1,
    and the error is returned.  No run calls a whiteout function. *)
Theorem aufs_tmpfile_spec (o : oracle) (dir mode : Z) (w : world) :
  let r := aufs_tmpfile o dir mode w in
  let b := o_ret o X_au_wr_dir in
  let h_dentry := o_ret o X_vfs_tmpfile in
  let inode := o_ret o X_au_new_inode in
  (tmpfile_resolves o dir b -> o_tmpfile_op o b = 0 ->
   result r = - EOPNOTSUPP /\ calls X_vfs_tmpfile (trace r) = []) /\
  (result r = 0 ->
   tmpfile_resolves o dir b /\
   au_h_dptr (w_dinfo (final r)) b = h_dentry /\
   au_dbtop (w_dinfo (final r)) = b /\
   au_dbbot (w_dinfo (final r)) = b /\
   w_fsdata (final r) = true /\
   d_inode (w_dentry (final r)) = inode /\
   d_unhashed (w_dentry (final r)) = d_unhashed (w_dentry w) /\
   calls X_d_tmpfile (trace r) = [Ev X_d_tmpfile [inode] 0] /\
   calls X_d_instantiate (trace r) = [] /\
   (calls X_au_cpup_attr_timesizes (trace r) <> [] <-> o_ibtop o = b)) /\
  (tmpfile_resolves o dir b -> o_tmpfile_op o b <> 0 ->
   o_ret o X_vfsub_mnt_want_write = 0 ->
   IS_ERR h_dentry = false -> IS_ERR inode = true ->
   result r = inode /\
   au_h_dptr (w_dinfo (final r)) b = 0 /\
   au_dbtop (w_dinfo (final r)) = -1 /\
   au_dbbot (w_dinfo (final r)) = -1 /\
   w_fsdata (final r) = false /\
   Ev X_dput [h_dentry] 0 ∈ trace r) /\
  (forall e, e ∈ trace r -> is_whiteout_call (ev_fn e) = false).
Proof.
  cbv zeta.
  remember (aufs_tmpfile o dir mode w) as R eqn:HR.
  unfold_top_in HR; run_in HR; subst R;
    cbv [result trace final]; cbn [fst snd]; prune.
  all: split;
    [ intros (H1 & H2 & H3 & H4 & H5 & H6) Hop; path_facts;
      first [ split; [reflexivity | eval_calls; reflexivity]
            | exfalso; congruence | exfalso; lia ] | ].
  all: split;
    [ intros Hres;
      first
        [ exfalso; path_facts;
          first [ congruence
                | vm_compute in Hres; discriminate Hres
                | match goal with
                  | E : IS_ERR ?x = true |- _ =>
                      apply IS_ERR_ne_0 in E; congruence
                  end ]
        | path_facts; unfold tmpfile_resolves; eval_calls;
          cbn [au_dbtop au_dbbot di_btop di_bbot au_set_dbtop au_set_dbbot
               au_set_h_dptr set_di_tmpfile w_dinfo w_dentry w_fsdata
               set_dinfo set_dentry set_fsdata set_heap d_inode d_unhashed]
            in *;
          repeat split;
          first [ reflexivity | assumption | lia | congruence
                | apply au_h_dptr_set
                | intros; discriminate | intros; congruence ] ] | ].
  all: split;
    [ intros (H1 & H2 & H3 & H4 & H5 & H6) Hop Hmw Hh Hi; path_facts;
      first
        [ exfalso; congruence | exfalso; lia
        | repeat split;
          first [ reflexivity | apply au_h_dptr_set
                | apply list_elem_of_In; cbn [In]; tauto ] ] | ].
  all: intros e He;
    repeat (apply elem_of_cons in He as [->|He]; [reflexivity|]);
    by apply elem_of_nil in He.
Qed.

(** ** Further properties of the creation transactions *)

Lemma filter_ret_cons_eq (e : event) tr :
  ev_ret e = 0 ->
  filter (fun e => ev_ret e = 0) (e :: tr) =
  e :: filter (fun e => ev_ret e = 0) tr.
Proof. intros H. by rewrite filter_cons_True. Qed.

Lemma filter_ret_cons_ne (e : event) tr :
  ev_ret e <> 0 ->
  filter (fun e => ev_ret e = 0) (e :: tr) =
  filter (fun e => ev_ret e = 0) tr.
Proof. intros H. by rewrite filter_cons_False. Qed.

(** the pin in the runs of [lock_hdir_lkup_wh] *)
Lemma lock_hdir_lkup_wh_pin (o : oracle) (dt : bool) (src : Z)
    (args : au_wr_dir_args) (w : world) :
  errno_ok o ->
  let r := lock_hdir_lkup_wh o dt src args w in
  let bcpup := o_ret o X_au_wr_dir in
  let udba := au_opt_udba (w_mntflags w) in
  let pin := Ev X_au_pin [bcpup; udba] (o_ret o X_au_pin) in
  let unpin := Ev X_au_unpin [] 0 in
  (bcpup < 0 /\ result r = bcpup /\ IS_ERR (result r) = true /\
   calls X_au_pin (trace r) = [] /\ calls X_au_unpin (trace r) = []) \/
  (0 <= bcpup /\ o_ret o X_au_pin <> 0 /\ result r = o_ret o X_au_pin /\
   IS_ERR (result r) = true /\
   calls X_au_pin (trace r) = [pin] /\ calls X_au_unpin (trace r) = []) \/
  (0 <= bcpup /\ o_ret o X_au_pin = 0 /\ IS_ERR (result r) = true /\
   calls X_au_pin (trace r) = [pin] /\
   calls X_au_unpin (trace r) = [unpin]) \/
  (0 <= bcpup /\ o_ret o X_au_pin = 0 /\ IS_ERR (result r) = false /\
   calls X_au_pin (trace r) = [pin] /\ calls X_au_unpin (trace r) = []).
Proof.
  intros (Hwr & Hpin). cbv zeta.
  pose proof (lock_hdir_may_add_errno
                (set_dinfo (o_di o X_au_wr_dir (w_dinfo w)) w)
                (au_opt_udba (w_mntflags w)) (o_ret o X_au_wr_dir)
                (o_h_parent o (o_ret o X_au_wr_dir)) args) as Hma.
  unfold_tx; go; path_facts; eval_calls;
    first
      [ left; split; [lia|]; split; [reflexivity|]; split; [by auto|];
        split; reflexivity
      | right; left; split; [lia|]; split; [done|]; split; [reflexivity|];
        split; [by auto|]; split; reflexivity
      | right; right; left; split; [lia|]; split; [done|];
        split; [solve [auto | destruct Hma; congruence]|]; split; reflexivity
      | right; right; right; split; [lia|]; split; [done|];
        split; [solve [auto]|]; split; reflexivity ].
Qed.

(** X18.  [lock_hdir_lkup_wh] never returns an error with the branch
    pinned and never returns without an error unless it is: when the
    collaborators keep to the errno convention, a result that is no
    [ERR_PTR] comes with one [au_pin] that succeeded and no [au_unpin],
    and an [ERR_PTR] comes with as many [au_unpin] as [au_pin] that
    succeeded, at most one.  An error of [au_wr_dir] is returned before
    anything is pinned, an error of [au_pin] is returned as it is. *)
Theorem lock_hdir_lkup_wh_pins (o : oracle) (dt : bool) (src : Z)
    (args : au_wr_dir_args) (w : world) :
  errno_ok o ->
  let r := lock_hdir_lkup_wh o dt src args w in
  let bcpup := o_ret o X_au_wr_dir in
  (IS_ERR (result r) = false ->
   length (succeeded X_au_pin (trace r)) = 1%nat /\
   calls X_au_unpin (trace r) = []) /\
  (IS_ERR (result r) = true ->
   length (calls X_au_unpin (trace r)) =
   length (succeeded X_au_pin (trace r)) /\
   (length (calls X_au_unpin (trace r)) <= 1)%nat) /\
  (bcpup < 0 -> result r = bcpup /\ calls X_au_pin (trace r) = []) /\
  (0 <= bcpup -> o_ret o X_au_pin <> 0 -> result r = o_ret o X_au_pin).
Proof.
  intros Herrno. cbv zeta.
  destruct (lock_hdir_lkup_wh_pin o dt src args w Herrno)
    as [(Hb & Hr & He & Hp & Hu)|[(Hb & Hn & Hr & He & Hp & Hu)|
        [(Hb & Hz & He & Hp & Hu)|(Hb & Hz & He & Hp & Hu)]]];
    unfold succeeded; rewrite Hp, Hu;
    rewrite ?filter_nil;
    rewrite ?filter_ret_cons_eq by exact Hz;
    rewrite ?filter_ret_cons_ne by exact Hn;
    rewrite ?filter_nil; cbn [length];
    (split; [intros H0; rewrite He in H0; try discriminate H0; done|]);
    (split; [intros H0; first [ rewrite He in H0; discriminate H0
                              | split; [reflexivity | lia] ]|]);
    (split; [intros H1; first [lia | by split]
            | intros H1 H2; first [lia | congruence]]).
Qed.

(** the lists of a leaf, once the path is known *)
Ltac filters :=
  repeat (rewrite filter_cons; cbn [ev_ret]);
  rewrite ?filter_nil;
  repeat case_decide; cbn [length].

(** the calls of a collaborator in the trace of a leaf, by evaluation;
    [l1] is the trace of [lock_hdir_lkup_wh] *)
Ltac pre_of l1 t :=
  lazymatch t with
  | l1 ++ _ => constr:(@nil event)
  | ?e :: ?t' => let p := pre_of l1 t' in constr:(e :: p)
  end.

Ltac post_of l1 t :=
  lazymatch t with
  | l1 ++ ?post => constr:(post)
  | _ :: ?t' => post_of l1 t'
  end.

Ltac calls_fast l1 Hall :=
  try (match goal with
       | |- context [calls _ ?t] =>
           let pre := pre_of l1 t in
           let post := post_of l1 t in
           change t with (pre ++ l1 ++ post)
       end;
       rewrite !calls_app);
  repeat match goal with
         | |- context [calls ?x ?l] =>
             lazymatch l with
             | l1 => fail
             | _ => let v := eval lazy in (calls x l) in
                    change (calls x l) with v
             end
         end;
  repeat match goal with
         | H : calls ?x l1 = _ |- context [calls ?x l1] => rewrite H
         end;
  rewrite ?(calls_setup_nil _ _ Hall) by reflexivity;
  cbn [app].

Ltac balance_leaf l1 Hall :=
  unfold balanced, succeeded, allocated; cbv [trace]; cbn [snd];
  calls_fast l1 Hall; path_facts; filters;
  first [ done | congruence | lia
        | repeat split; first [ done | congruence | lia ] ].

(** X19.  No run of [add_simple] or [aufs_mkdir] keeps what it took, when
    the collaborators keep to the errno convention: the memory allocated
    is freed once, the read lock of the superblock is released once if
    it was got, the lock of the parent's branch index is released as
    often as it was taken, and the pin of the branch is dropped once if
    the branch was pinned; whether the call succeeds, fails early, or
    fails late and reverts. *)
Theorem add_balanced (o : oracle) (w : world) :
  errno_ok o ->
  (forall arg, balanced (trace (add_simple o arg w))) /\
  (forall mode, balanced (trace (aufs_mkdir o mode w))).
Proof.
  intros Herrno. split.
  - intros arg.
    pose proof (lock_hdir_lkup_wh_pin o true 0
                  {| force_btgt := -1; flags := AuWrDir_ADD_ENTRY |} w Herrno)
      as Hp. cbv zeta in Hp.
    pose proof (lock_hdir_lkup_wh_frame o true 0
                  {| force_btgt := -1; flags := AuWrDir_ADD_ENTRY |} w)
      as Hf. cbv zeta in Hf.
    destruct (lock_hdir_lkup_wh o true 0
                {| force_btgt := -1; flags := AuWrDir_ADD_ENTRY |} w)
      as [[whd w1] l1] eqn:Hl.
    cbv [result final trace] in Hp, Hf. cbn [fst snd] in Hp, Hf.
    destruct Hf as (-> & Hall).
    remember (add_simple o arg w) as R eqn:HR.
    destruct Hp as [(Hb & Hr & He & Hp & Hu)|[(Hb & Hn & Hr & He & Hp & Hu)|
        [(Hb & Hz & He & Hp & Hu)|(Hb & Hz & He & Hp & Hu)]]];
      destruct arg; unfold_top_in HR; run_in HR; subst R;
      balance_leaf l1 Hall.
  - intros mode.
    pose proof (lock_hdir_lkup_wh_pin o true 0
                  {| force_btgt := -1;
                     flags := Z.lor AuWrDir_ADD_ENTRY AuWrDir_ISDIR |}
                  w Herrno)
      as Hp. cbv zeta in Hp.
    pose proof (lock_hdir_lkup_wh_frame o true 0
                  {| force_btgt := -1;
                     flags := Z.lor AuWrDir_ADD_ENTRY AuWrDir_ISDIR |} w)
      as Hf. cbv zeta in Hf.
    destruct (lock_hdir_lkup_wh o true 0
                {| force_btgt := -1;
                   flags := Z.lor AuWrDir_ADD_ENTRY AuWrDir_ISDIR |} w)
      as [[whd w1] l1] eqn:Hl.
    cbv [result final trace] in Hp, Hf. cbn [fst snd] in Hp, Hf.
    destruct Hf as (-> & Hall).
    remember (aufs_mkdir o mode w) as R eqn:HR.
    destruct Hp as [(Hb & Hr & He & Hp & Hu)|[(Hb & Hn & Hr & He & Hp & Hu)|
        [(Hb & Hz & He & Hp & Hu)|(Hb & Hz & He & Hp & Hu)]]];
      unfold_top_in HR; run_in HR; subst R;
      balance_leaf l1 Hall.
Qed.

Lemma au_d_may_add_ok (d : dentry) :
  nz (au_d_may_add d) = false -> d_unhashed d = false /\ d_inode d = 0.
Proof.
  unfold au_d_may_add, d_really_is_positive. intros H.
  destruct (nz (d_inode d)) eqn:Hi; [vm_compute in H; discriminate H|].
  apply nz_false in Hi.
  destruct (d_unhashed d); [vm_compute in H; discriminate H|]. done.
Qed.

Lemma heap_set_opaque_dentry h b w :
  w_dentry (heap_set_opaque h b w) = w_dentry w.
Proof. unfold heap_set_opaque. by destruct (h_inode_of w h). Qed.

Lemma heap_set_opaque_dir h b w :
  w_dir (heap_set_opaque h b w) = w_dir w.
Proof. unfold heap_set_opaque. by destruct (h_inode_of w h). Qed.

Lemma native_makes_setup_nil tr :
  Forall (fun e => setup_call (ev_fn e) = true) tr -> native_makes tr = [].
Proof.
  intros Hall. unfold native_makes.
  induction Hall as [|e tr He _ IH]; [done|].
  rewrite filter_cons_False; [done|]. by destruct (ev_fn e).
Qed.

Lemma reverts_setup_nil tr :
  Forall (fun e => setup_call (ev_fn e) = true) tr -> reverts tr = [].
Proof.
  intros Hall. unfold reverts.
  induction Hall as [|e tr He _ IH]; [done|].
  rewrite filter_cons_False; [done|]. by destruct (ev_fn e).
Qed.

Lemma native_makes_app l1 l2 :
  native_makes (l1 ++ l2) = native_makes l1 ++ native_makes l2.
Proof. unfold native_makes. apply filter_app. Qed.

Lemma reverts_app l1 l2 : reverts (l1 ++ l2) = reverts l1 ++ reverts l2.
Proof. unfold reverts. apply filter_app. Qed.

(** the events of a kind in the trace of a leaf, by evaluation *)
Ltac kinds_fast l1 Hall :=
  try (match goal with
       | |- context [native_makes ?t] =>
           let pre := pre_of l1 t in
           let post := post_of l1 t in
           change t with (pre ++ l1 ++ post)
       | |- context [reverts ?t] =>
           let pre := pre_of l1 t in
           let post := post_of l1 t in
           change t with (pre ++ l1 ++ post)
       | |- context [unwind ?t] =>
           let pre := pre_of l1 t in
           let post := post_of l1 t in
           change t with (pre ++ l1 ++ post)
       end;
       rewrite ?calls_app, ?native_makes_app, ?reverts_app, ?unwind_app);
  rewrite ?(native_makes_setup_nil _ Hall), ?(reverts_setup_nil _ Hall),
    ?(unwind_setup_nil _ Hall);
  repeat match goal with
         | |- context [native_makes ?l] =>
             let v := eval lazy in (native_makes l) in
             change (native_makes l) with v
         | |- context [reverts ?l] =>
             let v := eval lazy in (reverts l) in
             change (reverts l) with v
         | |- context [unwind ?l] =>
             let v := eval lazy in (unwind l) in
             change (unwind l) with v
         end;
  cbn [app].

(** the state of a leaf *)
Ltac state_goal :=
  unfold heap_set_inode, dir_touched, dir_linked;
  repeat (progress
            (rewrite ?heap_set_opaque_dentry, ?heap_set_opaque_dir,
               ?heap_set_opaque_dinfo;
             cbn [w_dentry w_dinfo w_fsdata w_parent w_dir w_heap w_mntflags
                  set_dentry set_dinfo set_fsdata set_dir set_heap
                  d_name_len d_unhashed d_inode i_version dir_nlink])).

(** a leaf that cannot have the result supposed *)
Ltac wrong_result H :=
  first
    [ match goal with
      | E : nz ?x = true |- _ => rewrite H in E; discriminate E
      end
    | match goal with
      | E : IS_ERR ?x = true |- _ => rewrite H in E; discriminate E
      end
    | vm_compute in H; discriminate H ].

Ltac ret_facts :=
  repeat match goal with
         | E : nz (o_ret ?o ?x) = false |- _ =>
             apply nz_false in E; rewrite ?E
         end.

(** the arguments and results of the calls, as opaque values *)
Ltac abstract_args :=
  repeat match goal with
         | |- context [au_h_dptr ?a ?b] => generalize (au_h_dptr a b); intro
         | |- context [au_dbtop ?a] => generalize (au_dbtop a); intro
         | |- context [au_dbwh ?a] => generalize (au_dbwh a); intro
         | |- context [h_parent_of ?a ?b] =>
             generalize (h_parent_of a b); intro
         | |- context [o_h_parent ?a ?b] => generalize (o_h_parent a b); intro
         | |- context [o_ret ?a ?b] => generalize (o_ret a b); intro
         end.

(** a conjunct about the calls of a leaf *)
Ltac trace_fact l1 Hall :=
  abstract_args;
  lazymatch goal with
  | |- ex _ => eexists
  | |- _ => idtac
  end;
  kinds_fast l1 Hall; calls_fast l1 Hall; reflexivity.

Ltac success_leaf l1 Hall :=
  match goal with
  | E : nz (au_d_may_add (w_dentry _)) = false |- _ =>
      let Hu := fresh "Hu" in
      let Hi := fresh "Hi" in
      destruct (au_d_may_add_ok _ E) as [Hu Hi];
      state_goal; use_path; ret_facts;
      (split; [first [assumption | reflexivity]|]);
      (split; [destruct (w_dentry _); cbn in Hu, Hi |- *; by subst|]);
      (split; [first [reflexivity | by rewrite Hu]|]);
      (split; [reflexivity|]);
      repeat (split; [trace_fact l1 Hall|]);
      trace_fact l1 Hall
  end.

Ltac failure_leaf l1 Hall :=
  state_goal;
  (split; [reflexivity|]); (split; [reflexivity|]);
  (split; [abstract_args; calls_fast l1 Hall; reflexivity|]);
  let Hk := fresh "Hk" in
  let Hr := fresh "Hr" in
  intros Hk Hr;
  first [ reflexivity | exfalso; nz_facts; congruence ].

Ltac outcome_leaf l1 Hall :=
  cbv [result final trace]; cbn [fst snd];
  split;
  [ let H0 := fresh "H0" in
    intros H0;
    first [ exfalso; wrong_result H0 | success_leaf l1 Hall ]
  | let Hne := fresh "Hne" in
    intros Hne;
    first [ exfalso; apply Hne; reflexivity | failure_leaf l1 Hall ] ].

(** X20.  [add_simple] adds the entry or leaves the merged view without
    it.  When it returns 0 the entry was hashed and negative, [au_new_inode]
    gave an inode and the entry is instantiated with it, the version of
    the parent's inode is one more, exactly one native object was made,
    of the kind asked for, the whiteout that [lock_hdir_lkup_wh] found
    was removed, and none if it found none, and nothing was reverted or
    dropped.  When it returns an error the entry has the inode it had,
    none is instantiated, the parent's inode is as it was, and once the
    read lock had been got the entry is dropped from the dcache. *)
Theorem add_simple_outcome (o : oracle) (arg : simple_arg) (w : world) :
  let r := add_simple o arg w in
  let l := lock_hdir_lkup_wh o true 0
             {| force_btgt := -1; flags := AuWrDir_ADD_ENTRY |} w in
  let inode := o_ret o X_au_new_inode in
  (result r = 0 ->
   IS_ERR inode = false /\
   w_dentry w = {| d_name_len := d_name_len (w_dentry w);
                   d_unhashed := false; d_inode := 0 |} /\
   w_dentry (final r) = {| d_name_len := d_name_len (w_dentry w);
                           d_unhashed := false; d_inode := inode |} /\
   w_dir (final r) = dir_touched (w_dir w) /\
   (exists h, native_makes (trace r) = [Ev (make_of arg) [h] 0]) /\
   calls X_d_instantiate (trace r) = [Ev X_d_instantiate [inode] 0] /\
   reverts (trace r) = [] /\
   calls X_au_wh_unlink_dentry (trace r) =
     (if nz (result l) then
        [Ev X_au_wh_unlink_dentry [au_dbtop (w_dinfo (final l)); result l] 0]
      else [])) /\
  (result r <> 0 ->
   w_dir (final r) = w_dir w /\
   d_inode (w_dentry (final r)) = d_inode (w_dentry w) /\
   calls X_d_instantiate (trace r) = [] /\
   (o_ret o X_kmalloc <> 0 -> o_ret o X_aufs_read_lock = 0 ->
    d_unhashed (w_dentry (final r)) = true)).
Proof.
  cbv zeta.
  pose proof (lock_hdir_lkup_wh_frame o true 0
                {| force_btgt := -1; flags := AuWrDir_ADD_ENTRY |} w)
    as Hf. cbv zeta in Hf.
  destruct (lock_hdir_lkup_wh o true 0
              {| force_btgt := -1; flags := AuWrDir_ADD_ENTRY |} w)
    as [[whd w1] l1] eqn:Hl.
  cbv [result final trace] in Hf. cbn [fst snd] in Hf.
  destruct Hf as (-> & Hall).
  remember (add_simple o arg w) as R eqn:HR.
  destruct arg; unfold_top_in HR; run_in HR; subst R;
    outcome_leaf l1 Hall.
Qed.

(** X21.  [aufs_mkdir] adds the directory or leaves the merged view
    without it.  When it returns 0 the entry was hashed and negative and
    is instantiated with the inode [au_new_inode] gave, the parent's
    inode has one link more and its version is one more, exactly one
    native directory was made, nothing was reverted or dropped, and if
    [lock_hdir_lkup_wh] found a whiteout the new directory was made
    opaque and the whiteout removed, and neither if it found none.  When
    it returns an error the entry has the inode it had, the parent's
    inode is as it was, and once the read lock had been got the entry is
    dropped from the dcache. *)
Theorem aufs_mkdir_outcome (o : oracle) (mode : Z) (w : world) :
  let r := aufs_mkdir o mode w in
  let l := lock_hdir_lkup_wh o true 0
             {| force_btgt := -1;
                flags := Z.lor AuWrDir_ADD_ENTRY AuWrDir_ISDIR |} w in
  let inode := o_ret o X_au_new_inode in
  let btop := au_dbtop (w_dinfo (final l)) in
  (result r = 0 ->
   IS_ERR inode = false /\
   w_dentry w = {| d_name_len := d_name_len (w_dentry w);
                   d_unhashed := false; d_inode := 0 |} /\
   w_dentry (final r) = {| d_name_len := d_name_len (w_dentry w);
                           d_unhashed := false; d_inode := inode |} /\
   w_dir (final r) = dir_linked (w_dir w) /\
   (exists h, native_makes (trace r) = [Ev X_vfsub_mkdir [h] 0]) /\
   calls X_d_instantiate (trace r) = [Ev X_d_instantiate [inode] 0] /\
   reverts (trace r) = [] /\
   calls X_au_wh_unlink_dentry (trace r) =
     (if nz (result l) then [Ev X_au_wh_unlink_dentry [btop; result l] 0]
      else []) /\
   calls X_au_diropq_create (trace r) =
     (if nz (result l)
      then [Ev X_au_diropq_create [btop] (o_ret o X_au_diropq_create)]
      else [])) /\
  (result r <> 0 ->
   w_dir (final r) = w_dir w /\
   d_inode (w_dentry (final r)) = d_inode (w_dentry w) /\
   calls X_d_instantiate (trace r) = [] /\
   (o_ret o X_kmalloc <> 0 -> o_ret o X_aufs_read_lock = 0 ->
    d_unhashed (w_dentry (final r)) = true)).
Proof.
  cbv zeta.
  pose proof (lock_hdir_lkup_wh_frame o true 0
                {| force_btgt := -1;
                   flags := Z.lor AuWrDir_ADD_ENTRY AuWrDir_ISDIR |} w)
    as Hf. cbv zeta in Hf.
  destruct (lock_hdir_lkup_wh o true 0
              {| force_btgt := -1;
                 flags := Z.lor AuWrDir_ADD_ENTRY AuWrDir_ISDIR |} w)
    as [[whd w1] l1] eqn:Hl.
  cbv [result final trace] in Hf. cbn [fst snd] in Hf.
  destruct Hf as (-> & Hall).
  remember (aufs_mkdir o mode w) as R eqn:HR.
  unfold_top_in HR; run_in HR; subst R; prune; outcome_leaf l1 Hall.
Qed.

(** the results of the collaborators, as values named in the context *)
Ltac name_rets :=
  repeat match goal with
         | |- context [o_ret ?a ?b] =>
             let v := fresh "v" in
             let Hv := fresh "Hv" in
             remember (o_ret a b) as v eqn:Hv; clear Hv
         | H : context [o_ret ?a ?b] |- _ =>
             let v := fresh "v" in
             let Hv := fresh "Hv" in
             remember (o_ret a b) as v eqn:Hv; clear Hv
         end.

Ltac result_fact :=
  intros; nz_facts;
  first [ reflexivity | congruence
        | match goal with H : _ \/ _ |- _ => destruct H; congruence end ].

(** no run finds the native object it has just made negative *)
Ltac made_positive :=
  try match goal with
      | E : d_is_positive _ _ = false |- _ =>
          exfalso; revert E;
          unfold d_is_positive, h_inode_of, heap_set_inode;
          cbn [w_heap set_heap set_dinfo set_dentry set_dir set_fsdata];
          rewrite lookup_insert_eq; discriminate
      end.

(** a leaf of a run in which the removal of the whiteout failed *)
Ltac wh_unlink_leaf l1 Hall :=
  let Hin := fresh "Hin" in
  made_positive;
  cbv [result final trace]; cbn [fst snd]; intros Hin;
  apply elem_of_calls in Hin; cbn [ev_fn] in Hin;
  name_rets; revert Hin; abstract_args; calls_fast l1 Hall; intros Hin;
  inv_elem Hin; subst;
  try (exfalso; nz_facts; congruence);
  repeat (split; [first [ trace_fact l1 Hall | result_fact ]|]);
  first [ trace_fact l1 Hall | result_fact ].

(** X22.  When the removal of the whiteout fails, [add_simple] and
    [aufs_mkdir] neither allocate an inode nor make the whiteout again,
    which is still there.  They remove the native object they made: the
    file with [vfsub_unlink]; the directory, which had been made opaque,
    with [au_diropq_remove] and [vfsub_rmdir], followed by the restoring
    of the parent's times.  The error of the removal of the whiteout is
    returned if that succeeds, and -EIO if it does not. *)
Theorem wh_unlink_failure (o : oracle) (w : world) (b wh e : Z) :
  e <> 0 ->
  let ul := o_ret o X_vfsub_unlink in
  let rm := o_ret o X_au_diropq_remove in
  let rd := o_ret o X_vfsub_rmdir in
  (forall arg,
     let r := add_simple o arg w in
     Ev X_au_wh_unlink_dentry [b; wh] e ∈ trace r ->
     calls X_au_new_inode (trace r) = [] /\
     calls X_au_wh_create (trace r) = [] /\
     calls X_d_instantiate (trace r) = [] /\
     (exists h, calls X_vfsub_unlink (trace r) = [Ev X_vfsub_unlink [h] ul]) /\
     (ul = 0 -> result r = e) /\
     (ul <> 0 -> result r = - EIO)) /\
  (forall mode,
     let r := aufs_mkdir o mode w in
     Ev X_au_wh_unlink_dentry [b; wh] e ∈ trace r ->
     calls X_au_new_inode (trace r) = [] /\
     calls X_au_wh_create (trace r) = [] /\
     calls X_d_instantiate (trace r) = [] /\
     (exists h, unwind (trace r) =
        [Ev X_au_diropq_remove [b] rm; Ev X_vfsub_rmdir [h] rd;
         Ev X_au_dtime_revert [] 0]) /\
     (rm = 0 -> rd = 0 -> result r = e) /\
     (rm <> 0 \/ rd <> 0 -> result r = - EIO)).
Proof.
  intros He. cbv zeta. split.
  - intros arg.
    pose proof (lock_hdir_lkup_wh_frame o true 0
                  {| force_btgt := -1; flags := AuWrDir_ADD_ENTRY |} w)
      as Hf. cbv zeta in Hf.
    destruct (lock_hdir_lkup_wh o true 0
                {| force_btgt := -1; flags := AuWrDir_ADD_ENTRY |} w)
      as [[whd w1] l1] eqn:Hl.
    cbv [result final trace] in Hf. cbn [fst snd] in Hf.
    destruct Hf as (-> & Hall).
    remember (add_simple o arg w) as R eqn:HR.
    destruct arg; unfold_top_in HR; run_in HR; subst R; prune;
      wh_unlink_leaf l1 Hall.
  - intros mode.
    pose proof (lock_hdir_lkup_wh_frame o true 0
                  {| force_btgt := -1;
                     flags := Z.lor AuWrDir_ADD_ENTRY AuWrDir_ISDIR |} w)
      as Hf. cbv zeta in Hf.
    destruct (lock_hdir_lkup_wh o true 0
                {| force_btgt := -1;
                   flags := Z.lor AuWrDir_ADD_ENTRY AuWrDir_ISDIR |} w)
      as [[whd w1] l1] eqn:Hl.
    cbv [result final trace] in Hf. cbn [fst snd] in Hf.
    destruct Hf as (-> & Hall).
    remember (aufs_mkdir o mode w) as R eqn:HR.
    unfold_top_in HR; run_in HR; subst R; prune; wh_unlink_leaf l1 Hall.
Qed.

Lemma lock_hdir_may_add_long w udba bcpup h_parent args err :
  AUFS_MAX_NAMELEN < d_name_len (w_dentry w) ->
  lock_hdir_may_add w udba bcpup h_parent args err = - ENAMETOOLONG.
Proof.
  intros H. apply Z.ltb_lt in H. unfold lock_hdir_may_add, au_may_add.
  rewrite H. by destruct (_ && _).
Qed.

(** what [lock_hdir_lkup_wh] does with a name that is too long *)
Lemma lock_hdir_lkup_wh_long (o : oracle) (dt : bool) (src : Z)
    (args : au_wr_dir_args) (w : world) :
  AUFS_MAX_NAMELEN < d_name_len (w_dentry w) ->
  0 <= o_ret o X_au_wr_dir -> o_ret o X_au_pin = 0 ->
  let r := lock_hdir_lkup_wh o dt src args w in
  result r = - ENAMETOOLONG /\
  calls X_au_wh_lkup (trace r) = [] /\
  calls X_au_unpin (trace r) = [Ev X_au_unpin [] 0] /\
  calls X_au_dtime_store (trace r) = [].
Proof.
  intros Hlong Hb Hpin. cbv zeta.
  pose proof (lock_hdir_may_add_long
                (set_dinfo (o_di o X_au_wr_dir (w_dinfo w)) w)
                (au_opt_udba (w_mntflags w)) (o_ret o X_au_wr_dir)
                (o_h_parent o (o_ret o X_au_wr_dir)) args
                (o_ret o X_au_pin) Hlong) as Hma.
  unfold_tx. norm.
  assert (Hlt : (o_ret o X_au_wr_dir <? 0) = false) by (apply Z.ltb_ge; lia).
  rewrite Hlt. norm. rewrite Hpin. norm. rewrite Hpin in Hma.
  rewrite Hma. cbn [app fst snd]. eval_calls. done.
Qed.

(** X23.  A name longer than [AUFS_MAX_NAMELEN] is refused with
    -ENAMETOOLONG once the branch is selected and pinned, in every mode
    of direct branch access: [lock_hdir_lkup_wh] drops the pin, stores no
    times and looks up no whiteout, and [add_simple] and [aufs_mkdir]
    return the error without making a native object. *)
Theorem name_too_long (o : oracle) (w : world) :
  AUFS_MAX_NAMELEN < d_name_len (w_dentry w) ->
  0 <= o_ret o X_au_wr_dir -> o_ret o X_au_pin = 0 ->
  (forall dt src args,
     let r := lock_hdir_lkup_wh o dt src args w in
     result r = - ENAMETOOLONG /\
     calls X_au_wh_lkup (trace r) = [] /\
     calls X_au_unpin (trace r) = [Ev X_au_unpin [] 0] /\
     calls X_au_dtime_store (trace r) = []) /\
  (o_ret o X_kmalloc <> 0 -> o_ret o X_aufs_read_lock = 0 ->
   d_unhashed (w_dentry w) = false -> d_inode (w_dentry w) = 0 ->
   (forall arg,
      result (add_simple o arg w) = - ENAMETOOLONG /\
      native_makes (trace (add_simple o arg w)) = []) /\
   (forall mode,
      result (aufs_mkdir o mode w) = - ENAMETOOLONG /\
      native_makes (trace (aufs_mkdir o mode w)) = [])).
Proof.
  intros Hlong Hb Hpin. split.
  { intros dt src args. by apply lock_hdir_lkup_wh_long. }
  intros Hk Hr Hu Hi.
  apply nz_true in Hk. apply nz_false in Hr.
  assert (Hadd : nz (au_d_may_add (w_dentry w)) = false).
  { unfold au_d_may_add, d_really_is_positive. rewrite Hu, Hi. reflexivity. }
  split.
  - intros arg.
    pose proof (lock_hdir_lkup_wh_long o true 0
                  {| force_btgt := -1; flags := AuWrDir_ADD_ENTRY |} w
                  Hlong Hb Hpin) as Hp. cbv zeta in Hp.
    pose proof (lock_hdir_lkup_wh_frame o true 0
                  {| force_btgt := -1; flags := AuWrDir_ADD_ENTRY |} w)
      as Hf. cbv zeta in Hf.
    destruct (lock_hdir_lkup_wh o true 0
                {| force_btgt := -1; flags := AuWrDir_ADD_ENTRY |} w)
      as [[whd w1] l1] eqn:Hl.
    cbv [result final trace] in Hp, Hf. cbn [fst snd] in Hp, Hf.
    destruct Hf as (-> & Hall). destruct Hp as (-> & _).
    assert (He : IS_ERR (- ENAMETOOLONG) = true) by reflexivity.
    assert (Hn : nz (- ENAMETOOLONG) = true) by reflexivity.
    remember (add_simple o arg w) as R eqn:HR.
    unfold_top_in HR; run_in HR; subst R.
    cbv [result trace]; cbn [fst snd]. split; [reflexivity|].
    kinds_fast l1 Hall. reflexivity.
  - intros mode.
    pose proof (lock_hdir_lkup_wh_long o true 0
                  {| force_btgt := -1;
                     flags := Z.lor AuWrDir_ADD_ENTRY AuWrDir_ISDIR |} w
                  Hlong Hb Hpin) as Hp. cbv zeta in Hp.
    pose proof (lock_hdir_lkup_wh_frame o true 0
                  {| force_btgt := -1;
                     flags := Z.lor AuWrDir_ADD_ENTRY AuWrDir_ISDIR |} w)
      as Hf. cbv zeta in Hf.
    destruct (lock_hdir_lkup_wh o true 0
                {| force_btgt := -1;
                   flags := Z.lor AuWrDir_ADD_ENTRY AuWrDir_ISDIR |} w)
      as [[whd w1] l1] eqn:Hl.
    cbv [result final trace] in Hp, Hf. cbn [fst snd] in Hp, Hf.
    destruct Hf as (-> & Hall). destruct Hp as (-> & _).
    assert (He : IS_ERR (- ENAMETOOLONG) = true) by reflexivity.
    assert (Hn : nz (- ENAMETOOLONG) = true) by reflexivity.
    remember (aufs_mkdir o mode w) as R eqn:HR.
    unfold_top_in HR; run_in HR; subst R.
    cbv [result trace]; cbn [fst snd]. split; [reflexivity|].
    kinds_fast l1 Hall. reflexivity.
Qed.

(** X24.  [au_may_add] returns 0 exactly when the name is not too long,
    the parent given is the parent of the native dentry of the branch,
    and the native dentry fits the entry: negative for a negative entry;
    for a positive entry (the rename(2) case) positive, with links, and a
    directory exactly when a directory is asked for.  A name that is too
    long is refused first, with -ENAMETOOLONG, and a native object under
    a negative entry with -EEXIST. *)
Theorem au_may_add_cases (w : world) (bindex h_parent isdir : Z) :
  let h := au_h_dptr (w_dinfo w) bindex in
  let err := au_may_add w bindex h_parent isdir in
  (err = 0 <->
   d_name_len (w_dentry w) <= AUFS_MAX_NAMELEN /\
   h_parent = h_parent_of w h /\
   (if d_really_is_negative (w_dentry w) then h_inode_of w h = None
    else exists i, h_inode_of w h = Some i /\ i_nlink i <> 0 /\
                   S_ISDIR (i_mode i) = nz isdir)) /\
  (AUFS_MAX_NAMELEN < d_name_len (w_dentry w) -> err = - ENAMETOOLONG) /\
  (d_name_len (w_dentry w) <= AUFS_MAX_NAMELEN ->
   d_really_is_negative (w_dentry w) = true ->
   h_inode_of w h <> None -> err = - EEXIST).
Proof.
  cbv zeta. unfold au_may_add, d_is_positive.
  destruct (Z.ltb_spec AUFS_MAX_NAMELEN (d_name_len (w_dentry w)))
    as [Hlong|Hfit].
  { split; [|split]; [|done|lia].
    split; [intros H; vm_compute in H; discriminate H|]. lia. }
  destruct (Z.eqb_spec h_parent
              (h_parent_of w (au_h_dptr (w_dinfo w) bindex))) as [Hp|Hp];
    cbn [negb];
    destruct (d_really_is_negative (w_dentry w)) eqn:Hneg;
    destruct (h_inode_of w (au_h_dptr (w_dinfo w) bindex)) as [i|] eqn:Hi;
    try (destruct (nz (i_nlink i)) eqn:Hl; cbn [negb];
         [apply nz_true in Hl|apply nz_false in Hl]);
    try (destruct (nz isdir) eqn:Hd; cbn [negb];
         destruct (S_ISDIR (i_mode i)) eqn:Hs; cbn [negb]);
    (split; [|split]; [|lia|]);
    try (intros _ _ Hne; first [reflexivity | by destruct Hne]);
    try (intros _ Habs _; discriminate Habs);
    (split;
     [ intros H; first [ vm_compute in H; discriminate H
                       | split; [lia|]; split; [assumption|];
                         first [ reflexivity
                               | exists i; split; [reflexivity|];
                                 split; congruence ] ]
     | intros (_ & Hp' & Hrest);
       first [ reflexivity | congruence
             | destruct Hrest as (i' & [= <-] & Hn' & Hs'); congruence ] ]).
Qed.

(** X25.  Every run of [aufs_tmpfile] locks the directory once and
    unlocks it once, gives back the superblock lock and the write access
    to the branch exactly when it got them, and unlocks the parent and the
    entry exactly when it locked the parent. *)
Theorem aufs_tmpfile_balanced (o : oracle) (dir mode : Z) (w : world) :
  tmpfile_balanced (trace (aufs_tmpfile o dir mode w)).
Proof.
  remember (aufs_tmpfile o dir mode w) as R eqn:HR.
  unfold_top_in HR; run_in HR; subst R;
    cbv [trace]; cbn [fst snd]; unfold tmpfile_balanced, succeeded;
    eval_calls; cbn [filter list_filter ev_ret];
    repeat match goal with
           | |- context [decide (?a = 0)] =>
               first [ rewrite (decide_True (P := a = 0)) by
                         (path_facts; first [assumption | reflexivity])
                     | rewrite (decide_False (P := a = 0)) by
                         (path_facts; assumption) ]
           end;
    repeat split; reflexivity.
Qed.

(** X26.  How [aufs_tmpfile] fails.  An error of the superblock lock or of
    [au_di_init] is returned as it is, before anything is attached to the
    entry.  Once [au_di_init] succeeded, the entry keeps its aufs data
    exactly when the call returns 0: on every error [au_di_fin] is called
    once and the data is detached.  When the alias found for the directory
    is not an entry of that directory the call returns -EBUSY without
    selecting a branch or making a native object. *)
Theorem aufs_tmpfile_failure (o : oracle) (dir mode : Z) (w : world) :
  let r := aufs_tmpfile o dir mode w in
  (o_ret o X_si_read_lock <> 0 ->
   result r = o_ret o X_si_read_lock /\ final r = w /\
   calls X_au_di_init (trace r) = []) /\
  (o_ret o X_si_read_lock = 0 -> o_ret o X_au_di_init <> 0 ->
   result r = o_ret o X_au_di_init /\
   w_fsdata (final r) = w_fsdata w /\
   calls X_au_di_fin (trace r) = [] /\
   calls X_d_find_any_alias (trace r) = []) /\
  (o_ret o X_si_read_lock = 0 -> o_ret o X_au_di_init = 0 ->
   (w_fsdata (final r) = true <-> result r = 0) /\
   length (calls X_au_di_fin (trace r)) =
     (if nz (result r) then 1%nat else 0%nat) /\
   (o_parent_d_inode o <> dir ->
    result r = - EBUSY /\
    calls X_au_wr_dir (trace r) = [] /\
    calls X_vfs_tmpfile (trace r) = [])).
Proof.
  cbv zeta.
  remember (aufs_tmpfile o dir mode w) as R eqn:HR.
  unfold_top_in HR; run_in HR; subst R;
    cbv [result trace final]; cbn [fst snd]; prune.
  all: split; [ intros Hsi; path_facts;
                first [ exfalso; congruence
                      | repeat split; eval_calls; reflexivity ] | ].
  all: split; [ intros Hsi Hdi; path_facts;
                first [ exfalso; congruence
                      | repeat split; eval_calls; reflexivity ] | ].
  all: intros Hsi Hdi; path_facts; try (exfalso; congruence).
  all: cbn [w_fsdata set_fsdata set_dinfo set_dentry set_heap].
  all: split; [ split; intros Hx;
                first [ reflexivity | discriminate Hx
                      | exfalso; congruence
                      | vm_compute in Hx; discriminate Hx
                      | match goal with
                        | E : IS_ERR ?x = true |- _ =>
                            apply IS_ERR_ne_0 in E; congruence
                        end
                      | lia ] | ].
  all: split;
    [ eval_calls;
      match goal with
      | |- context [nz ?x] =>
          let Hn := fresh "Hn" in
          destruct (nz x) eqn:Hn;
          [ apply nz_true in Hn | apply nz_false in Hn ]
      end;
      first [ reflexivity
            | exfalso;
              first [ congruence | lia | discriminate
                    | match goal with
                      | E : IS_ERR ?x = true |- _ =>
                          apply IS_ERR_ne_0 in E; congruence
                      end ] ] | ].
  all: intros Hne;
    first [ exfalso; congruence
          | repeat split; eval_calls; reflexivity ].
Qed.

End Add.

Lemma errno_ok_oracle_of f :
  (f X_au_wr_dir < 0 -> IS_ERR (f X_au_wr_dir) = true) ->
  (f X_au_pin <> 0 -> IS_ERR (f X_au_pin) = true) ->
  errno_ok (oracle_of f).
Proof. intros H1 H2. split; assumption. Qed.

Ltac sample_errno_ok :=
  apply errno_ok_oracle_of; vm_compute; intros; congruence.

Ltac in_trace := apply list_elem_of_In; vm_compute; tauto.

(** C6, at the entry "foo": with a whiteout in branch 2 the lookup is made
    and its result returned, without one it is not and the result is
    [NULL]. *)
Lemma lock_hdir_lkup_wh_decides_witness :
  let args := {| force_btgt := -1; flags := 1 |} in
  0 <= o_ret o_ok X_au_wr_dir /\
  o_ret o_ok X_au_pin = 0 /\
  calls X_au_wh_lkup
    (trace (lock_hdir_lkup_wh (K := K5) o_ok true 0 args w_wh))
    = [Ev X_au_wh_lkup [50; 2] 200] /\
  result (lock_hdir_lkup_wh (K := K5) o_ok true 0 args w_wh) = 200 /\
  calls X_au_wh_lkup
    (trace (lock_hdir_lkup_wh (K := K5) o_ok true 0 args w_plain)) = [] /\
  result (lock_hdir_lkup_wh (K := K5) o_ok true 0 args w_plain) = 0.
Proof.
  cbv zeta.
  assert (Hb : 0 <= o_ret o_ok X_au_wr_dir) by (vm_compute; congruence).
  assert (Hp : o_ret o_ok X_au_pin = 0) by reflexivity.
  split; [exact Hb|]. split; [exact Hp|].
  destruct (lock_hdir_lkup_wh_decides (K := K5) o_ok true 0
              {| force_btgt := -1; flags := 1 |} w_wh Hb Hp)
    as (_ & Hyes & _); [reflexivity|].
  destruct (lock_hdir_lkup_wh_decides (K := K5) o_ok true 0
              {| force_btgt := -1; flags := 1 |} w_plain Hb Hp)
    as (_ & _ & Hno & _); [reflexivity|].
  destruct Hyes as [H1 H2]; [reflexivity|].
  destruct Hno as (H3 & H4 & _); [vm_compute; congruence|].
  split; [exact H1|]. split; [exact H2|]. split; [exact H3 | exact H4].
Defined.

(** C7 as stated fails: a rejected creation does not leave the state as it
    was, the entry is dropped from the dcache; and an entry that is both
    unhashed and positive gets -EEXIST, not -ENOENT. *)
Lemma add_rejects_early_cex :
  let r := aufs_create (K := K5) o_ok 420 false w_positive in
  let r' := aufs_create (K := K5) o_ok 420 false w_orphan in
  result r = - EEXIST /\
  d_unhashed (w_dentry w_positive) = false /\
  d_unhashed (w_dentry (final r)) = true /\
  final r <> w_positive /\
  d_unhashed (w_dentry w_orphan) = true /\
  result r' = - EEXIST /\ result r' <> - ENOENT.
Proof.
  cbv zeta. split; [reflexivity|]. split; [reflexivity|].
  split; [reflexivity|]. split.
  - intros H. apply (f_equal (fun w => d_unhashed (w_dentry w))) in H.
    vm_compute in H. discriminate H.
  - split; [reflexivity|]. split; [reflexivity|]. vm_compute. congruence.
Defined.

(** C7 as amended, at the positive entry. *)
Lemma add_rejects_early_witness :
  o_ret o_ok X_kmalloc <> 0 /\
  o_ret o_ok X_aufs_read_lock = 0 /\
  d_really_is_positive (w_dentry w_positive) = true /\
  result (aufs_mkdir (K := K5) o_ok 493 w_positive) = - EEXIST /\
  calls X_au_wr_dir (trace (aufs_mkdir (K := K5) o_ok 493 w_positive)) = [] /\
  calls X_vfsub_mkdir (trace (aufs_mkdir (K := K5) o_ok 493 w_positive)) = [].
Proof.
  assert (Hk : o_ret o_ok X_kmalloc <> 0) by (vm_compute; congruence).
  assert (Hl : o_ret o_ok X_aufs_read_lock = 0) by reflexivity.
  assert (Hd : d_really_is_positive (w_dentry w_positive) = true)
    by reflexivity.
  split; [exact Hk|]. split; [exact Hl|]. split; [exact Hd|].
  destruct (add_rejects_early (K := K5) o_ok w_positive Hk Hl (or_introl Hd))
    as (_ & Hm & _).
  rewrite (Hm 493). repeat split; reflexivity.
Defined.

(** C1 as stated fails: the whiteout of "foo" is removed, the inode cannot
    be allocated (-ENOMEM), the whiteout is made again with success, but
    the native file cannot be unlinked, and the caller gets -EIO instead of
    -ENOMEM. *)
Lemma whiteout_revert_cex :
  let r := aufs_create (K := K5) o_unlink_fails 420 false w_wh in
  Ev X_au_wh_unlink_dentry [2; 200] 0 ∈ trace r /\
  o_ret o_unlink_fails X_au_new_inode = - ENOMEM /\
  Ev X_au_wh_create [2; 50] 201 ∈ trace r /\
  IS_ERR 201 = false /\
  result r = - EIO /\
  result r <> o_ret o_unlink_fails X_au_new_inode.
Proof.
  cbv zeta. split; [in_trace|]. split; [reflexivity|]. split; [in_trace|].
  split; [reflexivity|]. split; [reflexivity|]. vm_compute. congruence.
Defined.

(** C1 as amended, at the entry "foo": the whiteout cannot be made again
    and the call returns -EIO; it can, the native file is unlinked, and
    the call returns -ENOMEM; it can, the native file cannot be unlinked,
    and the call returns -EIO. *)
Lemma whiteout_revert_witness :
  errno_ok o_wh_create_fails /\ errno_ok o_new_inode_fails /\
  errno_ok o_unlink_fails /\
  Ev X_au_wh_unlink_dentry [2; 200] 0
    ∈ trace (aufs_create (K := K5) o_wh_create_fails 420 false w_wh) /\
  result (aufs_create (K := K5) o_wh_create_fails 420 false w_wh) = - EIO /\
  Ev X_au_wh_unlink_dentry [2; 200] 0
    ∈ trace (aufs_create (K := K5) o_new_inode_fails 420 false w_wh) /\
  result (aufs_create (K := K5) o_new_inode_fails 420 false w_wh) = - ENOMEM /\
  Ev X_au_wh_unlink_dentry [2; 200] 0
    ∈ trace (aufs_create (K := K5) o_unlink_fails 420 false w_wh) /\
  result (aufs_create (K := K5) o_unlink_fails 420 false w_wh) = - EIO.
Proof.
  assert (He1 : errno_ok o_wh_create_fails) by sample_errno_ok.
  assert (He2 : errno_ok o_new_inode_fails) by sample_errno_ok.
  assert (He3 : errno_ok o_unlink_fails) by sample_errno_ok.
  assert (Hin3 : Ev X_au_wh_unlink_dentry [2; 200] 0
            ∈ trace (aufs_create (K := K5) o_unlink_fails 420 false w_wh))
    by in_trace.
  assert (Hin1 : Ev X_au_wh_unlink_dentry [2; 200] 0
            ∈ trace (aufs_create (K := K5) o_wh_create_fails 420 false w_wh))
    by in_trace.
  assert (Hin2 : Ev X_au_wh_unlink_dentry [2; 200] 0
            ∈ trace (aufs_create (K := K5) o_new_inode_fails 420 false w_wh))
    by in_trace.
  split; [exact He1|]. split; [exact He2|]. split; [exact He3|].
  split; [exact Hin1|].
  destruct (whiteout_revert (K := K5) o_wh_create_fails w_wh 2 200 He1)
    as [Ha _].
  destruct (Ha (Creat 420 false) Hin1) as (_ & _ & _ & Hfail & _);
    [vm_compute; congruence|].
  split; [apply Hfail; reflexivity|]. split; [exact Hin2|].
  destruct (whiteout_revert (K := K5) o_new_inode_fails w_wh 2 200 He2)
    as [Hb _].
  destruct (Hb (Creat 420 false) Hin2) as (_ & _ & _ & _ & _ & Hok & _);
    [vm_compute; congruence|].
  split; [apply Hok; reflexivity|]. split; [exact Hin3|].
  destruct (whiteout_revert (K := K5) o_unlink_fails w_wh 2 200 He3)
    as [Hc _].
  destruct (Hc (Creat 420 false) Hin3) as (_ & _ & _ & _ & _ & _ & Hesc);
    [vm_compute; congruence|].
  apply Hesc; [reflexivity | vm_compute; congruence].
Defined.

(** C2 as stated fails: the opaque marker cannot be made and the
    directory cannot be removed either; the call returns -EIO and the
    native directory stays. *)
Lemma aufs_mkdir_unwind_cex :
  let r := aufs_mkdir (K := K5) o_diropq_rmdir_fail 493 w_wh in
  Ev X_vfsub_mkdir [100] 0 ∈ trace r /\
  Ev X_au_diropq_create [2] (- ENOSPC) ∈ trace r /\
  IS_ERR (- ENOSPC) = true /\
  result r = - EIO /\
  is_Some (h_inode_of (final r) 100) /\
  h_inode_of (final r) 100 <> None.
Proof.
  cbv zeta. split; [in_trace|]. split; [in_trace|]. split; [reflexivity|].
  split; [reflexivity|]. split; [vm_compute; eauto|].
  vm_compute. congruence.
Defined.

(** C2 as amended, at the entry "foo": the opaque marker cannot be made,
    the directory is removed, nothing is left; the directory cannot be
    removed either, and is left without a marker. *)
Lemma aufs_mkdir_unwind_witness :
  let r := aufs_mkdir (K := K5) o_diropq_fails 493 w_wh in
  let r' := aufs_mkdir (K := K5) o_diropq_rmdir_fail 493 w_wh in
  Ev X_vfsub_mkdir [100] 0 ∈ trace r /\
  result r <> 0 /\
  Ev X_au_diropq_create [2] (- ENOSPC) ∈ trace r /\
  unwind (trace r) = [Ev X_vfsub_rmdir [100] 0; Ev X_au_dtime_revert [] 0] /\
  result r = - ENOSPC /\
  h_inode_of (final r) 100 = None /\
  Ev X_vfsub_mkdir [100] 0 ∈ trace r' /\
  result r' <> 0 /\
  Ev X_au_diropq_create [2] (- ENOSPC) ∈ trace r' /\
  result r' = - EIO /\
  exists i, h_inode_of (final r') 100 = Some i /\ i_opaque i = false /\
            S_ISDIR (i_mode i) = true.
Proof.
  cbv zeta.
  assert (Hin : Ev X_vfsub_mkdir [100] 0
            ∈ trace (aufs_mkdir (K := K5) o_diropq_fails 493 w_wh))
    by in_trace.
  assert (Hres : result (aufs_mkdir (K := K5) o_diropq_fails 493 w_wh) <> 0)
    by (vm_compute; congruence).
  assert (Hopq : Ev X_au_diropq_create [2] (- ENOSPC)
            ∈ trace (aufs_mkdir (K := K5) o_diropq_fails 493 w_wh))
    by in_trace.
  assert (Hin' : Ev X_vfsub_mkdir [100] 0
            ∈ trace (aufs_mkdir (K := K5) o_diropq_rmdir_fail 493 w_wh))
    by in_trace.
  assert (Hres' : result (aufs_mkdir (K := K5) o_diropq_rmdir_fail 493 w_wh)
                  <> 0)
    by (vm_compute; congruence).
  assert (Hopq' : Ev X_au_diropq_create [2] (- ENOSPC)
            ∈ trace (aufs_mkdir (K := K5) o_diropq_rmdir_fail 493 w_wh))
    by in_trace.
  split; [exact Hin|]. split; [exact Hres|]. split; [exact Hopq|].
  destruct (aufs_mkdir_unwind (K := K5) o_diropq_fails 493 w_wh 100 Hin Hres)
    as ((b & Hu) & _ & Hleft).
  destruct (Hleft 2 (- ENOSPC) Hopq) as (Hnot & _ & _ & Hclean & _);
    [reflexivity|].
  rewrite Hnot in Hu. split; [exact Hu|].
  destruct Hclean as [Hr Hn]; [reflexivity|].
  split; [exact Hr|]. split; [exact Hn|].
  split; [exact Hin'|]. split; [exact Hres'|]. split; [exact Hopq'|].
  destruct (aufs_mkdir_unwind (K := K5) o_diropq_rmdir_fail 493 w_wh 100
              Hin' Hres') as (_ & _ & Hleft').
  destruct (Hleft' 2 (- ENOSPC) Hopq') as (_ & _ & _ & _ & Hstays);
    [reflexivity|].
  apply Hstays. vm_compute. congruence.
Defined.

(** C9, at the entry for a temporary file: the branch has no tmpfile
    operation; everything succeeds; [au_new_inode] fails. *)
Lemma aufs_tmpfile_spec_witness :
  tmpfile_resolves o_no_tmpfile 7 2 /\
  o_tmpfile_op o_no_tmpfile 2 = 0 /\
  result (aufs_tmpfile (K := K5) o_no_tmpfile 7 384 w_tmp) = - EOPNOTSUPP /\
  result (aufs_tmpfile (K := K5) o_ok 7 384 w_tmp) = 0 /\
  au_h_dptr (w_dinfo (final (aufs_tmpfile (K := K5) o_ok 7 384 w_tmp))) 2
    = 300 /\
  tmpfile_resolves o_new_inode_fails 7 2 /\
  result (aufs_tmpfile (K := K5) o_new_inode_fails 7 384 w_tmp) = - ENOMEM /\
  au_dbtop
    (w_dinfo (final (aufs_tmpfile (K := K5) o_new_inode_fails 7 384 w_tmp)))
    = -1.
Proof.
  assert (Hr1 : tmpfile_resolves o_no_tmpfile 7 2)
    by (vm_compute; repeat split; congruence).
  assert (Hr3 : tmpfile_resolves o_new_inode_fails 7 2)
    by (vm_compute; repeat split; congruence).
  assert (H0 : result (aufs_tmpfile (K := K5) o_ok 7 384 w_tmp) = 0)
    by reflexivity.
  destruct (aufs_tmpfile_spec (K := K5) o_no_tmpfile 7 384 w_tmp)
    as (Hns & _).
  destruct (aufs_tmpfile_spec (K := K5) o_ok 7 384 w_tmp) as (_ & Hok & _).
  destruct (aufs_tmpfile_spec (K := K5) o_new_inode_fails 7 384 w_tmp)
    as (_ & _ & Hfail & _).
  split; [exact Hr1|]. split; [reflexivity|].
  split; [apply (Hns Hr1); reflexivity|]. split; [exact H0|].
  split; [apply (Hok H0)|]. split; [exact Hr3|].
  destruct (Hfail Hr3) as (Hres & _ & Htop & _);
    [vm_compute; congruence | reflexivity | reflexivity | reflexivity |].
  split; [exact Hres | exact Htop].
Defined.

(** X18, at the entry "foo": everything succeeds and the branch stays
    pinned. *)
Lemma lock_hdir_lkup_wh_pins_witness :
  let r := lock_hdir_lkup_wh (K := K5) o_ok true 0
             {| force_btgt := -1; flags := 1 |} w_wh in
  errno_ok o_ok /\
  IS_ERR (result r) = false /\
  length (succeeded X_au_pin (trace r)) = 1%nat /\
  calls X_au_unpin (trace r) = [].
Proof.
  cbv zeta.
  assert (He : errno_ok o_ok) by sample_errno_ok.
  split; [exact He|]. split; [reflexivity|].
  destruct (lock_hdir_lkup_wh_pins (K := K5) o_ok true 0
              {| force_btgt := -1; flags := 1 |} w_wh He) as (Hok & _).
  apply Hok. reflexivity.
Defined.

(** X19, at the entry "foo": the inode cannot be allocated and the
    creation is undone. *)
Lemma add_balanced_witness :
  errno_ok o_new_inode_fails /\
  balanced (trace (add_simple (K := K5) o_new_inode_fails
                     (Creat 420 false) w_wh)) /\
  balanced (trace (aufs_mkdir (K := K5) o_new_inode_fails 493 w_wh)).
Proof.
  assert (He : errno_ok o_new_inode_fails) by sample_errno_ok.
  split; [exact He|].
  destruct (add_balanced (K := K5) o_new_inode_fails w_wh He) as (Ha & Hm).
  split; [apply Ha | apply Hm].
Defined.

(** X20, at the entry "foo": the file is created; the inode cannot be
    allocated. *)
Lemma add_simple_outcome_witness :
  let r := add_simple (K := K5) o_ok (Creat 420 false) w_wh in
  let r' := add_simple (K := K5) o_new_inode_fails (Creat 420 false) w_wh in
  result r = 0 /\
  w_dir (final r) = dir_touched (w_dir w_wh) /\
  reverts (trace r) = [] /\
  result r' <> 0 /\
  w_dir (final r') = w_dir w_wh /\
  calls X_d_instantiate (trace r') = [].
Proof.
  cbv zeta.
  assert (H0 : result (add_simple (K := K5) o_ok (Creat 420 false) w_wh) = 0)
    by reflexivity.
  assert (H1 : result (add_simple (K := K5) o_new_inode_fails
                         (Creat 420 false) w_wh) <> 0)
    by (vm_compute; congruence).
  destruct (add_simple_outcome (K := K5) o_ok (Creat 420 false) w_wh)
    as (Hok & _).
  destruct (add_simple_outcome (K := K5) o_new_inode_fails
              (Creat 420 false) w_wh) as (_ & Hfail).
  destruct (Hok H0) as (_ & _ & _ & Hd & _ & _ & Hr & _).
  destruct (Hfail H1) as (Hd' & _ & Hi & _).
  split; [exact H0|]. split; [exact Hd|]. split; [exact Hr|].
  split; [exact H1|]. split; [exact Hd' | exact Hi].
Defined.

(** X21, at the entry "foo": the directory is made; the opaque marker
    cannot be made. *)
Lemma aufs_mkdir_outcome_witness :
  let r := aufs_mkdir (K := K5) o_ok 493 w_wh in
  let r' := aufs_mkdir (K := K5) o_diropq_fails 493 w_wh in
  result r = 0 /\
  w_dir (final r) = dir_linked (w_dir w_wh) /\
  reverts (trace r) = [] /\
  result r' <> 0 /\
  w_dir (final r') = w_dir w_wh /\
  calls X_d_instantiate (trace r') = [].
Proof.
  cbv zeta.
  assert (H0 : result (aufs_mkdir (K := K5) o_ok 493 w_wh) = 0)
    by reflexivity.
  assert (H1 : result (aufs_mkdir (K := K5) o_diropq_fails 493 w_wh) <> 0)
    by (vm_compute; congruence).
  destruct (aufs_mkdir_outcome (K := K5) o_ok 493 w_wh) as (Hok & _).
  destruct (aufs_mkdir_outcome (K := K5) o_diropq_fails 493 w_wh)
    as (_ & Hfail).
  destruct (Hok H0) as (_ & _ & _ & Hd & _ & _ & Hr & _).
  destruct (Hfail H1) as (Hd' & _ & Hi & _).
  split; [exact H0|]. split; [exact Hd|]. split; [exact Hr|].
  split; [exact H1|]. split; [exact Hd' | exact Hi].
Defined.

(** X22, at the entry "foo": the whiteout is busy, the file just made is
    unlinked and -EBUSY returned. *)
Lemma wh_unlink_failure_witness :
  let r := add_simple (K := K5) o_wh_unlink_fails (Creat 420 false) w_wh in
  - EBUSY <> 0 /\
  Ev X_au_wh_unlink_dentry [2; 200] (- EBUSY) ∈ trace r /\
  calls X_au_new_inode (trace r) = [] /\
  calls X_au_wh_create (trace r) = [] /\
  result r = - EBUSY.
Proof.
  cbv zeta.
  assert (He : - EBUSY <> 0) by (vm_compute; congruence).
  assert (Hin : Ev X_au_wh_unlink_dentry [2; 200] (- EBUSY)
            ∈ trace (add_simple (K := K5) o_wh_unlink_fails
                       (Creat 420 false) w_wh)) by in_trace.
  split; [exact He|]. split; [exact Hin|].
  destruct (wh_unlink_failure (K := K5) o_wh_unlink_fails w_wh 2 200
              (- EBUSY) He) as (Ha & _).
  destruct (Ha (Creat 420 false) Hin) as (Hn & Hc & _ & _ & Hr & _).
  split; [exact Hn|]. split; [exact Hc|]. apply Hr. reflexivity.
Defined.

(** X23, at an entry with a name of 300 characters. *)
Lemma name_too_long_witness :
  242 < d_name_len (w_dentry w_long) /\
  0 <= o_ret o_ok X_au_wr_dir /\
  o_ret o_ok X_au_pin = 0 /\
  result (aufs_mkdir (K := K5) o_ok 493 w_long) = - ENAMETOOLONG /\
  native_makes (trace (aufs_mkdir (K := K5) o_ok 493 w_long)) = [].
Proof.
  assert (Hl : 242 < d_name_len (w_dentry w_long)) by reflexivity.
  assert (Hb : 0 <= o_ret o_ok X_au_wr_dir) by (vm_compute; congruence).
  assert (Hp : o_ret o_ok X_au_pin = 0) by reflexivity.
  split; [exact Hl|]. split; [exact Hb|]. split; [exact Hp|].
  destruct (name_too_long (K := K5) o_ok w_long Hl Hb Hp) as (_ & Hadd).
  destruct Hadd as (_ & Hm);
    [vm_compute; congruence | reflexivity | reflexivity | reflexivity |].
  apply Hm.
Defined.

(** X24, at the entry "foo": the prepared native dentry 100 is negative
    and lies under the parent's native dentry 50. *)
Lemma au_may_add_cases_witness :
  au_may_add (K := K5) w_wh 2 50 0 = 0 /\
  au_may_add (K := K5) w_long 2 50 0 = - ENAMETOOLONG.
Proof.
  destruct (au_may_add_cases (K := K5) w_wh 2 50 0) as (Hiff & _).
  destruct (au_may_add_cases (K := K5) w_long 2 50 0) as (_ & Hlong & _).
  split.
  - apply Hiff. split; [vm_compute; congruence|]. split; reflexivity.
  - apply Hlong. reflexivity.
Defined.

(** X26, at the entry for a temporary file: the alias found belongs to
    another directory. *)
Lemma aufs_tmpfile_failure_witness :
  let r := aufs_tmpfile (K := K5) o_other_parent 7 384 w_tmp in
  o_ret o_other_parent X_si_read_lock = 0 /\
  o_ret o_other_parent X_au_di_init = 0 /\
  o_parent_d_inode o_other_parent <> 7 /\
  result r = - EBUSY /\
  calls X_au_wr_dir (trace r) = [] /\
  length (calls X_au_di_fin (trace r)) = 1%nat.
Proof.
  cbv zeta.
  destruct (aufs_tmpfile_failure (K := K5) o_other_parent 7 384 w_tmp)
    as (_ & _ & Hrun).
  destruct Hrun as (_ & Hfin & Hbusy); [reflexivity | reflexivity |].
  destruct Hbusy as (Hr & Hw & _); [vm_compute; congruence|].
  split; [reflexivity|]. split; [reflexivity|].
  split; [vm_compute; congruence|]. split; [exact Hr|]. split; [exact Hw|].
  rewrite Hfin, Hr. reflexivity.
Defined.

End AddSpec.

(** * The names of the link farm *)
Module NameSpec.
Import Plink PlinkRest ErrnoFacts.

Lemma string_length_app (s1 s2 : string) :
  String.length (s1 +:+ s2) = (String.length s1 + String.length s2)%nat.
Proof. induction s1 as [|c s1 IH]; simpl; [done|]. by rewrite IH. Qed.

Lemma substring_whole (s : string) (n : nat) :
  (String.length s <= n)%nat -> String.substring 0 n s = s.
Proof.
  revert n. induction s as [|c s IH]; intros n Hn; simpl in *.
  - by destruct n.
  - destruct n as [|n]; [lia|]. rewrite IH; [done | lia].
Qed.

(** the decimal digits of [x], put before [s] *)
Lemma pretty_N_go_length (k : nat) : forall (x : N) (s : string),
  (x < 10 ^ N.of_nat k)%N ->
  (String.length (pretty_N_go x s) <= String.length s + k)%nat.
Proof.
  induction k as [|k IH]; intros x s Hx.
  - assert (x = 0%N) as -> by (simpl in Hx; lia).
    rewrite pretty_N_go_0. lia.
  - destruct (decide (x = 0%N)) as [->|Hne]; [rewrite pretty_N_go_0; lia|].
    rewrite pretty_N_go_step by lia.
    etrans; [apply IH|simpl; lia].
    apply N.Div0.div_lt_upper_bound.
    replace (N.of_nat (S k)) with (N.succ (N.of_nat k)) in Hx by lia.
    rewrite N.pow_succ_r' in Hx. lia.
Qed.

Lemma pretty_Z_length (k : nat) (z : Z) :
  (0 < k)%nat -> 0 <= z < 10 ^ Z.of_nat k ->
  (String.length (pretty z) <= k)%nat.
Proof.
  intros Hk [H0 Hz]. destruct z as [|p|p]; [simpl; lia| |lia].
  unfold pretty, pretty_Z, pretty, pretty_positive, pretty, pretty_N.
  rewrite decide_False by done.
  etrans; [apply (pretty_N_go_length k)|simpl; lia].
  apply N2Z.inj_lt. rewrite N2Z.inj_pow, nat_N_Z. simpl. lia.
Qed.

Lemma pretty_N_go_dotless (x : N) : forall s,
  dotless s -> dotless (pretty_N_go x s).
Proof.
  induction (N.lt_wf_0 x) as [x _ IH]; intros s Hs.
  destruct (decide (x = 0%N)) as [->|Hne]; [by rewrite pretty_N_go_0|].
  rewrite pretty_N_go_step by lia. apply IH.
  - apply N.div_lt; lia.
  - constructor; [|done]. unfold pretty_N_char. by repeat case_match.
Qed.

Lemma pretty_Z_dotless (z : Z) : 0 <= z -> dotless (pretty z).
Proof.
  intros Hz. destruct z as [|p|p]; [|..|lia].
  - repeat constructor. discriminate.
  - unfold pretty, pretty_Z, pretty, pretty_positive, pretty, pretty_N.
    rewrite decide_False by done. apply pretty_N_go_dotless. constructor.
Qed.

(** a text is split at its first dot in one way only *)
Lemma dot_split (a : string) : forall b c d,
  dotless a -> dotless c ->
  a +:+ "." +:+ b = c +:+ "." +:+ d -> a = c /\ b = d.
Proof.
  induction a as [|x a IH]; intros b c d Ha Hc Heq.
  - destruct c as [|y c]; simpl in Heq.
    + by injection Heq.
    + injection Heq as <- _. apply Forall_cons in Hc as [Hy _]. done.
  - destruct c as [|y c]; simpl in Heq.
    + injection Heq as -> _. apply Forall_cons in Ha as [Hx _]. done.
    + injection Heq as -> Heq.
      apply Forall_cons in Ha as [_ Ha]. apply Forall_cons in Hc as [_ Hc].
      destruct (IH b c d Ha Hc Heq) as [-> ->]. done.
Qed.

(** what [plink_name] writes and returns for numbers of 64 bits *)
Lemma plink_name_text (inode : inode) (bindex : Z) :
  ulong (i_ino inode) -> ulong (i_hino inode bindex) ->
  let text := pretty (i_ino inode) +:+ "." +:+ pretty (i_hino inode bindex) in
  (String.length text <= 41)%nat /\
  plink_name PLINK_NAME_LEN inode bindex =
    (text, Z.of_nat (String.length text)) /\
  qstr text (Z.of_nat (String.length text)) = text.
Proof.
  intros [Hi0 Hi] [Hh0 Hh]. cbv zeta. unfold plink_name.
  assert (Hlen : (String.length (pretty (i_ino inode) +:+ "." +:+
                    pretty (i_hino inode bindex)) <= 41)%nat).
  { rewrite !string_length_app. simpl.
    pose proof (pretty_Z_length 20 (i_ino inode)) as H1.
    pose proof (pretty_Z_length 20 (i_hino inode bindex)) as H2.
    assert (2 ^ 64 < 10 ^ Z.of_nat 20) by (vm_compute; reflexivity).
    specialize (H1 ltac:(lia) ltac:(lia)).
    specialize (H2 ltac:(lia) ltac:(lia)). lia. }
  split; [exact Hlen|]. split.
  - f_equal. apply substring_whole. unfold PLINK_NAME_LEN. simpl Z.to_nat.
    lia.
  - unfold qstr. apply substring_whole. lia.
Qed.

(** X5.  The buffer of [PLINK_NAME_LEN] bytes is large enough: for inode
    numbers that fit an [unsigned long] of 64 bits, [plink_name] writes
    the whole of "<ino>.<h_ino>", at most 41 characters, and the length
    it returns is the length of what the buffer holds, so that the name
    looked up and linked is that text, not a prefix of it. *)
Theorem plink_name_fits (inode : inode) (bindex : Z) :
  ulong (i_ino inode) -> ulong (i_hino inode bindex) ->
  let text := pretty (i_ino inode) +:+ "." +:+ pretty (i_hino inode bindex) in
  let '(a, rlen) := plink_name PLINK_NAME_LEN inode bindex in
  a = text /\ rlen = Z.of_nat (String.length text) /\
  rlen < PLINK_NAME_LEN /\ qstr a rlen = text.
Proof.
  intros Hi Hh. cbv zeta.
  destruct (plink_name_text inode bindex Hi Hh) as (Hlen & -> & Hq).
  split; [done|]. split; [done|]. split; [|exact Hq].
  unfold PLINK_NAME_LEN. lia.
Qed.

(** X6.  Names do not collide: two inodes, each with the native inode
    behind it in its branch, get the same name in a link farm only if
    both the inode numbers and the native inode numbers are the same. *)
Theorem plink_name_inj (i1 i2 : inode) (b1 b2 : Z) :
  ulong (i_ino i1) -> ulong (i_hino i1 b1) ->
  ulong (i_ino i2) -> ulong (i_hino i2 b2) ->
  (let '(a, rlen) := plink_name PLINK_NAME_LEN i1 b1 in qstr a rlen) =
  (let '(a, rlen) := plink_name PLINK_NAME_LEN i2 b2 in qstr a rlen) ->
  i_ino i1 = i_ino i2 /\ i_hino i1 b1 = i_hino i2 b2.
Proof.
  intros H1 H1' H2 H2'.
  destruct (plink_name_text i1 b1 H1 H1') as (_ & -> & ->).
  destruct (plink_name_text i2 b2 H2 H2') as (_ & -> & ->).
  intros Heq. apply dot_split in Heq as [Ha Hb].
  - split; by apply (inj pretty).
  - apply pretty_Z_dotless, H1.
  - apply pretty_Z_dotless, H2.
Qed.

(** X5, for the inode 42 behind which the native inode 7 stands. *)
Lemma plink_name_fits_witness :
  ulong (i_ino sample_inode) /\ ulong (i_hino sample_inode 0) /\
  let '(a, rlen) := plink_name PLINK_NAME_LEN sample_inode 0 in
  a = "42.7" /\ rlen = 4 /\ rlen < PLINK_NAME_LEN /\ qstr a rlen = "42.7".
Proof.
  assert (H1 : ulong (i_ino sample_inode)) by (vm_compute; split; congruence).
  assert (H2 : ulong (i_hino sample_inode 0))
    by (vm_compute; split; congruence).
  split; [exact H1|]. split; [exact H2|].
  exact (plink_name_fits sample_inode 0 H1 H2).
Defined.

(** X6, for the same inode in the branches 0 and 1. *)
Lemma plink_name_inj_witness :
  ulong (i_ino sample_inode) /\ ulong (i_hino sample_inode 0) /\
  ulong (i_hino sample_inode 1) /\
  tgtname_of sample_inode 0 = tgtname_of sample_inode 1 /\
  i_ino sample_inode = i_ino sample_inode /\
  i_hino sample_inode 0 = i_hino sample_inode 1.
Proof.
  assert (H1 : ulong (i_ino sample_inode)) by (vm_compute; split; congruence).
  assert (H2 : ulong (i_hino sample_inode 0))
    by (vm_compute; split; congruence).
  assert (H3 : ulong (i_hino sample_inode 1))
    by (vm_compute; split; congruence).
  assert (He : tgtname_of sample_inode 0 = tgtname_of sample_inode 1)
    by reflexivity.
  split; [exact H1|]. split; [exact H2|]. split; [exact H3|].
  split; [exact He|].
  exact (plink_name_inj sample_inode sample_inode 0 1 H1 H2 H1 H3 He).
Defined.

End NameSpec.

(** * Looking a pseudo-link up and freeing the table *)
Module RestSpec.
Import Plink PlinkRest ErrnoFacts.

Section Rest.
Context {K : constants}.

Ltac run :=
  cbv [au_plink_lkup au_do_plink_lkup PlinkRest.au_wkq_wait
       au_plink_put au_plink_clean lift
       vfsub_lkup_one iput
       mbind PlinkRest.M_bind Plink.M_bind mret PlinkRest.M_ret Plink.M_ret
       PlinkRest.get PlinkRest.modify PlinkRest.ev
       Plink.get Plink.modify Plink.ev
       PlinkRest.result PlinkRest.final PlinkRest.trace].

Lemma set_i_count_twice c c' w :
  set_i_count c' (set_i_count c w) = set_i_count c' w.
Proof. reflexivity. Qed.

Lemma iput_each_spec (l : list Z) : forall w,
  exists c,
    iput_each l w = (tt, set_i_count c w, E_iput <$> l) /\
    forall x, default 0 (c !! x) = refs x w - Z.of_nat (count_of x l).
Proof.
  induction l as [|a l IH]; intros w.
  - exists (i_count w). split; [by destruct w|]. intros x.
    unfold refs, count_of. simpl. lia.
  - cbn [iput_each].
    cbv [iput mbind Plink.M_bind Plink.ev Plink.modify]. cbn [fst snd app].
    destruct (IH (set_i_count (<[a := refs a w - 1]> (i_count w)) w))
      as (c & Hc & Hx).
    rewrite Hc. exists c. split; [reflexivity|]. intros x. rewrite Hx.
    unfold refs, count_of. cbn [i_count set_i_count]. rewrite filter_cons.
    destruct (decide (a = x)) as [->|Hne].
    + rewrite lookup_insert_eq. cbn [default from_option id length].
      unfold refs. lia.
    + rewrite lookup_insert_ne by congruence. lia.
Qed.

Lemma count_of_app a l1 l2 :
  count_of a (l1 ++ l2) = (count_of a l1 + count_of a l2)%nat.
Proof. unfold count_of. by rewrite filter_app, length_app. Qed.

Lemma warnings_app l1 l2 :
  warnings (l1 ++ l2) = (warnings l1 + warnings l2)%nat.
Proof. unfold warnings. by rewrite filter_app, length_app. Qed.

Lemma warnings_plink l : warnings (E_plink <$> l) = 0%nat.
Proof.
  induction l as [|e l IH]; [done|]. unfold warnings in *. simpl.
  rewrite filter_cons. rewrite decide_False by discriminate. exact IH.
Qed.

Lemma iputs_app l1 l2 : iputs (l1 ++ l2) = iputs l1 ++ iputs l2.
Proof. unfold iputs. apply omap_app. Qed.

Lemma iputs_iput l : iputs (E_plink <$> (E_iput <$> l)) = l.
Proof.
  induction l as [|a l IH]; [done|]. unfold iputs in *.
  rewrite !fmap_cons. cbn [omap list_omap]. by f_equal.
Qed.

(** the loop of [au_plink_put] from bucket [i] on *)
Lemma au_plink_put_for_spec (verbose : Z) (n : nat) : forall i warned w,
  0 <= i -> (Z.to_nat i + n)%nat = length (si_plink w) ->
  exists c tr,
    au_plink_put_for n i warned verbose w =
      (tt,
       set_plink (take (Z.to_nat i) (si_plink w) ++ replicate n [])
         (set_i_count c w), tr) /\
    (forall x, default 0 (c !! x) =
               refs x w -
               Z.of_nat (count_of x (concat (drop (Z.to_nat i) (si_plink w))))) /\
    iputs tr = concat (drop (Z.to_nat i) (si_plink w)) /\
    warnings tr =
      (if negb (nz warned) && nz verbose &&
          dirty (drop (Z.to_nat i) (si_plink w))
       then 1%nat else 0%nat).
Proof.
  induction n as [|n IH]; intros i warned w Hi Hlen.
  - exists (i_count w), []. cbn [au_plink_put_for].
    rewrite drop_ge by lia. rewrite take_ge by lia.
    rewrite app_nil_r. simpl. split; [by destruct w|].
    split; [intros x; unfold refs, count_of; simpl; lia|]. split; [done|].
    by rewrite andb_false_r.
  - cbn [au_plink_put_for].
    destruct (si_plink w !! Z.to_nat i) as [l|] eqn:Hl;
      [|apply lookup_ge_None in Hl; lia].
    assert (Hd : drop (Z.to_nat i) (si_plink w) =
                 l :: drop (S (Z.to_nat i)) (si_plink w))
      by (by apply drop_S).
    destruct (iput_each_spec l w) as (c1 & Hc1 & Hx1).
    set (warned' := if negb (nz warned) && nz verbose &&
                       negb (hlist_bl_empty l) then 1 else warned).
    set (w1 := set_hbl i [] (set_i_count c1 w)).
    destruct (IH (i + 1) warned' w1) as (c & tr & Hr & Hx & Hp & Hw).
    { lia. }
    { unfold w1, set_hbl. cbn [si_plink set_plink set_i_count].
      rewrite length_insert. lia. }
    assert (Hhbl : hbl i w = l) by (unfold hbl; by rewrite Hl).
    assert (Hs1 : si_plink w1 = <[Z.to_nat i := []]> (si_plink w))
      by reflexivity.
    assert (Hdrop : drop (Z.to_nat (i + 1)) (si_plink w1) =
                    drop (S (Z.to_nat i)) (si_plink w)).
    { rewrite Hs1. replace (Z.to_nat (i + 1)) with (S (Z.to_nat i)) by lia.
      apply drop_insert_lt. lia. }
    assert (Htake : take (Z.to_nat (i + 1)) (si_plink w1) ++ replicate n [] =
                    take (Z.to_nat i) (si_plink w) ++ replicate (S n) []).
    { rewrite Hs1. replace (Z.to_nat (i + 1)) with (S (Z.to_nat i)) by lia.
      rewrite (take_S_r _ _ []).
      - rewrite take_insert_ge by lia. rewrite <- app_assoc. reflexivity.
      - apply list_lookup_insert_eq. by eapply lookup_lt_Some. }
    rewrite Hdrop in Hx, Hp, Hw. rewrite Htake in Hr.
    exists c.
    exists ((if negb (nz warned) && nz verbose && negb (hlist_bl_empty l)
             then [E_pr_warn_not_flushed] else []) ++
            (E_plink <$> (E_iput <$> l)) ++ tr).
    split; [|split; [|split]].
    + cbv [mbind PlinkRest.M_bind PlinkRest.get PlinkRest.modify
           PlinkRest.ev lift mret PlinkRest.M_ret]. cbn [fst snd].
      rewrite Hhbl.
      destruct (negb (nz warned) && nz verbose && negb (hlist_bl_empty l))
        eqn:Hb; cbn [fst snd]; rewrite Hc1; cbn [fst snd];
        fold w1; subst warned'; rewrite Hr; cbn [app]; reflexivity.
    + intros x. rewrite Hx, Hd, concat_cons, count_of_app.
      unfold w1, refs at 1, set_hbl.
      cbn [i_count set_i_count set_plink]. rewrite Hx1. lia.
    + rewrite !iputs_app, iputs_iput, Hp, Hd.
      destruct (negb (nz warned) && nz verbose && negb (hlist_bl_empty l));
        reflexivity.
    + rewrite !warnings_app, warnings_plink, Hw, Hd. subst warned'.
      unfold dirty. cbn [existsb].
      destruct (nz warned) eqn:E1, (nz verbose) eqn:E2,
        (hlist_bl_empty l) eqn:E3;
        cbn [negb andb orb]; rewrite ?E1; cbn [negb andb orb];
        reflexivity.
Qed.

(** what [au_plink_put] leaves *)
Lemma au_plink_put_final (verbose : Z) (w : world) :
  table_wf w ->
  exists c tr,
    au_plink_put verbose w =
      (tt, set_plink (replicate (Z.to_nat AuPlink_NHASH) [])
             (set_i_count c w), tr) /\
    (forall x, default 0 (c !! x) = refs x w - Z.of_nat (held x w)) /\
    iputs tr = concat (si_plink w) /\
    warnings tr = (if nz verbose && dirty (si_plink w) then 1%nat else 0%nat).
Proof.
  intros [Hpos Hlen].
  destruct (au_plink_put_for_spec verbose (Z.to_nat AuPlink_NHASH) 0 0 w)
    as (c & tr & Hr & Hx & Hp & Hw); [lia | simpl; lia |].
  exists c, tr. split; [exact Hr|]. split; [exact Hx|]. split; [exact Hp|].
  exact Hw.
Qed.

Lemma count_of_replicate a n : count_of a (concat (replicate n [])) = 0%nat.
Proof. induction n as [|n IH]; [done|]. exact IH. Qed.

(** X10.  [au_plink_put] empties every chain of the table and releases,
    with one [iput] each and in the order of the table, exactly the
    references the table held: afterwards the table holds nothing and
    the reference count of every inode is less by the number of its
    entries.  It warns at most once, and exactly when it is asked to be
    verbose and finds a chain that is not empty.  The link farms, the
    mount flags and the maintenance gate stay as they were. *)
Theorem au_plink_put_frees (verbose : Z) (w : world) :
  table_wf w ->
  let r := au_plink_put verbose w in
  si_plink (PlinkRest.final r) = replicate (Z.to_nat AuPlink_NHASH) [] /\
  (forall x, held x (PlinkRest.final r) = 0%nat) /\
  (forall x, refs x (PlinkRest.final r) = refs x w - Z.of_nat (held x w)) /\
  iputs (PlinkRest.trace r) = concat (si_plink w) /\
  warnings (PlinkRest.trace r) =
    (if nz verbose && dirty (si_plink w) then 1%nat else 0%nat) /\
  wbr_plink (PlinkRest.final r) = wbr_plink w /\
  si_mntflags (PlinkRest.final r) = si_mntflags w /\
  si_plink_maint_pid (PlinkRest.final r) = si_plink_maint_pid w /\
  si_plink_wq (PlinkRest.final r) = si_plink_wq w.
Proof.
  intros Hwf. cbv zeta.
  destruct (au_plink_put_final verbose w Hwf) as (c & tr & -> & Hx & Hp & Hw).
  cbv [PlinkRest.final PlinkRest.trace]. cbn [fst snd].
  split; [reflexivity|]. split.
  { intros x. unfold held. cbn [si_plink set_plink].
    apply count_of_replicate. }
  split; [intros x; rewrite <- Hx; reflexivity|].
  split; [exact Hp|]. split; [exact Hw|]. done.
Qed.

(** X11.  [au_plink_clean] frees the table, between taking and releasing
    the write lock of the superblock, only when the PLINK option is on.
    With the option off it does nothing in between: a table that still
    holds entries keeps them, and the references they stand for. *)
Theorem au_plink_clean_gated (verbose : Z) (w : world) :
  let r := au_plink_clean verbose w in
  (au_opt_test (si_mntflags w) AuOpt_PLINK = 0 ->
   r = (tt, w, [E_plink E_si_write_lock; E_plink E_si_write_unlock])) /\
  (au_opt_test (si_mntflags w) AuOpt_PLINK <> 0 ->
   PlinkRest.final r = PlinkRest.final (au_plink_put verbose w) /\
   PlinkRest.trace r =
     E_plink E_si_write_lock :: PlinkRest.trace (au_plink_put verbose w) ++
     [E_plink E_si_write_unlock]).
Proof.
  cbv zeta. unfold au_plink_clean.
  cbv [mbind PlinkRest.M_bind mret PlinkRest.M_ret PlinkRest.get
       PlinkRest.ev PlinkRest.final PlinkRest.trace]. cbn [fst snd].
  split; intros H.
  - apply nz_false in H. rewrite H. reflexivity.
  - apply nz_true in H. rewrite H.
    destruct (au_plink_put verbose w) as [[[] w'] l]. cbn [fst snd app].
    split; reflexivity.
Qed.

(** the result of [au_plink_lkup] when the lookup is run *)
Lemma au_plink_lkup_farm (o : oracle) (inode : inode) (bindex : Z)
    (w : world) :
  o_root o = true \/ o_wkq_err o = 0 ->
  PlinkRest.result (au_plink_lkup o inode bindex w) =
    (o_lkup o 0, if IS_ERR (o_lkup o 0) then None
                 else farm bindex w !! tgtname_of inode bindex).
Proof.
  intros Hroot. unfold au_plink_lkup, tgtname_of.
  destruct (plink_name PLINK_NAME_LEN inode bindex) as [a rlen].
  run. cbn [fst snd fmap list_fmap app].
  destruct (o_root o); cbn [negb fst snd]; [reflexivity|].
  destruct Hroot as [H|H]; [discriminate H|].
  apply nz_false in H. rewrite H. cbn [fst snd]. rewrite H. reflexivity.
Qed.

(** X12.  [au_plink_lkup] only looks: the state is never changed.  For a
    caller that is not root the lookup is delegated, and if the
    delegation fails its error is the result, as an [ERR_PTR].  In every
    other run the result is what [vfsub_lkup_one] finds under the name of
    the inode in the link farm of the branch, and the lookup is made
    between taking and releasing the shared lock of the directory of the
    link farm. *)
Theorem au_plink_lkup_cases (o : oracle) (inode : inode) (bindex : Z)
    (w : world) :
  let r := au_plink_lkup o inode bindex w in
  let tgt := tgtname_of inode bindex in
  PlinkRest.final r = w /\
  (o_root o = false -> o_wkq_err o <> 0 ->
   PlinkRest.result r = (o_wkq_err o, None)) /\
  (o_root o = true \/ o_wkq_err o = 0 ->
   PlinkRest.result r =
     (o_lkup o 0, if IS_ERR (o_lkup o 0) then None
                  else farm bindex w !! tgt) /\
   exists pre,
     PlinkRest.trace r =
       pre ++ [E_inode_lock_shared bindex;
               E_plink (E_vfsub_lkup_one tgt (o_lkup o 0));
               E_inode_unlock_shared bindex]).
Proof.
  cbv zeta. unfold au_plink_lkup, tgtname_of.
  destruct (plink_name PLINK_NAME_LEN inode bindex) as [a rlen].
  run. cbn [fst snd fmap list_fmap app].
  destruct (o_root o); cbn [negb fst snd].
  - split; [reflexivity|]. split; [discriminate|]. intros _.
    split; [reflexivity|]. by exists [].
  - destruct (nz (o_wkq_err o)) eqn:Hw; cbn [fst snd]; rewrite ?Hw;
      cbn [fst snd app].
    + apply nz_true in Hw. split; [reflexivity|]. split; [done|].
      intros [H|H]; [discriminate H | congruence].
    + apply nz_false in Hw. split; [reflexivity|].
      split; [intros _ H; congruence|]. intros _.
      split; [reflexivity|].
      by exists [E_plink (E_au_wkq_wait (o_wkq_err o))].
Qed.

(** X13.  What [au_plink_append] has linked is found again: when the call
    inserts the inode and the link is made, [au_plink_test] says that the
    inode is pseudo-linked, and [au_plink_lkup], if its lookup does not
    fail, finds under the branch a positive dentry whose inode is the
    native inode that was linked. *)
Theorem au_plink_append_found (o1 o2 : oracle) (inode : inode) (bindex : Z)
    (h : h_dentry) (w : world) :
  table_wf w ->
  i_addr inode ∉ hbl (au_plink_hash (i_ino inode)) w ->
  Plink.result (whplink o1 h inode bindex w) = 0 ->
  o_root o2 = true \/ o_wkq_err o2 = 0 ->
  IS_ERR (o_lkup o2 0) = false ->
  let w1 := Plink.final (au_plink_append o1 inode bindex h w) in
  Plink.result (au_plink_test inode w1) = 1 /\
  PlinkRest.result (au_plink_lkup o2 inode bindex w1) =
    (o_lkup o2 0, Some (h_d_ino h)).
Proof.
  intros Hwf Hn Hok Hroot Hl. cbv zeta.
  pose proof (TableSpec.hash_range (i_ino inode) w Hwf) as Hr.
  destruct (TableSpec.au_plink_append_final o1 inode bindex h w Hwf)
    as [(_ & _ & [Hin|Hne])|(_ & _ & Ht & _ & Hf)]; [done..|].
  split.
  - cbv [au_plink_test mbind Plink.M_bind mret Plink.M_ret Plink.get
         Plink.ev Plink.result]. cbn [fst snd].
    unfold hbl. rewrite Ht, list_lookup_insert_eq by lia.
    cbn [default from_option id]. apply TableSpec.hlist_bl_find_head.
  - rewrite (au_plink_lkup_farm o2 inode bindex
               (Plink.final (au_plink_append o1 inode bindex h w)) Hroot).
    rewrite Hl. f_equal. unfold farm. rewrite Hf.
    destruct (TableSpec.whplink_farm o1 h inode bindex w) as (_ & _ & H).
    exact (H Hok).
Qed.


End Rest.

Lemma w_two_wf : table_wf (K := K5) w_two.
Proof. split; [vm_compute; reflexivity | reflexivity]. Qed.

(** X10, for a table that holds two inodes. *)
Lemma au_plink_put_frees_witness :
  let r := au_plink_put (K := K5) 1 w_two in
  table_wf (K := K5) w_two /\
  iputs (PlinkRest.trace r) = [8192; 4096] /\
  warnings (PlinkRest.trace r) = 1%nat /\
  refs 4096 (PlinkRest.final r) = 1 /\
  refs 8192 (PlinkRest.final r) = 0.
Proof.
  cbv zeta.
  destruct (au_plink_put_frees (K := K5) 1 w_two w_two_wf)
    as (_ & _ & Hr & Hi & Hw & _).
  split; [exact w_two_wf|]. split; [exact Hi|]. split; [exact Hw|].
  split; [exact (Hr 4096) | exact (Hr 8192)].
Defined.

(** X13, at the default mount. *)
Lemma au_plink_append_found_witness :
  let w1 := Plink.final (au_plink_append (K := K5) o_ok sample_inode 0
                           sample_h_dentry w_plink) in
  table_wf (K := K5) w_plink /\
  (i_addr sample_inode
     ∉ hbl (au_plink_hash (K := K5) (i_ino sample_inode)) w_plink) /\
  Plink.result (whplink o_ok sample_h_dentry sample_inode 0 w_plink) = 0 /\
  o_wkq_err o_user = 0 /\
  IS_ERR (o_lkup o_user 0) = false /\
  Plink.result (au_plink_test (K := K5) sample_inode w1) = 1 /\
  PlinkRest.result (au_plink_lkup o_user sample_inode 0 w1) = (1, Some 7).
Proof.
  cbv zeta.
  assert (Hn : i_addr sample_inode
                 ∉ hbl (au_plink_hash (K := K5) (i_ino sample_inode)) w_plink)
    by (vm_compute; apply not_elem_of_nil).
  assert (Hok : Plink.result
                  (whplink o_ok sample_h_dentry sample_inode 0 w_plink) = 0)
    by reflexivity.
  split; [exact TableSpec.sample_table_wf|]. split; [exact Hn|].
  split; [exact Hok|]. split; [reflexivity|]. split; [reflexivity|].
  exact (au_plink_append_found (K := K5) o_ok o_user sample_inode 0
           sample_h_dentry w_plink TableSpec.sample_table_wf Hn Hok
           (or_intror eq_refl) eq_refl).
Defined.


End RestSpec.

(** * The mount flags *)
Module OptsSpec.
Import ErrnoFacts.

(** equations of flag words, bit by bit *)
Ltac bitwise :=
  apply Z.bits_inj'; intros n Hn;
  repeat match goal with
         | H : _ = _ :> Z |- _ =>
             apply (f_equal (fun z => Z.testbit z n)) in H
         end;
  repeat first [ rewrite Z.land_spec in * | rewrite Z.lor_spec in *
               | rewrite Z.lnot_spec in * by exact Hn
               | rewrite Z.bits_0 in * ];
  repeat match goal with
         | H : context [Z.testbit ?a n] |- _ =>
             destruct (Z.testbit a n); cbn [negb andb orb] in *
         | |- context [Z.testbit ?a n] =>
             destruct (Z.testbit a n); cbn [negb andb orb] in *
         end;
  congruence.

(** a flag word fits an [unsigned int] when it has no bit above bit 31 *)
Lemma u32_land (x : Z) :
  0 <= x -> (x < 2 ^ 32 <-> Z.land x (Z.ones 32) = x).
Proof.
  intros Hx. rewrite Z.land_ones by lia. split.
  - intros H. apply Z.mod_small. lia.
  - intros E. rewrite <- E. apply Z.mod_pos_bound. lia.
Qed.

(** X15.  [au_opt_set_udba] selects one UDBA mode: whatever modes were
    set before, the UDBA part of the flags is afterwards the mode given,
    every flag outside that part is as it was, and of two calls in a row
    with a UDBA mode each only the second counts.  Flags that fit an
    [unsigned int] still do. *)
Theorem au_opt_set_udba_selects (flags name : Z) :
  Z.land name AuOptMask_UDBA = name ->
  Z.land (au_opt_set_udba flags name) AuOptMask_UDBA = name /\
  (forall f, Z.land f AuOptMask_UDBA = 0 ->
     au_opt_test (au_opt_set_udba flags name) f = au_opt_test flags f) /\
  (forall name', Z.land name' AuOptMask_UDBA = name' ->
     au_opt_set_udba (au_opt_set_udba flags name') name =
     au_opt_set_udba flags name) /\
  (0 <= flags < 2 ^ 32 -> 0 <= au_opt_set_udba flags name < 2 ^ 32).
Proof.
  intros Hname. unfold au_opt_set_udba, au_opt_test.
  split; [bitwise|]. split; [intros f Hf; bitwise|].
  split; [intros name' Hname'; bitwise|].
  intros [H0 H32].
  assert (Hn0 : 0 <= name).
  { rewrite <- Hname. apply Z.land_nonneg. right. by vm_compute. }
  assert (Hr0 : 0 <= Z.lor (Z.land flags (Z.lnot AuOptMask_UDBA)) name).
  { apply Z.lor_nonneg. split; [|exact Hn0]. apply Z.land_nonneg. by left. }
  split; [exact Hr0|]. apply u32_land; [exact Hr0|].
  apply u32_land in H32; [|exact H0].
  assert (Hm : Z.land AuOptMask_UDBA (Z.ones 32) = AuOptMask_UDBA)
    by reflexivity.
  bitwise.
Qed.

(** X16.  [au_opt_set] and [au_opt_clr] change the flag named and no
    other: after the one [au_opt_test] finds it, after the other it does
    not, a flag that shares no bit with it tests as before, and each
    undoes the other on flags where the flag was clear, or was set. *)
Theorem au_opt_set_clr (flags name : Z) :
  au_opt_test (au_opt_set flags name) name = name /\
  au_opt_test (au_opt_clr flags name) name = 0 /\
  (forall f, Z.land f name = 0 ->
     au_opt_test (au_opt_set flags name) f = au_opt_test flags f /\
     au_opt_test (au_opt_clr flags name) f = au_opt_test flags f) /\
  (au_opt_test flags name = 0 ->
   au_opt_clr (au_opt_set flags name) name = flags) /\
  (au_opt_test flags name = name ->
   au_opt_set (au_opt_clr flags name) name = flags).
Proof.
  unfold au_opt_set, au_opt_clr, au_opt_test.
  split; [bitwise|]. split; [bitwise|].
  split; [intros f Hf; split; bitwise|].
  split; intros H; bitwise.
Qed.

(** X17.  In a kernel without CONFIG_PROC_FS [au_opts_plink] takes the
    PLINK option out of the mount flags and leaves every other flag and
    the UDBA mode; with CONFIG_PROC_FS it changes nothing.  A superblock
    whose flags went through it without CONFIG_PROC_FS has the
    maintenance gate open: [au_plink_maint] returns 0 at once and
    [au_plink_maint_enter] records no owner. *)
Theorem au_opts_plink_off (mntflags : Z) :
  au_opts_plink true mntflags = mntflags /\
  au_opt_test (au_opts_plink false mntflags) AuOpt_PLINK = 0 /\
  (forall f, Z.land f AuOpt_PLINK = 0 ->
     au_opt_test (au_opts_plink false mntflags) f = au_opt_test mntflags f) /\
  Z.land (au_opts_plink false mntflags) AuOptMask_UDBA =
    Z.land mntflags AuOptMask_UDBA /\
  (forall (K : Plink.constants) (w : Plink.world) current flags,
     Plink.si_mntflags w = au_opts_plink false mntflags ->
     Plink.au_plink_maint current flags w = (Plink.Ret 0, w, []) /\
     Plink.final (Plink.au_plink_maint_enter current w) = w).
Proof.
  unfold au_opts_plink, au_opt_test.
  assert (Hoff : Z.land (Z.land mntflags (Z.lnot AuOpt_PLINK)) AuOpt_PLINK
                 = 0) by bitwise.
  split; [reflexivity|]. split; [exact Hoff|].
  split; [intros f Hf; bitwise|]. split.
  - assert (Hd : Z.land AuOptMask_UDBA AuOpt_PLINK = 0) by reflexivity.
    bitwise.
  - intros K w current flags Hw.
    assert (Hp : au_opt_test (Plink.si_mntflags w) AuOpt_PLINK = 0)
      by (unfold au_opt_test; rewrite Hw; exact Hoff).
    split.
    + by apply GateSpec.maint_disabled.
    + by rewrite GateSpec.enter_disabled.
Qed.

(** X15, at the default flags: the mode goes from REVAL to NONE, PLINK
    stays. *)
Lemma au_opt_set_udba_selects_witness :
  Z.land AuOpt_UDBA_NONE AuOptMask_UDBA = AuOpt_UDBA_NONE /\
  Z.land (au_opt_set_udba AuOpt_Def AuOpt_UDBA_NONE) AuOptMask_UDBA
    = AuOpt_UDBA_NONE /\
  au_opt_test (au_opt_set_udba AuOpt_Def AuOpt_UDBA_NONE) AuOpt_PLINK
    = AuOpt_PLINK.
Proof.
  assert (H : Z.land AuOpt_UDBA_NONE AuOptMask_UDBA = AuOpt_UDBA_NONE)
    by reflexivity.
  destruct (au_opt_set_udba_selects AuOpt_Def AuOpt_UDBA_NONE H)
    as (H1 & H2 & _).
  split; [exact H|]. split; [exact H1|].
  rewrite (H2 AuOpt_PLINK); reflexivity.
Defined.

End OptsSpec.
